(** * BCParks assets workflow: a shallow embedding of
      [bcparks_assets_data_workflow.py] and the properties of its
      read, transform and publish stages.

    The script is a linear pipeline: read the asset tables of a Postgres
    schema, clean them with pandas, publish two GeoJSON items to ArcGIS
    Online.  Python control flow (exceptions, [try]/[except]/[finally],
    attribute mutation, logging) is embedded with an outcome type and
    explicit state passing; pandas frames are embedded as labelled, typed
    columns over rows of cells, duplicated labels included; the SQL the
    readers send is kept as syntax; the libraries the script calls into
    (the database driver, pandas' SQL reader and [concat], [json.dumps],
    the ArcGIS client) are parameters whose answers the script reacts to.

    Layout: the embedding first ([Py], [Pandas], the transformer,
    [Postgres], [Reader], [AGO]), then the vocabulary of the statements and
    the concrete frames and runs, then the properties. *)

From Stdlib Require Import List String Ascii Bool ZArith QArith Lia.
From Stdlib Require Import DecimalString.
Import ListNotations.
Set Warnings "-register-all".
Open Scope string_scope.
Open Scope list_scope.

(* ===================================================================== *)
(** * Python exceptions and outcomes *)
(* ===================================================================== *)

Module Py.

(** The exception classes the script names or can meet.  [PgError] is
    [psycopg2.Error], [InvalidIndexError] is pandas'. *)
Inductive exn_class : Type :=
| BaseException | KeyboardInterrupt | Exception
| KeyError | TypeError | ValueError | AttributeError
| UnboundLocalError | RuntimeError | ConnectionError
| PgError | InterfaceError | DatabaseError | OperationalError
| ProgrammingError | InvalidIndexError.

(** Direct base class (intermediate classes such as [LookupError] or
    [NameError], which the script never names, are skipped). *)
Definition base (c : exn_class) : option exn_class :=
  match c with
  | BaseException => None
  | KeyboardInterrupt => Some BaseException
  | Exception => Some BaseException
  | KeyError | TypeError | ValueError | AttributeError
  | UnboundLocalError | RuntimeError | ConnectionError
  | PgError | InvalidIndexError => Some Exception
  | InterfaceError | DatabaseError => Some PgError
  | OperationalError | ProgrammingError => Some DatabaseError
  end.

Definition class_eqb (c d : exn_class) : bool :=
  match c, d with
  | BaseException, BaseException | KeyboardInterrupt, KeyboardInterrupt
  | Exception, Exception | KeyError, KeyError | TypeError, TypeError
  | ValueError, ValueError | AttributeError, AttributeError
  | UnboundLocalError, UnboundLocalError | RuntimeError, RuntimeError
  | ConnectionError, ConnectionError | PgError, PgError
  | InterfaceError, InterfaceError | DatabaseError, DatabaseError
  | OperationalError, OperationalError
  | ProgrammingError, ProgrammingError
  | InvalidIndexError, InvalidIndexError => true
  | _, _ => false
  end.

(** [issubclass c d]; the hierarchy above is four levels deep. *)
Fixpoint issubclass_fuel (n : nat) (c d : exn_class) : bool :=
  class_eqb c d ||
  match n with
  | O => false
  | S n' => match base c with
            | Some b => issubclass_fuel n' b d
            | None => false
            end
  end.

Definition issubclass : exn_class -> exn_class -> bool := issubclass_fuel 4.

(** An exception instance: its class and [str(e)]. *)
Record exn : Type := mk_exn { exn_class_of : exn_class; exn_str : string }.

Definition isinstance (e : exn) (c : exn_class) : bool :=
  issubclass (exn_class_of e) c.

(** What evaluating a piece of the script yields.  [Unmodelled] marks the
    few pandas paths this development does not follow (frame-shaped
    masks obtained from a duplicated column label); no statement below
    draws a conclusion from it. *)
Inductive outcome (A : Type) : Type :=
| Ok (a : A)
| Raise (e : exn)
| Unmodelled.
Arguments Ok {A} a.
Arguments Raise {A} e.
Arguments Unmodelled {A}.

Definition bind {A B} (m : outcome A) (k : A -> outcome B) : outcome B :=
  match m with
  | Ok a => k a
  | Raise e => Raise e
  | Unmodelled => Unmodelled
  end.

Definition raise {A} (c : exn_class) (msg : string) : outcome A :=
  Raise (mk_exn c msg).

(** [[f x for x in l]] where [f] may raise: left to right, the first
    failure wins. *)
Fixpoint mapM {A B} (f : A -> outcome B) (l : list A) : outcome (list B) :=
  match l with
  | [] => Ok []
  | x :: t => bind (f x) (fun y => bind (mapM f t) (fun ys => Ok (y :: ys)))
  end.

(** What a call into a library (the database driver, pandas' reader, the
    ArcGIS client) answers. *)
Inductive answer (A : Type) : Type :=
| Returned (a : A)
| Raised (e : exn).
Arguments Returned {A} a.
Arguments Raised {A} e.

Definition call {A} (r : answer A) : outcome A :=
  match r with
  | Returned a => Ok a
  | Raised e => Raise e
  end.

(** The [logging] module, as the list of records emitted so far. *)
Inductive level : Type := INFO | WARNING | ERROR.

Record log_record : Type :=
  mk_record { levelname : level; message : string }.

(** Statements over a mutable state [S]: the state after running and what
    the run yields.  A raise keeps the mutations made before it. *)
Definition prog (S A : Type) : Type := S -> S * outcome A.

Definition ret {S A} (a : A) : prog S A := fun s => (s, Ok a).

Definition pbind {S A B} (m : prog S A) (k : A -> prog S B) : prog S B :=
  fun s => match m s with
           | (s', Ok a) => k a s'
           | (s', Raise e) => (s', Raise e)
           | (s', Unmodelled) => (s', Unmodelled)
           end.

Definition get {S} : prog S S := fun s => (s, Ok s).
Definition modify {S} (f : S -> S) : prog S unit := fun s => (f s, Ok tt).
Definition lift {S A} (o : outcome A) : prog S A := fun s => (s, o).
Definition praise {S A} (c : exn_class) (msg : string) : prog S A :=
  lift (raise c msg).

(** [try: body except ...: handler]: [handler e] is [None] when no
    [except] clause matches [e]. *)
Definition try_except {S A} (body : prog S A)
           (handler : exn -> option (prog S A)) : prog S A :=
  fun s => match body s with
           | (s', Raise e) =>
               match handler e with
               | Some h => h s'
               | None => (s', Raise e)
               end
           | r => r
           end.

(** [try: body finally: fin]: [fin] runs in every case; what [body]
    yielded stands unless [fin] itself raises. *)
Definition try_finally {S A} (body : prog S A) (fin : prog S unit)
  : prog S A :=
  fun s => let (s', r) := body s in
           match fin s' with
           | (s'', Ok _) => (s'', r)
           | (s'', Raise e) => (s'', Raise e)
           | (s'', Unmodelled) => (s'', Unmodelled)
           end.

(** The line feed of the ["\n..."] literals. *)
Definition nl : string := String (Ascii.ascii_of_nat 10) EmptyString.

End Py.

Export Py.

Declare Scope py_scope.
Delimit Scope py_scope with py.
Notation "x <- m ;; k" := (Py.bind m (fun x => k))
  (at level 61, m at next level, right associativity) : py_scope.
Notation "x <~ m ;; k" := (Py.pbind m (fun x => k))
  (at level 61, m at next level, right associativity) : py_scope.
Notation "m >> k" := (Py.pbind m (fun _ => k))
  (at level 61, right associativity) : py_scope.
Open Scope py_scope.

(* ===================================================================== *)
(** * pandas frames *)
(* ===================================================================== *)

Module Pandas.

(** Geometries as shapely exposes them through [__geo_interface__]
    (two-dimensional coordinates). *)
Definition coord : Type := (Q * Q)%type.

Inductive geometry : Type :=
| Point (x y : Q)
| LineString (cs : list coord)
| Polygon (rings : list (list coord))
| MultiPoint (ps : list coord)
| MultiLineString (ls : list (list coord))
| MultiPolygon (ps : list (list (list coord))).

(** The three missing-value markers of pandas; [isna] holds of each. *)
Inductive na_kind : Type := PyNone | NaN | NaT.

(** One cell of a frame.  [Num] is a finite float, [Stamp] a
    [datetime]/[Timestamp] (nanoseconds since the epoch). *)
Inductive cell : Type :=
| Null (k : na_kind)
| Int (n : Z)
| Num (q : Q)
| Str (s : string)
| Bool (b : bool)
| Stamp (t : Z)
| Geo (g : geometry).

Inductive dtype : Type :=
| Float64 | Int64 | BoolDtype | Datetime64 | Object | GeometryDtype.

Definition dtype_eqb (a b : dtype) : bool :=
  match a, b with
  | Float64, Float64 | Int64, Int64 | BoolDtype, BoolDtype
  | Datetime64, Datetime64 | Object, Object
  | GeometryDtype, GeometryDtype => true
  | _, _ => false
  end.

Record column : Type := mk_column { label : string; dt : dtype }.

(** The default of the positional accesses below; never reached by a
    position in range. *)
Abbreviation no_column := (mk_column EmptyString Object).

(** A row keeps its index label, as pandas does through every filter. *)
Record row : Type := mk_row { idx : Z; cells : list cell }.

Record DataFrame : Type :=
  mk_frame { columns : list column; rows : list row }.

Record GeoDataFrame : Type :=
  mk_geoframe { frame : DataFrame; geometry_name : string; crs : string }.

Definition labels (df : DataFrame) : list string :=
  map label (columns df).

Definition shape0 (df : DataFrame) : nat := List.length (rows df).
Definition shape1 (df : DataFrame) : nat := List.length (columns df).

(** A cell conforms to the dtype of its column. *)
Definition cell_has_dtype (d : dtype) (c : cell) : bool :=
  match d, c with
  | Float64, (Num _ | Null NaN) => true
  | Int64, Int _ => true
  | BoolDtype, Bool _ => true
  | Datetime64, (Stamp _ | Null NaT) => true
  | Object, Geo _ => false
  | Object, _ => true
  | GeometryDtype, (Geo _ | Null PyNone) => true
  | _, _ => false
  end.

Fixpoint row_typed (cols : list column) (cs : list cell) : bool :=
  match cols, cs with
  | [], [] => true
  | c :: cols', v :: cs' => cell_has_dtype (dt c) v && row_typed cols' cs'
  | _, _ => false
  end.

(** Every row has one cell per column, of that column's dtype. *)
Definition well_typed (df : DataFrame) : bool :=
  forallb (fun r => row_typed (columns df) (cells r)) (rows df).

Definition isna (c : cell) : bool :=
  match c with Null _ => true | _ => false end.

(** Positions of the columns carrying label [l], counted from [i]. *)
Fixpoint positions_from (i : nat) (l : string) (ls : list string)
  : list nat :=
  match ls with
  | [] => []
  | x :: t => if String.eqb x l then i :: positions_from (S i) l t
              else positions_from (S i) l t
  end.

Definition positions (l : string) (ls : list string) : list nat :=
  positions_from 0 l ls.

(** [Index.get_indexer_for] behind [df[list_of_labels]] and
    [dropna(subset=...)]: every position of every wanted label, wanted
    label by wanted label; a label with no column is a [KeyError]. *)
Fixpoint get_indexer_for (wanted : list string) (ls : list string)
  : outcome (list nat) :=
  match wanted with
  | [] => Ok []
  | w :: t =>
      match positions w ls with
      | [] => raise KeyError w
      | ps => rest <- get_indexer_for t ls ;; Ok (ps ++ rest)
      end
  end.

Definition cell_at (r : row) (i : nat) : cell := nth i (cells r) (Null NaN).

Definition take_row (ix : list nat) (r : row) : row :=
  mk_row (idx r) (map (cell_at r) ix).

Definition take (ix : list nat) (df : DataFrame) : DataFrame :=
  mk_frame (map (fun i => nth i (columns df) no_column) ix)
           (map (take_row ix) (rows df)).

(** [df[[l1, ..., ln]]]. *)
Definition getitem_list (df : DataFrame) (wanted : list string)
  : outcome DataFrame :=
  ix <- get_indexer_for wanted (labels df) ;; Ok (take ix df).

(** [df[l]] used as a series: its position.  A missing label is a
    [KeyError]; a duplicated one yields a frame in pandas. *)
Definition get_loc (df : DataFrame) (l : string) : outcome nat :=
  match positions l (labels df) with
  | [] => raise KeyError l
  | [i] => Ok i
  | _ => Unmodelled
  end.

(** [df.rename(columns=mapping)]: labels absent from the mapping stay. *)
Fixpoint lookup (k : string) (m : list (string * string)) : option string :=
  match m with
  | [] => None
  | (k', v) :: t => if String.eqb k' k then Some v else lookup k t
  end.

Definition rename_label (m : list (string * string)) (l : string) : string :=
  match lookup l m with Some v => v | None => l end.

Definition rename (m : list (string * string)) (df : DataFrame)
  : DataFrame :=
  mk_frame
    (map (fun c => mk_column (rename_label m (label c)) (dt c)) (columns df))
    (rows df).

(** [df[mask]] for a boolean series aligned with the rows. *)
Fixpoint select_rows (mask : list bool) (rs : list row) : list row :=
  match mask, rs with
  | b :: mask', r :: rs' =>
      if b then r :: select_rows mask' rs' else select_rows mask' rs'
  | _, _ => []
  end.

(** [df.dropna(subset=...)] with the default [how='any']. *)
Definition dropna (subset : list string) (df : DataFrame)
  : outcome DataFrame :=
  ix <- get_indexer_for subset (labels df) ;;
  Ok (mk_frame (columns df)
        (filter (fun r => negb (existsb (fun i => isna (cell_at r i)) ix))
                (rows df))).

(** [series.isin(values)] for a list of strings. *)
Definition isin (values : list string) (c : cell) : bool :=
  match c with
  | Str s => existsb (String.eqb s) values
  | _ => false
  end.

(** The number a cell compares as against an integer constant. *)
Definition as_number (c : cell) : option Q :=
  match c with
  | Int n => Some (inject_Z n)
  | Num q => Some q
  | Bool b => Some (if b then 1 else 0)%Q
  | _ => None
  end.

(** [series >= k] and [series <= k] on one cell: a missing value compares
    false, text and timestamps raise [TypeError]. *)
Definition cmp_cell (op : Q -> Q -> bool) (k : Q) (c : cell) : outcome bool :=
  match c with
  | Null _ => Ok false
  | Geo _ | Str _ | Stamp _ =>
      raise TypeError "comparison not supported with int"
  | _ => match as_number c with
         | Some q => Ok (op q k)
         | None => Ok false
         end
  end.

(** A comparison of a whole column: a datetime column is refused on its
    dtype, before any cell is looked at. *)
Definition cmp_series (op : Q -> Q -> bool) (k : Q) (df : DataFrame) (i : nat)
  : outcome (list bool) :=
  match dt (nth i (columns df) no_column) with
  | Datetime64 | GeometryDtype =>
      raise TypeError "Invalid comparison between dtype and int"
  | _ => mapM (fun r => cmp_cell op k (cell_at r i)) (rows df)
  end.

Definition ge (a b : Q) : bool := Qle_bool b a.
Definition le (a b : Q) : bool := Qle_bool a b.

(** [a & b] on aligned boolean series. *)
Fixpoint band (a b : list bool) : list bool :=
  match a, b with
  | x :: a', y :: b' => (x && y) :: band a' b'
  | _, _ => []
  end.

End Pandas.

Export Pandas.

(* ===================================================================== *)
(** * The asset transformer *)
(* ===================================================================== *)

Section Transform.

(** Python's [str] on the scalars this development leaves abstract:
    floats, integers, timestamps and geometries (their WKT). *)
Variable repr_float : Q -> string.
Variable repr_int : Z -> string.
Variable str_stamp : Z -> string.
Variable wkt : geometry -> string.

(** [str(v)], the conversion behind [astype('str')]. *)
Definition py_str (c : cell) : string :=
  match c with
  | Null PyNone => "None"
  | Null NaN => "nan"
  | Null NaT => "NaT"
  | Int n => repr_int n
  | Num q => repr_float q
  | Str s => s
  | Bool true => "True"
  | Bool false => "False"
  | Stamp t => str_stamp t
  | Geo g => wkt g
  end.

(** The category allow-list of [process_assets]. *)
Definition cats : list string :=
  [ "Grounds"; "Furniture and Amenities"; "Signs"; "Water Service";
    "Transportation"; "Stormwater"; "Bridges"; "Structures"; "Trails";
    "Buildings"; "Electrical Telcomm Service"; "Wastewater Service";
    "Water Management"; "Fuel Storage" ].

(** The rename mapping of [process_assets], in its declared order. *)
Definition ast_cols : list (string * string) :=
  [ ("assetid", "Asset ID");
    ("gisid", "GIS ID");
    ("park", "Park");
    ("park_subarea", "Park Subarea");
    ("asset_category", "Category - Classification");
    ("asset_type", "Segment - Sub Classification");
    ("description", "Description");
    ("campsite_number", "Campsite Number");
    ("name", "Name");
    ("accessible", "acs Is Asset Accessible");
    ("route_accessible", "acs Is the Route to the Asset Accessible");
    ("gis_latitude", "GIS Latitude");
    ("gis_longitude", "GIS Longitude") ].

(** [d.keys()] and [d.values()] of a dict literal. *)
Definition keys (m : list (string * string)) : list string := map fst m.
Definition values (m : list (string * string)) : list string := map snd m.

Definition lat_min : Q := 47.
Definition lat_max : Q := 60.
Definition lon_min : Q := -145.
Definition lon_max : Q := -113.

Definition mem (l : string) (ls : list string) : bool :=
  existsb (String.eqb l) ls.

(** [{col: 'str' for col in gdf.select_dtypes(include=['object']).columns}]
    applied by [astype]: the dict is keyed by label, so every column that
    shares its label with an object column is converted. *)
Definition object_labels (df : DataFrame) : list string :=
  map label (filter (fun c => dtype_eqb (dt c) Object) (columns df)).

Fixpoint astype_cells (objs : list string) (cols : list column)
         (cs : list cell) : list cell :=
  match cols, cs with
  | c :: cols', v :: cs' =>
      (if mem (label c) objs then Str (py_str v) else v)
        :: astype_cells objs cols' cs'
  | _, _ => []
  end.

Definition astype_str_objects (df : DataFrame) : DataFrame :=
  let objs := object_labels df in
  mk_frame
    (map (fun c => if mem (label c) objs then mk_column (label c) Object
                   else c) (columns df))
    (map (fun r => mk_row (idx r) (astype_cells objs (columns df) (cells r)))
         (rows df)).

(** [gpd.points_from_xy(x, y)] on one pair of cells.  After the range
    mask both cells are numbers; the conversions numpy would attempt on
    anything else are not followed. *)
Definition point_from_xy (x y : cell) : outcome geometry :=
  match x, y with
  | (Int _ | Num _), (Int _ | Num _) =>
      match as_number x, as_number y with
      | Some a, Some b => Ok (Point a b)
      | _, _ => Unmodelled
      end
  | _, _ => Unmodelled
  end.

(** [gpd.GeoDataFrame(df, geometry=points, crs=...)]: the points become a
    last column named [geometry]. *)
Fixpoint set_geometry_cells (rs : list row) (gs : list geometry)
  : list row :=
  match rs, gs with
  | r :: rs', g :: gs' =>
      mk_row (idx r) (cells r ++ [Geo g]) :: set_geometry_cells rs' gs'
  | _, _ => []
  end.

Definition with_geometry (df : DataFrame) (gs : list geometry)
  : DataFrame :=
  mk_frame (columns df ++ [mk_column "geometry" GeometryDtype])
           (set_geometry_cells (rows df) gs).

(** [process_assets(df, latcol, loncol)], statement by statement
    (the [logging.info] calls aside). *)
Definition process_assets (df : DataFrame) (latcol loncol : string)
  : outcome GeoDataFrame :=
  (* df = df[df['asset_category'].isin(cats)] *)
  jc <- get_loc df "asset_category" ;;
  let df :=
    mk_frame (columns df)
      (select_rows (map (fun r => isin cats (cell_at r jc)) (rows df))
                   (rows df)) in
  (* df.rename(columns=ast_cols, inplace=True) *)
  let df := rename ast_cols df in
  (* df = df[ast_cols.values()] *)
  df <- getitem_list df (values ast_cols) ;;
  (* df = df.dropna(subset=[latcol, loncol]) *)
  df <- dropna [latcol; loncol] df ;;
  (* df = df[(df[latcol] >= lat_min) & (df[latcol] <= lat_max) &
             (df[loncol] >= lon_min) & (df[loncol] <= lon_max)] *)
  jlat <- get_loc df latcol ;;
  m1 <- cmp_series ge lat_min df jlat ;;
  m2 <- cmp_series le lat_max df jlat ;;
  jlon <- get_loc df loncol ;;
  m3 <- cmp_series ge lon_min df jlon ;;
  m4 <- cmp_series le lon_max df jlon ;;
  let df :=
    mk_frame (columns df)
      (select_rows (band (band (band m1 m2) m3) m4) (rows df)) in
  (* gdf = gpd.GeoDataFrame(df,
             geometry=gpd.points_from_xy(df[loncol], df[latcol]),
             crs="EPSG:4326") *)
  jlon' <- get_loc df loncol ;;
  jlat' <- get_loc df latcol ;;
  gs <- mapM (fun r => point_from_xy (cell_at r jlon') (cell_at r jlat'))
             (rows df) ;;
  let gdf := with_geometry df gs in
  (* gdf = gdf.set_geometry("geometry"); gdf = gdf.astype({...: 'str'}) *)
  Ok (mk_geoframe (astype_str_objects gdf) "geometry" "EPSG:4326").

End Transform.

(* ===================================================================== *)
(** * The database connector *)
(* ===================================================================== *)

Module Postgres.

Inductive conn_handle : Type := Connection (id : nat).
Inductive cursor_handle : Type := Cursor (id : nat).

(** The part of psycopg2 the script calls. *)
Record Driver : Type :=
  { pg_connect : option string -> option string -> option string ->
                 option string -> option string -> answer conn_handle;
    conn_cursor : conn_handle -> answer cursor_handle;
    conn_close : conn_handle -> answer unit }.

Record PostgresDBManager : Type :=
  mk_manager
    { dbname : option string;
      user : option string;
      password : option string;
      host : option string;
      port : option string;
      connection : option conn_handle;
      cursor : option cursor_handle }.

(** [PostgresDBManager.__init__] *)
Definition init (dbname user password host port : option string)
  : PostgresDBManager :=
  mk_manager dbname user password host port None None.

Record state : Type :=
  mk_state { self : PostgresDBManager; records : list log_record }.

Definition logging (l : level) (msg : string) : prog state unit :=
  modify (fun s => mk_state (self s) (records s ++ [mk_record l msg])).

Definition set_connection (c : option conn_handle) : prog state unit :=
  modify (fun s =>
    let m := self s in
    mk_state (mk_manager (dbname m) (user m) (password m) (host m) (port m)
                         c (cursor m))
             (records s)).

Definition set_cursor (c : option cursor_handle) : prog state unit :=
  modify (fun s =>
    let m := self s in
    mk_state (mk_manager (dbname m) (user m) (password m) (host m) (port m)
                         (connection m) c)
             (records s)).

Section Methods.

Variable driver : Driver.

(** [PostgresDBManager.connect] *)
Definition connect : prog state (option conn_handle) :=
  try_except
    (s <~ get ;;
     let m := self s in
     c <~ lift (call (pg_connect driver (dbname m) (user m) (password m)
                                 (host m) (port m))) ;;
     set_connection (Some c) >>
     logging INFO "..Postgres connection established successfully." >>
     s' <~ get ;;
     ret (connection (self s')))
    (fun e =>
       if isinstance e OperationalError
       then Some (logging ERROR
                    (String.append "..error connecting to database: "
                                   (exn_str e)) >>
                  set_connection None >>
                  ret None)
       else None).

(** [PostgresDBManager.create_cursor] *)
Definition create_cursor : prog state unit :=
  s <~ get ;;
  match connection (self s) with
  | Some c =>
      try_except
        (k <~ lift (call (conn_cursor driver c)) ;;
         set_cursor (Some k) >>
         logging INFO "..cursor created successfully.")
        (fun e =>
           if isinstance e DatabaseError
           then Some (logging ERROR
                        (String.append "..error creating cursor: "
                                       (exn_str e)) >>
                      set_cursor None)
           else None)
  | None => logging WARNING "..no active connection."
  end.

(** [PostgresDBManager.disconnect] *)
Definition disconnect : prog state unit :=
  s <~ get ;;
  match connection (self s) with
  | Some c =>
      try_finally
        (try_except
           (lift (call (conn_close driver c)) >>
            logging INFO (String.append nl "Postgres connection closed."))
           (fun e =>
              if isinstance e DatabaseError
              then Some (logging ERROR
                           (String.append "Error closing connection: "
                                          (exn_str e)))
              else None))
        (set_connection None >> set_cursor None)
  | None => logging WARNING "..no active database connection to close."
  end.

End Methods.

End Postgres.

(* ===================================================================== *)
(** * The asset reader *)
(* ===================================================================== *)

Module Reader.

(** The SQL the readers send, as syntax. *)
Inductive sql_expr : Type :=
| Col (name : string)
| ST_Centroid (e : sql_expr)
| ST_Transform (e : sql_expr) (srid : Z)
| ST_X (e : sql_expr)
| ST_Y (e : sql_expr).

(** [SELECT *, e1 AS a1, ..., en AS an FROM schema.table] *)
Record sql_select : Type :=
  mk_select { select_star : bool;
              derived : list (sql_expr * string);
              from_schema : string;
              from_table : string }.

(** A Python dict with string keys: assignment replaces the value of a
    present key in place and appends an absent one. *)
Fixpoint dict_set {V} (k : string) (v : V) (d : list (string * V))
  : list (string * V) :=
  match d with
  | [] => [(k, v)]
  | (k', v') :: t =>
      if String.eqb k' k then (k, v) :: t else (k', v') :: dict_set k v t
  end.

Definition dict_values {V} (d : list (string * V)) : list V := map snd d.

(** [df.drop(columns=names)]: every column carrying one of the labels
    goes; a label that no column carries is a [KeyError]. *)
Definition drop_columns (names : list string) (df : DataFrame)
  : outcome DataFrame :=
  match filter (fun n => negb (existsb (String.eqb n) (labels df))) names with
  | missing :: _ => raise KeyError missing
  | [] =>
      let keep_ix :=
        filter (fun i => negb (existsb
                                 (String.eqb (nth i (labels df) EmptyString))
                                 names))
               (seq 0 (List.length (columns df))) in
      Ok (take keep_ix df)
  end.

(** The query of [read_assets] for one table: the geometry itself, or its
    centroid for the tables of lines. *)
Definition located (table_name : string) : sql_expr :=
  if existsb (String.eqb table_name) ["trails"; "roads"]
  then ST_Centroid (Col "wkb_geometry")
  else Col "wkb_geometry".

Definition asset_query (table_name : string) : sql_select :=
  mk_select true
    [ (ST_Y (ST_Transform (located table_name) 4326), "gis_latitude");
      (ST_X (ST_Transform (located table_name) 4326), "gis_longitude") ]
    "assets" table_name.

(** The query of [read_trails]. *)
Definition trails_query : sql_select :=
  mk_select true [] "assets" "trails".

Section Readers.

(** [pd.read_sql(sqlTabs, conn)['table_name'].to_list()], the names of
    the tables of schema [assets] as the database lists them. *)
Variable read_table_names : option Postgres.conn_handle
                            -> answer (list string).
(** [pd.read_sql(query, conn)] and [gpd.read_postgis(query, conn, ...)] *)
Variable read_sql : sql_select -> option Postgres.conn_handle
                    -> answer DataFrame.
Variable read_postgis : sql_select -> option Postgres.conn_handle
                        -> string -> answer GeoDataFrame.
(** [pd.concat(frames, ignore_index=True)] *)
Variable concat : list DataFrame -> answer DataFrame.

(** Standard output: the lines printed. *)
Definition print (line : string) : prog (list string) unit :=
  modify (fun out => out ++ [line]).

(** The [for table_name in tab_names] loop; [df] is the local variable of
    that name, unbound until the first pass. *)
Fixpoint read_tables (conn : option Postgres.conn_handle)
         (tab_names : list string)
         (assets_dict : list (string * DataFrame)) (df : option DataFrame)
  : prog (list string) (option DataFrame) :=
  match tab_names with
  | [] => ret df
  | table_name :: rest =>
      print (String.append "..reading table: " table_name) >>
      d <~ lift (call (read_sql (asset_query table_name) conn)) ;;
      d <~ lift (drop_columns ["wkb_geometry"] d) ;;
      let assets_dict := dict_set table_name d assets_dict in
      c <~ lift (call (concat (dict_values assets_dict))) ;;
      read_tables conn rest assets_dict (Some c)
  end.

(** [read_assets(conn)] *)
Definition read_assets (conn : option Postgres.conn_handle)
  : prog (list string) DataFrame :=
  names <~ lift (call (read_table_names conn)) ;;
  let tab_names :=
    filter (fun x => negb (String.eqb x "qgis_projects")) names in
  df <~ read_tables conn tab_names [] None ;;
  match df with
  | Some df => ret df
  | None =>
      praise UnboundLocalError
        "cannot access local variable 'df' where it is not associated with a value"
  end.

(** [read_trails(conn)] *)
Definition read_trails (conn : option Postgres.conn_handle)
  : prog (list string) GeoDataFrame :=
  lift (call (read_postgis trails_query conn "wkb_geometry")).

End Readers.

End Reader.

(* ===================================================================== *)
(** * The publisher *)
(* ===================================================================== *)

Module AGO.

(** Python values as [json.dumps] meets them. *)
Inductive pyval : Type :=
| PNone
| PNaN
| PBool (b : bool)
| PInt (n : Z)
| PFloat (q : Q)
| PStr (s : string)
| PStamp (t : Z)
| PGeometry (g : geometry)
| PTuple (vs : list pyval)
| PList (vs : list pyval)
| PDict (kvs : list (string * pyval)).

Definition py_coord (c : coord) : pyval :=
  PTuple [PFloat (fst c); PFloat (snd c)].

Definition py_coords (cs : list coord) : pyval :=
  PTuple (map py_coord cs).

(** [geometry.__geo_interface__] *)
Definition geo_interface (g : geometry) : pyval :=
  match g with
  | Point x y =>
      PDict [("type", PStr "Point");
             ("coordinates", PTuple [PFloat x; PFloat y])]
  | LineString cs =>
      PDict [("type", PStr "LineString"); ("coordinates", py_coords cs)]
  | Polygon rings =>
      PDict [("type", PStr "Polygon");
             ("coordinates", PTuple (map py_coords rings))]
  | MultiPoint ps =>
      PDict [("type", PStr "MultiPoint"); ("coordinates", py_coords ps)]
  | MultiLineString ls =>
      PDict [("type", PStr "MultiLineString");
             ("coordinates", PTuple (map py_coords ls))]
  | MultiPolygon ps =>
      PDict [("type", PStr "MultiPolygon");
             ("coordinates",
              PTuple (map (fun rings => PTuple (map py_coords rings)) ps))]
  end.

(** [d[k] = v] on a dict under construction. *)
Fixpoint setitem (k : string) (v : pyval) (d : list (string * pyval))
  : list (string * pyval) :=
  match d with
  | [] => [(k, v)]
  | (k', v') :: t =>
      if String.eqb k' k then (k, v) :: t else (k', v') :: setitem k v t
  end.

(** [gdf.iterrows()]: each row as its (label, value) pairs. *)
Definition iterrows (df : DataFrame) : list (list (string * cell)) :=
  map (fun r => combine (labels df) (cells r)) (rows df).

(** [row[l]]: a missing label is a [KeyError]; under a duplicated label
    pandas answers with a series. *)
Definition row_getitem (r : list (string * cell)) (l : string)
  : outcome cell :=
  match filter (fun kv => String.eqb (fst kv) l) r with
  | [] => raise KeyError l
  | [(_, c)] => Ok c
  | _ => Unmodelled
  end.

(** [gdf.fillna('')]: missing values become the empty string, and a
    column that had some becomes an object column.  geopandas refuses to
    fill a missing geometry with text, with an exception whose class
    depends on its version. *)
Fixpoint fillna_cells (cols : list column) (cs : list cell)
  : outcome (list cell) :=
  match cols, cs with
  | c :: cols', v :: cs' =>
      v' <- match dt c, v with
            | GeometryDtype, Null _ => Unmodelled
            | _, Null _ => Ok (Str EmptyString)
            | _, _ => Ok v
            end ;;
      rest <- fillna_cells cols' cs' ;;
      Ok (v' :: rest)
  | _, _ => Ok []
  end.

Fixpoint column_cells (i : nat) (rs : list row) : list cell :=
  match rs with
  | [] => []
  | r :: t => cell_at r i :: column_cells i t
  end.

Definition fillna_empty (df : DataFrame) : outcome DataFrame :=
  rs <- mapM (fun r => cs <- fillna_cells (columns df) (cells r) ;;
                       Ok (mk_row (idx r) cs)) (rows df) ;;
  Ok (mk_frame
        (map (fun ic =>
                if existsb isna (column_cells (fst ic) (rows df))
                then mk_column (label (snd ic)) Object
                else snd ic)
             (combine (seq 0 (List.length (columns df))) (columns df)))
        rs).

(** [gdf.replace('None', '')] *)
Definition replace_none (df : DataFrame) : DataFrame :=
  mk_frame (columns df)
    (map (fun r =>
            mk_row (idx r)
              (map (fun c => match c with
                             | Str s =>
                                 if String.eqb s "None" then Str EmptyString
                                 else c
                             | _ => c
                             end) (cells r)))
         (rows df)).

(** The ArcGIS Online content store. *)
Record item : Type :=
  mk_item { item_id : nat; title : string; type : string; owner : string }.

Record item_properties : Type :=
  mk_properties { p_title : string; p_type : string; p_tags : string;
                  p_description : string; p_fileName : string }.

(** A session: [gis.users.me.username], when the login identified a
    user. *)
Record GIS : Type := mk_gis { me : option string }.

(** The part of the ArcGIS client the script calls, over the items the
    platform holds. *)
Record Platform : Type :=
  { login : option string -> option string -> option string -> answer GIS;
    search : list item -> string -> string -> answer (list item);
    delete : list item -> item -> bool -> answer (list item);
    add : list item -> GIS -> item_properties -> string -> string
          -> answer (list item * item);
    publish : list item -> item -> bool -> answer (list item) }.

Inductive event : Type :=
| Searched (query item_type : string)
| Deleted (i : item)
| Added (p : item_properties) (folder : string)
| Published (i : item).

Record AGOManager : Type :=
  mk_manager { host : option string;
               username : option string;
               password : option string;
               gis : option GIS }.

(** [AGOManager.__init__] *)
Definition init (host username password : option string) : AGOManager :=
  mk_manager host username password None.

Record state : Type :=
  mk_state { self : AGOManager;
             records : list log_record;
             store : list item;
             calls : list event }.

Definition logging (l : level) (msg : string) : prog state unit :=
  modify (fun s => mk_state (self s) (records s ++ [mk_record l msg])
                            (store s) (calls s)).

Definition set_self (m : AGOManager) : prog state unit :=
  modify (fun s => mk_state m (records s) (store s) (calls s)).

Definition set_gis (g : option GIS) : prog state unit :=
  modify (fun s =>
    mk_state (mk_manager (host (self s)) (username (self s))
                         (password (self s)) g)
             (records s) (store s) (calls s)).

Definition set_store (items : list item) : prog state unit :=
  modify (fun s => mk_state (self s) (records s) items (calls s)).

Definition record_call (e : event) : prog state unit :=
  modify (fun s => mk_state (self s) (records s) (store s) (calls s ++ [e])).

Definition dq : string := String (Ascii.ascii_of_nat 34) EmptyString.

Definition cat (parts : list string) : string :=
  fold_right String.append EmptyString parts.

Section Methods.

Variable platform : Platform.
(** [datetime.isoformat] and [json.dumps] *)
Variable isoformat : Z -> string.
Variable json_dumps : pyval -> answer string.

(** [AGOManager.connect] *)
Definition connect : prog state unit :=
  s <~ get ;;
  g <~ lift (call (login platform (host (self s)) (username (self s))
                         (password (self s)))) ;;
  set_gis (Some g) >>
  match me g with
  | Some name =>
      logging INFO (String.append "..successfully connected to AGOL as "
                                  name)
  | None =>
      logging ERROR "..connection to AGOL failed." >>
      praise ConnectionError "Failed to connect to AGOL."
  end.

(** The value stored under a property key by [_gdf_to_geojson]: the ISO
    text of a timestamp, the empty string for [NaT] (which is an
    instance of [datetime]), the value itself otherwise. *)
Definition property_value (c : cell) : pyval :=
  match c with
  | Stamp t => PStr (isoformat t)
  | Null NaT => PStr EmptyString
  | Null PyNone => PNone
  | Null NaN => PNaN
  | Int n => PInt n
  | Num q => PFloat q
  | Str s => PStr s
  | Bool b => PBool b
  | Geo g => PGeometry g
  end.

Definition feature_of_row (r : list (string * cell)) : outcome pyval :=
  g <- row_getitem r "geometry" ;;
  gi <- match g with
        | Geo g => Ok (geo_interface g)
        | _ => raise AttributeError
                 "object has no attribute '__geo_interface__'"
        end ;;
  let properties :=
    fold_left (fun d kv =>
                 if String.eqb (fst kv) "geometry" then d
                 else setitem (fst kv) (property_value (snd kv)) d)
              r [] in
  Ok (PDict [("type", PStr "Feature");
             ("properties", PDict properties);
             ("geometry", gi)]).

(** [AGOManager._gdf_to_geojson] *)
Definition _gdf_to_geojson (gdf : GeoDataFrame) : outcome pyval :=
  features <- mapM feature_of_row (iterrows (frame gdf)) ;;
  Ok (PDict [("type", PStr "FeatureCollection");
             ("features", PList features)]).

(** The [for item in existing_items] loop. *)
Fixpoint delete_existing (existing_items : list item) : prog state unit :=
  match existing_items with
  | [] => ret tt
  | i :: rest =>
      (if String.eqb (type i) "GeoJson"
       then
         record_call (Deleted i) >>
         s <~ get ;;
         items <~ lift (call (delete platform (store s) i true)) ;;
         set_store items >>
         logging INFO (cat ["..existing GeoJSON item '"; title i;
                            "' deleted."])
       else ret tt) >>
      delete_existing rest
  end.

(** [AGOManager.publish_feature_layer] *)
Definition publish_feature_layer (gdf : GeoDataFrame)
           (title_ geojson_name item_desc folder : string)
  : prog state unit :=
  s <~ get ;;
  match gis (self s) with
  | None =>
      praise RuntimeError
             "Not connected to AGOL. Please call connect() first."
  | Some g =>
      df <~ lift (fillna_empty (frame gdf)) ;;
      let gdf := mk_geoframe (replace_none df) (geometry_name gdf)
                             (crs gdf) in
      logging INFO "..converting data to geojson." >>
      geojson_dict <~ lift (_gdf_to_geojson gdf) ;;
      try_except
        (name <~ match me g with
                 | Some name => ret name
                 | None => praise AttributeError
                             "'NoneType' object has no attribute 'username'"
                 end ;;
         let query := cat ["title:"; dq; title_; dq; " AND owner:"; name] in
         record_call (Searched query "GeoJson") >>
         s <~ get ;;
         existing_items <~ lift (call (search platform (store s) query
                                              "GeoJson")) ;;
         let existing_items :=
           filter (fun i => String.eqb (title i) title_) existing_items in
         delete_existing existing_items >>
         let geojson_item_properties :=
           mk_properties title_ "GeoJson" "BCparks data" item_desc
                         (String.append geojson_name ".geojson") in
         geojson_file <~ lift (call (json_dumps geojson_dict)) ;;
         record_call (Added geojson_item_properties folder) >>
         s <~ get ;;
         added <~ lift (call (add platform (store s) g
                                  geojson_item_properties geojson_file
                                  folder)) ;;
         set_store (fst added) >>
         record_call (Published (snd added)) >>
         s <~ get ;;
         items <~ lift (call (publish platform (store s) (snd added)
                                      true)) ;;
         set_store items >>
         logging INFO (cat ["..feature layer '"; title_;
                            "' published successfully."]))
        (fun e =>
           if isinstance e Exception
           then
             let error_message :=
               String.append "..error publishing/updating feature layer: "
                             (exn_str e) in
             Some (logging ERROR error_message >>
                   praise RuntimeError error_message)
           else None)
  end.

(** [AGOManager.disconnect] *)
Definition disconnect : prog state unit :=
  s <~ get ;;
  match gis (self s) with
  | Some _ =>
      set_gis None >>
      logging INFO (String.append nl "Disconnected from AGOL")
  | None =>
      logging WARNING
              (String.append nl "No active AGOL connection to disconnect.")
  end.

(** The publishing block of the script, from [ago = AGOManager(...)] to
    its [finally]; [today] is the date put into the descriptions. *)
Definition assets_title : string :=
  "PARC_L1G_Park_Asset_Data_Feature_Layer_v2".
Definition trails_title : string :=
  "PARC_L1G_Park_Trail_Data_Feature_Layer_v2".
Definition parc_folder : string :=
  "DSS Protected Areas Resource Catalogue (PARC) - Resource Analysis".

Definition publish_block (AGO_HOST AGO_USERNAME_DSS AGO_PASSWORD_DSS
                            : option string)
           (today : string) (gdf_ast gdf_trl : GeoDataFrame)
  : prog state unit :=
  try_finally
    (try_except
       (logging INFO (String.append nl "Logging to AGO") >>
        set_self (init AGO_HOST AGO_USERNAME_DSS AGO_PASSWORD_DSS) >>
        connect >>
        logging INFO
          (String.append nl "Publishing the Assets dataset to AGO") >>
        (if (0 <? shape0 (frame gdf_ast))%nat
         then publish_feature_layer gdf_ast assets_title
                "bcparks_assets_v2"
                (cat ["Point dataset - BCParks assets (updated on ";
                      today; ")"])
                parc_folder
         else logging ERROR
                "..Assets dataset is empty. AGO update aborted!") >>
        logging INFO
          (String.append nl "Publishing the Trails dataset to AGO") >>
        (if (0 <? shape0 (frame gdf_trl))%nat
         then publish_feature_layer gdf_trl trails_title
                "bcparks_trails_v2"
                (cat ["Line dataset - BCParks trails (updated on ";
                      today; ")"])
                parc_folder
         else logging ERROR
                "..Trails dataset is empty. AGO update aborted!"))
       (fun e =>
          if isinstance e Exception
          then Some (praise Exception
                       (String.append "Error occurred: " (exn_str e)))
          else None))
    disconnect.

End Methods.

End AGO.

(** ** Vocabulary for the statements about [process_assets] *)

(** A cell holds a number within [[lo, hi]]; a missing value does not. *)
Definition in_range (lo hi : Q) (c : cell) : bool :=
  match as_number c with
  | Some q => ge q lo && le q hi
  | None => false
  end.

(** The rows [process_assets] keeps, read on the input frame: [pc], [plat]
    and [plon] are the input positions of the category, latitude and
    longitude columns. *)
Definition keep (pc plat plon : nat) (r : row) : bool :=
  isin cats (cell_at r pc)
  && in_range lat_min lat_max (cell_at r plat)
  && in_range lon_min lon_max (cell_at r plon).

(** Every key of the rename mapping labels exactly one column and no column
    already carries a target label. *)
Definition count_label (l : string) (ls : list string) : nat :=
  List.length (positions l ls).

Definition clean_labels (ls : list string) : bool :=
  forallb (fun kv => Nat.eqb (count_label (fst kv) ls) 1
                     && Nat.eqb (count_label (snd kv) ls) 0) ast_cols.

(** [row[l]] on a frame whose labels are distinct. *)
Definition cell_of (df : DataFrame) (l : string) (r : row) : cell :=
  match positions l (labels df) with
  | i :: _ => cell_at r i
  | [] => Null NaN
  end.

(** The value of [series >= k] (or [<=]) on a cell that can be compared. *)
Definition cmp_value (op : Q -> Q -> bool) (k : Q) (c : cell) : bool :=
  match as_number c with Some q => op q k | None => false end.

(** The frame after the category filter, the rename and the column
    selection, [jc] the position of the category column and [ix] the
    positions selected. *)
Definition selected (df : DataFrame) (jc : nat) (ix : list nat)
  : DataFrame :=
  take ix (rename ast_cols
             (mk_frame (columns df)
                (filter (fun r => isin cats (cell_at r jc)) (rows df)))).

Definition in_box (jlat jlon : nat) (r : row) : bool :=
  in_range lat_min lat_max (cell_at r jlat)
  && in_range lon_min lon_max (cell_at r jlon).

(** A cell shows the number [q]: it holds it, or holds its text once
    [astype] has turned an object column into strings. *)
Definition shows (to_str : cell -> string) (c : cell) (q : Q) : Prop :=
  as_number c = Some q \/
  exists c0, as_number c0 = Some q /\ c = Str (to_str c0).

(** The invariant of an output row of the asset transformer, [oc], [olat],
    [olon] and [og] the positions of its category, latitude, longitude and
    geometry columns. *)
Definition valid_row (to_str : cell -> string) (oc olat olon og : nat)
           (o : row) : Prop :=
  exists s lat lon,
    cell_at o oc = Str s /\ In s cats /\
    shows to_str (cell_at o olat) lat /\
    shows to_str (cell_at o olon) lon /\
    cell_at o og = Geo (Point lon lat) /\
    (lat_min <= lat /\ lat <= lat_max) /\
    (lon_min <= lon /\ lon <= lon_max).

(** ** Concrete frames *)

(** A rendering of numbers for the concrete instances below; the general
    statements do not depend on it. *)
Definition show_Z (n : Z) : string :=
  DecimalString.NilZero.string_of_int (Z.to_int n).

Definition show_Q (q : Q) : string :=
  String.append (show_Z (Qnum q))
    (String.append "/" (show_Z (Zpos (Qden q)))).

Definition show_geometry (g : geometry) : string :=
  match g with
  | Point x y =>
      String.append "POINT ("
        (String.append (show_Q x)
           (String.append " " (String.append (show_Q y) ")")))
  | _ => "GEOMETRY"
  end.

Definition process_assets_shown : DataFrame -> string -> string
                                  -> outcome GeoDataFrame :=
  process_assets show_Q show_Z show_Z show_geometry.

(** The source columns as [read_assets] delivers them for point tables. *)
Definition source_columns : list column :=
  [ mk_column "assetid" Int64; mk_column "gisid" Object;
    mk_column "park" Object; mk_column "park_subarea" Object;
    mk_column "asset_category" Object; mk_column "asset_type" Object;
    mk_column "description" Object; mk_column "campsite_number" Object;
    mk_column "name" Object; mk_column "accessible" Object;
    mk_column "route_accessible" Object;
    mk_column "gis_latitude" Float64; mk_column "gis_longitude" Float64 ].

Definition source_row (i : Z) (category : string) (lat lon : cell) : row :=
  mk_row i
    [ Int (1000 + i); Str "G-1"; Str "Garibaldi Park"; Str "Diamond Head";
      Str category; Str "Regulatory"; Str "Sign at trailhead";
      Null PyNone; Str "Trailhead sign"; Str "Yes"; Str "No"; lat; lon ].

(** The scenario of the specification: ten rows, two of category Parking,
    eight of category Signs, one of these without longitude and one with
    longitude -200. *)
Definition scenario_frame : DataFrame :=
  mk_frame source_columns
    [ source_row 0 "Parking" (Num 49.7) (Num (-123.1));
      source_row 1 "Signs" (Num 49.7) (Num (-123.1));
      source_row 2 "Signs" (Num 49.8) (Null NaN);
      source_row 3 "Signs" (Num 50.1) (Num (-122.9));
      source_row 4 "Signs" (Num 49.9) (Num (-200));
      source_row 5 "Parking" (Num 49.7) (Num (-123.2));
      source_row 6 "Signs" (Num 54.5) (Num (-128.6));
      source_row 7 "Signs" (Num 48.4) (Num (-123.4));
      source_row 8 "Signs" (Num 58.8) (Num (-130));
      source_row 9 "Signs" (Num 49.3) (Num (-117.6)) ].

(** A frame that has every mapped source column and, besides, a column
    already called [Park]. *)
Definition ambient_park_frame : DataFrame :=
  mk_frame (source_columns ++ [mk_column "Park" Object])
    [ mk_row 0
        (cells (source_row 0 "Signs" (Num 49.7) (Num (-123.1)))
           ++ [Str "Stawamus Chief"]) ].

(** ** Vocabulary for the scenario *)

Definition is_category (df : DataFrame) (c : string) (r : row) : bool :=
  match cell_of df "asset_category" r with
  | Str s => String.eqb s c
  | _ => false
  end.

Definition lon_missing (df : DataFrame) (r : row) : bool :=
  isna (cell_of df "gis_longitude" r).

Definition lon_is (df : DataFrame) (q : Q) (r : row) : bool :=
  match cell_of df "gis_longitude" r with
  | Num x => Qeq_bool x q
  | _ => false
  end.

(** A float within [[lo, hi]]. *)
Definition float_within (lo hi : Q) (c : cell) : bool :=
  match c with
  | Num _ => in_range lo hi c
  | _ => false
  end.

Definition col_dtype (df : DataFrame) (l : string) : dtype :=
  match positions l (labels df) with
  | i :: _ => dt (nth i (columns df) no_column)
  | [] => Object
  end.

(** A cell the range mask can compare and [points_from_xy] can read once
    missing values are gone. *)
Definition comparable (c : cell) : bool :=
  match c with
  | Null _ | Int _ | Num _ => true
  | _ => false
  end.

Definition comparable_dtype (d : dtype) : bool :=
  match d with
  | Datetime64 | GeometryDtype => false
  | _ => true
  end.

(** ** Vocabulary for the statements about the reader *)

(** The tables [read_assets] reads: every listed name but
    [qgis_projects]. *)
Definition data_tables (names : list string) : list string :=
  filter (fun x => negb (String.eqb x "qgis_projects")) names.

(** What a row shows under the columns of its frame, column by column (a
    position the row does not reach reads as missing). *)
Definition row_values (df : DataFrame) (r : row) : list cell :=
  map (cell_at r) (seq 0 (List.length (columns df))).

(** A frame without the columns labelled [l]: the other columns as they
    are, every row with its index and the values it holds under them. *)
Definition without_column (l : string) (df : DataFrame) : DataFrame :=
  mk_frame
    (filter (fun c => negb (String.eqb (label c) l)) (columns df))
    (map (fun r =>
            mk_row (idx r)
              (map snd
                 (filter (fun lc => negb (String.eqb (fst lc) l))
                         (combine (labels df) (row_values df r)))))
         (rows df)).

(** ** Vocabulary for the statements about the connectors *)


(** A driver that refuses every connection and one that fails outside the
    [DatabaseError] family. *)
Definition refusing_driver : Postgres.Driver :=
  {| Postgres.pg_connect := fun _ _ _ _ _ =>
       Raised (mk_exn OperationalError "could not connect to server");
     Postgres.conn_cursor := fun _ => Returned (Postgres.Cursor 0);
     Postgres.conn_close := fun _ =>
       Raised (mk_exn OperationalError "server closed the connection") |}.

Definition interface_failing_driver : Postgres.Driver :=
  {| Postgres.pg_connect := fun _ _ _ _ _ =>
       Raised (mk_exn InterfaceError "bad connection parameters");
     Postgres.conn_cursor := fun _ => Returned (Postgres.Cursor 0);
     Postgres.conn_close := fun _ =>
       Raised (mk_exn InterfaceError "connection already closed") |}.

Definition fresh_manager : Postgres.state :=
  Postgres.mk_state
    (Postgres.init (Some "citywide") (Some "reader") (Some "secret")
                   (Some "db.example.org") (Some "5432"))
    [].


(** ** Vocabulary for the statements about the publisher *)

Module PublishSpec.

Import AGO.

Definition is_geojson (i : item) : bool := String.eqb (type i) "GeoJson".

(** The items a publish under title [t] by user [u] replaces. *)
Definition matches (t u : string) (i : item) : bool :=
  String.eqb (title i) t && is_geojson i && String.eqb (owner i) u.

Definition item_eqb (a b : item) : bool :=
  Nat.eqb (item_id a) (item_id b) && String.eqb (title a) (title b)
  && String.eqb (type a) (type b) && String.eqb (owner a) (owner b).

Definition search_query (t u : string) : string :=
  cat ["title:"; dq; t; dq; " AND owner:"; u].

(** What the statements about publishing take for granted of the
    platform: among the items a search for [title:"t" AND owner:u] of type
    GeoJson returns, those titled [t] and typed GeoJson are the stored
    items titled [t], typed GeoJson and owned by [u]; a forced delete
    removes the item and nothing else; an upload appends one item with the
    given title and type, owned by the logged-in user; publishing a
    feature layer leaves the GeoJson items alone. *)
Record lawful (p : Platform) : Prop :=
  { search_law :
      forall items t u found,
        search p items (search_query t u) "GeoJson" = Returned found ->
        forall i, (In i found /\ title i = t /\ type i = "GeoJson")
                  <-> (In i items /\ matches t u i = true);
    delete_law :
      forall items i items',
        delete p items i true = Returned items' ->
        items' = filter (fun j => negb (item_eqb j i)) items;
    add_law :
      forall items g props data folder items' it,
        add p items g props data folder = Returned (items', it) ->
        items' = items ++ [it] /\ title it = p_title props /\
        type it = p_type props /\ me g = Some (owner it);
    publish_law :
      forall items it items',
        publish p items it true = Returned items' ->
        filter is_geojson items' = filter is_geojson items }.

(** A platform kept as a plain list of items. *)
Definition list_platform : Platform :=
  {| login := fun _ u _ => Returned (mk_gis u);
     search := fun items q ty =>
       Returned (filter (fun i => String.eqb q (search_query (title i)
                                                             (owner i))
                                  && String.eqb (type i) ty) items);
     delete := fun items i _ =>
       Returned (filter (fun j => negb (item_eqb j i)) items);
     add := fun items g props _ _ =>
       match me g with
       | Some u =>
           let it := mk_item (S (fold_right Nat.max 0%nat (map item_id items)))
                             (p_title props) (p_type props) u in
           Returned (items ++ [it], it)
       | None => Raised (mk_exn Exception "You do not have permissions")
       end;
     publish := fun items it _ =>
       Returned (filter (fun j => negb (String.eqb (title j) (title it)
                                        && String.eqb (type j)
                                                      "Feature Service"))
                        items
                 ++ [mk_item (S (fold_right Nat.max 0%nat
                                            (map item_id items)))
                             (title it) "Feature Service" (owner it)]) |}.

(** A platform whose search is down. *)
Definition failing_platform : Platform :=
  {| login := login list_platform;
     search := fun _ _ _ => Raised (mk_exn Exception "Unable to search");
     delete := delete list_platform;
     add := add list_platform;
     publish := publish list_platform |}.

(** A platform that cannot be reached. *)
Definition offline_platform : Platform :=
  {| login := fun _ _ _ =>
       Raised (mk_exn ConnectionError "A connection error has occurred");
     search := search list_platform;
     delete := delete list_platform;
     add := add list_platform;
     publish := publish list_platform |}.

(** What [fillna('')] and [replace('None', '')] make of a cell outside
    the geometry column. *)
Definition prepared_cell (c : cell) : cell :=
  match c with
  | Null _ => Str EmptyString
  | Str s => if String.eqb s "None" then Str EmptyString else Str s
  | _ => c
  end.

Definition prepared_row (r : list (string * cell)) : list (string * cell) :=
  map (fun kv => (fst kv, prepared_cell (snd kv))) r.

(** The normalisation the round trip is taken modulo: a missing value and
    the text [None] read back as the empty string, a timestamp as its ISO
    text. *)
Definition normalised (isoformat : Z -> string) (c : cell) : pyval :=
  match c with
  | Null _ => PStr EmptyString
  | Int n => PInt n
  | Num q => PFloat q
  | Str s => if String.eqb s "None" then PStr EmptyString else PStr s
  | Bool b => PBool b
  | Stamp t => PStr (isoformat t)
  | Geo g => PGeometry g
  end.

(** [json.loads(json.dumps(v))] on values: tuples come back as lists;
    timestamps and geometry objects cannot be serialised. *)
Fixpoint json_roundtrip (v : pyval) : option pyval :=
  match v with
  | PStamp _ | PGeometry _ => None
  | PTuple vs | PList vs =>
      option_map PList
        ((fix go (l : list pyval) : option (list pyval) :=
            match l with
            | [] => Some []
            | x :: t => match json_roundtrip x, go t with
                        | Some y, Some ys => Some (y :: ys)
                        | _, _ => None
                        end
            end) vs)
  | PDict kvs =>
      option_map PDict
        ((fix go (l : list (string * pyval))
            : option (list (string * pyval)) :=
            match l with
            | [] => Some []
            | (k, x) :: t => match json_roundtrip x, go t with
                             | Some y, Some ys => Some ((k, y) :: ys)
                             | _, _ => None
                             end
            end) kvs)
  | _ => Some v
  end.

(** Reading a parsed Feature back. *)
Fixpoint all_some {A B} (f : A -> option B) (l : list A) : option (list B) :=
  match l with
  | [] => Some []
  | x :: t => match f x, all_some f t with
              | Some y, Some ys => Some (y :: ys)
              | _, _ => None
              end
  end.

Definition read_coord (v : pyval) : option coord :=
  match v with
  | PList [PFloat x; PFloat y] => Some (x, y)
  | _ => None
  end.

Definition read_list {B} (f : pyval -> option B) (v : pyval)
  : option (list B) :=
  match v with
  | PList vs => all_some f vs
  | _ => None
  end.

Definition read_geometry (v : pyval) : option geometry :=
  match v with
  | PDict [(k1, PStr ty); (k2, cs)] =>
      if String.eqb k1 "type" && String.eqb k2 "coordinates" then
        if String.eqb ty "Point" then
          match read_coord cs with
          | Some (x, y) => Some (Point x y)
          | None => None
          end
        else if String.eqb ty "LineString" then
          option_map LineString (read_list read_coord cs)
        else if String.eqb ty "Polygon" then
          option_map Polygon (read_list (read_list read_coord) cs)
        else if String.eqb ty "MultiPoint" then
          option_map MultiPoint (read_list read_coord cs)
        else if String.eqb ty "MultiLineString" then
          option_map MultiLineString (read_list (read_list read_coord) cs)
        else if String.eqb ty "MultiPolygon" then
          option_map MultiPolygon
            (read_list (read_list (read_list read_coord)) cs)
        else None
      else None
  | _ => None
  end.

Definition parse_feature (v : pyval)
  : option (list (string * pyval) * geometry) :=
  match v with
  | PDict [(k1, PStr ty); (k2, PDict props); (k3, g)] =>
      if String.eqb k1 "type" && String.eqb ty "Feature"
         && String.eqb k2 "properties" && String.eqb k3 "geometry"
      then option_map (pair props) (read_geometry g)
      else None
  | _ => None
  end.

(** A coordinate pair once serialised and parsed. *)
Definition json_coord (c : coord) : pyval :=
  PList [PFloat (fst c); PFloat (snd c)].

(** The fields of a row other than its geometry. *)
Definition fields (r : list (string * cell)) : list (string * cell) :=
  filter (fun kv => negb (String.eqb (fst kv) "geometry")) r.

Definition is_geo (c : cell) : bool :=
  match c with Geo _ => true | _ => false end.

(** The state once one more record is logged. *)
Definition logged (l : level) (msg : string) (s : state) : state :=
  mk_state (self s) (records s ++ [mk_record l msg]) (store s) (calls s).

(** The state in which the publishing block reaches the assets: the
    manager is built, the login has answered [g] for user [name], and the
    three records so far are logged. *)
Definition at_assets (h u p : option string) (g : GIS) (name : string)
           (s : state) : state :=
  logged INFO (String.append nl "Publishing the Assets dataset to AGO")
    (logged INFO (String.append "..successfully connected to AGOL as " name)
       (mk_state (mk_manager h u p (Some g))
                 (records s ++ [mk_record INFO
                                  (String.append nl "Logging to AGO")])
                 (store s) (calls s))).

Definition assets_empty_record : log_record :=
  mk_record ERROR "..Assets dataset is empty. AGO update aborted!".

Definition trails_empty_record : log_record :=
  mk_record ERROR "..Trails dataset is empty. AGO update aborted!".

(** The state in which the block reaches the trails, coming from [s]. *)
Definition at_trails (s : state) : state :=
  logged INFO (String.append nl "Publishing the Trails dataset to AGO") s.

(** What [except Exception as e: raise Exception(f"Error occurred: {e}")]
    lets out of the block for an exception [e] raised inside. *)
Definition wrapped (e : exn) : exn :=
  if isinstance e Exception
  then mk_exn Exception (String.append "Error occurred: " (exn_str e))
  else e.

Definition trails_header : log_record :=
  mk_record INFO (String.append nl "Publishing the Trails dataset to AGO").

(** Between [s] and [s'] the log has only grown, and by nothing that
    belongs to the trails: neither their header nor the record of an
    empty trail dataset. *)
Definition trails_untouched (s s' : state) : Prop :=
  exists more,
    records s' = records s ++ more /\
    ~ In trails_header more /\ ~ In trails_empty_record more.

(** A statement that, run from any state, leaves the trails untouched. *)
Definition quiet {A} (m : prog state A) : Prop :=
  forall s, trails_untouched s (fst (m s)).

(** The state in which the login is attempted. *)
Definition at_login (h u p : option string) (s : state) : state :=
  mk_state (init h u p)
           (records s ++ [mk_record INFO (String.append nl "Logging to AGO")])
           (store s) (calls s).

(** The state the [finally] clause leaves. *)
Definition disconnected (s : state) : state := fst (disconnect s).

(** A row with two columns of one label. *)
Definition twice_park_row : list (string * cell) :=
  [ ("Asset ID", Int 1001); ("Park", Str "Garibaldi Park");
    ("Park", Str "Stawamus Chief");
    ("geometry", Geo (Point (-123.1) 49.7)) ].

Definition plain_row : list (string * cell) :=
  [ ("Asset ID", Int 1001); ("Park", Str "Garibaldi Park");
    ("Description", Str "None"); ("Campsite Number", Null PyNone);
    ("Verified", Stamp 1732579200);
    ("geometry", Geo (Point (-123.1) 49.7)) ].

End PublishSpec.

(** ** Concrete runs *)

Module Samples.

Import AGO PublishSpec.

Definition sample_isoformat (t : Z) : string := show_Z t.

Definition sample_json_dumps (v : pyval) : answer string :=
  Returned "{}".

Definition layer_columns : list column :=
  [ mk_column "Asset ID" Int64; mk_column "Park" Object;
    mk_column "geometry" GeometryDtype ].

Definition one_row_layer : GeoDataFrame :=
  mk_geoframe
    (mk_frame layer_columns
       [ mk_row 0 [Int 1001; Str "Garibaldi Park";
                   Geo (Point (-123.1) 49.7)] ])
    "geometry" "EPSG:4326".

Definition empty_layer : GeoDataFrame :=
  mk_geoframe (mk_frame layer_columns []) "geometry" "EPSG:4326".

Definition start : state := mk_state (init None None None) [] [] [].

(** A store that already holds two copies of the asset item, a GeoJson
    item of another title, another user's item of the same title and the
    hosted layer. *)
Definition crowded_store : list item :=
  [ mk_item 1 assets_title "GeoJson" "parc_admin";
    mk_item 2 assets_title "GeoJson" "parc_admin";
    mk_item 3 trails_title "GeoJson" "parc_admin";
    mk_item 4 assets_title "GeoJson" "someone_else";
    mk_item 5 assets_title "Feature Service" "parc_admin" ].

Definition signed_in : state :=
  mk_state (mk_manager (Some "https://www.arcgis.com") (Some "parc_admin")
                       (Some "secret") (Some (mk_gis (Some "parc_admin"))))
           [] crowded_store [].

Definition publish_assets_on_list : prog state unit :=
  publish_feature_layer list_platform sample_isoformat sample_json_dumps
    one_row_layer assets_title "bcparks_assets_v2" "Point dataset"
    parc_folder.

(** A schema of two data tables and the QGIS project table. *)
Definition listed_tables (conn : option Postgres.conn_handle)
  : answer (list string) :=
  Returned ["benches"; "qgis_projects"; "trails"].

Definition only_projects (conn : option Postgres.conn_handle)
  : answer (list string) :=
  Returned ["qgis_projects"].

Definition stored_table (q : Reader.sql_select)
           (conn : option Postgres.conn_handle) : answer DataFrame :=
  Returned
    (mk_frame
       [ mk_column "assetid" Int64; mk_column "asset_category" Object;
         mk_column "wkb_geometry" Object;
         mk_column "gis_latitude" Float64;
         mk_column "gis_longitude" Float64 ]
       [ mk_row 0 [Int 7; Str (Reader.from_table q); Str "0101000020";
                   Num 49.7; Num (-123.1)] ]).

(** [pd.concat(frames, ignore_index=True)] on plain frames.  The rows of
    the frames follow one another and are numbered anew from 0.  Frames
    that carry the same labels are stacked column by column; otherwise the
    columns are the union of the labels in the order of their first
    appearance, a value a frame does not have being missing, and frames
    with a repeated label are refused.  The dtype of a column is that of
    its pieces when they agree, float64 for integers mixed with floats and
    object for any other mix; where a frame lacks the column it is widened
    to hold the missing values (integers to float64, booleans to object).
    A piece that holds no value at all (a frame without rows, a column of
    missing values only) counts like any other in this choice: pandas 2
    leaves some of them out and warns that it will stop doing so. *)
Definition numeric (d : dtype) : bool :=
  match d with Int64 | Float64 => true | _ => false end.

Definition common_dtype (ds : list dtype) : dtype :=
  match ds with
  | [] => Object
  | d :: t => if forallb (dtype_eqb d) t then d
              else if forallb numeric ds then Float64 else Object
  end.

Definition hold_na (d : dtype) : dtype :=
  match d with Int64 => Float64 | BoolDtype => Object | _ => d end.

Definition cast (d : dtype) (c : cell) : cell :=
  match d, c with
  | Float64, Int n => Num (inject_Z n)
  | _, _ => c
  end.

Definition missing_of (d : dtype) : cell :=
  match d with Datetime64 => Null NaT | _ => Null NaN end.

Fixpoint labels_eqb (a b : list string) : bool :=
  match a, b with
  | [], [] => true
  | x :: a', y :: b' => String.eqb x y && labels_eqb a' b'
  | _, _ => false
  end.

Fixpoint distinct (ls : list string) : bool :=
  match ls with
  | [] => true
  | x :: t => negb (mem x t) && distinct t
  end.

(** [ignore_index=True] *)
Definition renumber (rs : list row) : list row :=
  map (fun kr => mk_row (Z.of_nat (fst kr)) (cells (snd kr)))
      (combine (seq 0 (List.length rs)) rs).

(** Frames with the same labels, column by column. *)
Definition stack_by_position (f0 : DataFrame) (frames : list DataFrame)
  : DataFrame :=
  let cols :=
    map (fun jc =>
           mk_column (label (snd jc))
             (common_dtype
                (map (fun f => dt (nth (fst jc) (columns f) no_column))
                     frames)))
        (combine (seq 0 (List.length (columns f0))) (columns f0)) in
  mk_frame cols
    (renumber
       (flat_map
          (fun f =>
             map (fun r =>
                    mk_row (idx r)
                      (map (fun jc => cast (dt (snd jc)) (cell_at r (fst jc)))
                           (combine (seq 0 (List.length cols)) cols)))
                 (rows f))
          frames)).

(** Frames with distinct labels, label by label. *)
Definition column_of (l : string) (f : DataFrame) : option nat :=
  match positions l (labels f) with
  | i :: _ => Some i
  | [] => None
  end.

Definition union_labels (frames : list DataFrame) : list string :=
  fold_left
    (fun acc f => acc ++ filter (fun l => negb (mem l acc)) (labels f))
    frames [].

Definition union_column (frames : list DataFrame) (l : string) : column :=
  let present :=
    flat_map (fun f => match column_of l f with
                       | Some i => [dt (nth i (columns f) no_column)]
                       | None => []
                       end) frames in
  let lacking :=
    existsb (fun f => match column_of l f with
                      | Some _ => false
                      | None => true
                      end) frames in
  mk_column l (if lacking then hold_na (common_dtype present)
               else common_dtype present).

Definition stack_by_label (frames : list DataFrame) : DataFrame :=
  let cols := map (union_column frames) (union_labels frames) in
  mk_frame cols
    (renumber
       (flat_map
          (fun f =>
             map (fun r =>
                    mk_row (idx r)
                      (map (fun c => match column_of (label c) f with
                                     | Some i => cast (dt c) (cell_at r i)
                                     | None => missing_of (dt c)
                                     end) cols))
                 (rows f))
          frames)).

(** [pd.concat(frames, ignore_index=True)]: nothing to concatenate is a
    [ValueError]. *)
Definition stacked (frames : list DataFrame) : answer DataFrame :=
  match frames with
  | [] => Raised (mk_exn ValueError "No objects to concatenate")
  | f0 :: _ =>
      if forallb (fun f => labels_eqb (labels f) (labels f0)) frames
      then Returned (stack_by_position f0 frames)
      else if forallb (fun f => distinct (labels f)) frames
      then Returned (stack_by_label frames)
      else Raised (mk_exn InvalidIndexError
                     "Reindexing only valid with uniquely valued Index objects")
  end.

Definition fetched_table (t : string) : DataFrame :=
  match stored_table (Reader.asset_query t) None with
  | Returned d => d
  | Raised _ => mk_frame [] []
  end.

End Samples.

(* ===================================================================== *)
(** * The trail transformer *)
(* ===================================================================== *)

Section TrailTransform.

Variable repr_float : Q -> string.
Variable repr_int : Z -> string.
Variable str_stamp : Z -> string.
Variable wkt : geometry -> string.

(** The reprojection of one geometry from a CRS to an EPSG code, as pyproj
    does it behind [to_crs]. *)
Variable reproject : string -> Z -> geometry -> geometry.

(** The rename mapping of [process_trails], in its declared order. *)
Definition trl_cols : list (string * string) :=
  [ ("assetid", "Asset ID");
    ("gisid", "GIS ID");
    ("asset_category", "Category - Classification");
    ("asset_type", "Asset Type");
    ("park", "Park");
    ("park_subarea", "Park Subarea");
    ("trail_surface", "Trail Surface");
    ("length_m", "Length Meters");
    ("trail_name", "Trail Name");
    ("osmid", "OSM ID");
    ("description", "Description");
    ("verified_by", "Verified By");
    ("accessible", "Is Accessible");
    ("route_accessible", "Is Route Accessible");
    ("wkb_geometry", "geometry") ].

(** [gdf.set_geometry(name)] for a column name: an unknown name is a
    [ValueError]; what geopandas does with a name shared by several
    columns, or with a column that does not hold geometries yet, depends
    on its version. *)
Definition set_geometry (name : string) (gdf : GeoDataFrame)
  : outcome GeoDataFrame :=
  match positions name (labels (frame gdf)) with
  | [] => raise ValueError (String.append "Unknown column " name)
  | [j] =>
      match dt (nth j (columns (frame gdf)) no_column) with
      | GeometryDtype => Ok (mk_geoframe (frame gdf) name (crs gdf))
      | _ => Unmodelled
      end
  | _ => Unmodelled
  end.

Fixpoint map_at {A} (j : nat) (f : A -> A) (l : list A) : list A :=
  match l, j with
  | [], _ => []
  | x :: t, O => f x :: t
  | x :: t, S j' => x :: map_at j' f t
  end.

(** One cell of a geometry column under a reprojection. *)
Definition reproject_cell (from : string) (epsg : Z) (c : cell) : cell :=
  match c with
  | Geo g => Geo (reproject from epsg g)
  | _ => c
  end.

(** [gdf.to_crs(crs=epsg, inplace=True)]: every geometry of the active
    geometry column is reprojected, a missing one stays missing, and the
    frame's CRS becomes the target.  A frame whose active geometry column
    is gone has no [geometry] attribute; a frame without CRS, written
    here with the empty string, cannot be transformed. *)
Definition to_crs (epsg : Z) (gdf : GeoDataFrame) : outcome GeoDataFrame :=
  match positions (geometry_name gdf) (labels (frame gdf)) with
  | [] =>
      raise AttributeError
        "You are calling a geospatial method on the GeoDataFrame, but the active geometry column is not present."
  | [j] =>
      if String.eqb (crs gdf) EmptyString
      then raise ValueError
             "Cannot transform naive geometries.  Please set a crs on the object first."
      else
        Ok (mk_geoframe
              (mk_frame (columns (frame gdf))
                 (map (fun r =>
                         mk_row (idx r)
                           (map_at j (reproject_cell (crs gdf) epsg)
                                   (cells r)))
                      (rows (frame gdf))))
              (geometry_name gdf)
              (String.append "EPSG:" (show_Z epsg)))
  | _ => Unmodelled
  end.

(** [process_trails(gdf)], statement by statement (the [logging.info]
    calls aside).  The CRS of a frame is that of its active geometry
    column: the function is followed on the frames [read_trails]
    delivers, whose active geometry column is [wkb_geometry], the one the
    rename turns into [geometry]. *)
Definition process_trails (gdf : GeoDataFrame) : outcome GeoDataFrame :=
  (* gdf.rename(columns=trl_cols, inplace=True) *)
  let df := rename trl_cols (frame gdf) in
  (* gdf = gdf[trl_cols.values()] *)
  df <- getitem_list df (values trl_cols) ;;
  if negb (String.eqb (geometry_name gdf) "wkb_geometry") then Unmodelled
  else
    let gdf := mk_geoframe df (geometry_name gdf) (crs gdf) in
    (* gdf = gdf.set_geometry("geometry") *)
    gdf <- set_geometry "geometry" gdf ;;
    (* gdf.to_crs(crs=4326, inplace=True) *)
    gdf <- to_crs 4326 gdf ;;
    (* gdf = gdf.astype({...: 'str'}) *)
    Ok (mk_geoframe
          (astype_str_objects repr_float repr_int str_stamp wkt (frame gdf))
          (geometry_name gdf) (crs gdf)).

End TrailTransform.

(* ===================================================================== *)
(** * The first block of the script: read and transform *)
(* ===================================================================== *)

Module Script.

(** The manager with the logging records, and standard output. *)
Record state : Type :=
  mk_state { pg : Postgres.state; stdout : list string }.

(** A statement on the manager, run inside the script's state. *)
Definition on_pg {A} (m : prog Postgres.state A) : prog state A :=
  fun s => let (p, r) := m (pg s) in (mk_state p (stdout s), r).

(** A statement that prints, run inside the script's state. *)
Definition on_stdout {A} (m : prog (list string) A) : prog state A :=
  fun s => let (o, r) := m (stdout s) in (mk_state (pg s) o, r).

Section Block.

Variable driver : Postgres.Driver.
Variable read_table_names : option Postgres.conn_handle
                            -> answer (list string).
Variable read_sql : Reader.sql_select -> option Postgres.conn_handle
                    -> answer DataFrame.
Variable read_postgis : Reader.sql_select -> option Postgres.conn_handle
                        -> string -> answer GeoDataFrame.
Variable concat : list DataFrame -> answer DataFrame.
Variable repr_float : Q -> string.
Variable repr_int : Z -> string.
Variable str_stamp : Z -> string.
Variable wkt : geometry -> string.
Variable reproject : string -> Z -> geometry -> geometry.

(** [pg = PostgresDBManager(...)] *)
Definition set_manager (m : Postgres.PostgresDBManager)
  : prog state unit :=
  modify (fun s => mk_state (Postgres.mk_state m (Postgres.records (pg s)))
                            (stdout s)).

(** The block from [logging.info("Connecting to CityWide database")] to
    its [finally]; it yields [gdf_ast] and [gdf_trl].  The records that
    [process_assets] and [process_trails] log themselves are not
    kept. *)
Definition database_block
           (PG_HOST_CW PG_PORT_CW PG_DATABASE_CW PG_USER_CW PG_PASSWORD_CW
              : option string)
  : prog state (GeoDataFrame * GeoDataFrame) :=
  try_finally
    (try_except
       (on_pg (Postgres.logging INFO "Connecting to CityWide database") >>
        set_manager (Postgres.init PG_DATABASE_CW PG_USER_CW PG_PASSWORD_CW
                                   PG_HOST_CW PG_PORT_CW) >>
        conn <~ on_pg (Postgres.connect driver) ;;
        on_pg (Postgres.logging INFO
                 (String.append nl "Reading Assets (points) data")) >>
        df_ast <~ on_stdout (Reader.read_assets read_table_names read_sql
                                                concat conn) ;;
        on_pg (Postgres.logging INFO
                 (String.append nl "Reading Trails (line) data")) >>
        gdf_trl <~ on_stdout (Reader.read_trails read_postgis conn) ;;
        on_pg (Postgres.logging INFO
                 (String.append nl "Processing Assets data")) >>
        gdf_ast <~ lift (process_assets repr_float repr_int str_stamp wkt
                                        df_ast "GIS Latitude"
                                        "GIS Longitude") ;;
        on_pg (Postgres.logging INFO
                 (String.append nl "Processing Trails data")) >>
        gdf_trl <~ lift (process_trails repr_float repr_int str_stamp wkt
                                        reproject gdf_trl) ;;
        ret (gdf_ast, gdf_trl))
       (fun e =>
          if isinstance e Exception
          then Some (praise Exception
                       (String.append "Error occurred: " (exn_str e)))
          else None))
    (on_pg (Postgres.disconnect driver)).

End Block.

End Script.

(** ** Vocabulary for the statements about the transformers *)

(** The column labels a rename mapping expects: every source name labels
    exactly one column and no column carries a target name yet. *)
Definition clean_for (m : list (string * string)) (ls : list string) : bool :=
  forallb (fun kv => Nat.eqb (count_label (fst kv) ls) 1
                     && Nat.eqb (count_label (snd kv) ls) 0) m.

(** ** Concrete frames for the transformer's edge cases *)

(** A table that was never categorised. *)
Definition uncategorised_frame : DataFrame :=
  mk_frame [mk_column "assetid" Int64; mk_column "park" Object]
           [mk_row 0 [Int 1000; Str "Garibaldi Park"]].

(** The source columns without [campsite_number]. *)
Definition no_campsite_frame : DataFrame :=
  mk_frame
    (filter (fun c => negb (String.eqb (label c) "campsite_number"))
            source_columns)
    [].

(** The source columns and no row. *)
Definition empty_source_frame : DataFrame := mk_frame source_columns [].

(** ** A concrete trail layer *)

(** The trail table as [read_trails] delivers it: the mapped columns in
    the table's own order, an ambient [objectid] column, two rows. *)
Definition trail_columns : list column :=
  [ mk_column "objectid" Int64; mk_column "wkb_geometry" GeometryDtype;
    mk_column "assetid" Int64; mk_column "gisid" Object;
    mk_column "asset_category" Object; mk_column "asset_type" Object;
    mk_column "park" Object; mk_column "park_subarea" Object;
    mk_column "trail_surface" Object; mk_column "length_m" Float64;
    mk_column "trail_name" Object; mk_column "osmid" Int64;
    mk_column "description" Object; mk_column "verified_by" Object;
    mk_column "accessible" Object; mk_column "route_accessible" Object ].

Definition trail_row (i : Z) (name : string) (line : cell) : row :=
  mk_row i
    [ Int (1 + i); line; Int (7000 + i); Str "T-1"; Str "Trail";
      Str "Hiking"; Str "Garibaldi Park"; Null PyNone; Str "Gravel";
      Num 1250.5; Str name; Int 99; Null PyNone; Str "Staff"; Str "No";
      Str "No" ].

Definition trails_frame : GeoDataFrame :=
  mk_geoframe
    (mk_frame trail_columns
       [ trail_row 0 "Elfin Lakes"
           (Geo (LineString [(1200000, 500000); (1200100, 500050)]));
         trail_row 1 "Red Heather" (Null PyNone) ])
    "wkb_geometry" "EPSG:3005".

(** The trail table without its surface column. *)
Definition no_surface_frame : GeoDataFrame :=
  mk_geoframe
    (mk_frame
       (filter (fun c => negb (String.eqb (label c) "trail_surface"))
               trail_columns) [])
    "wkb_geometry" "EPSG:3005".

(** A stand-in for pyproj in the concrete instances: the general
    statements are proved for every reprojection. *)
Definition sample_reproject (from : string) (epsg : Z) (g : geometry)
  : geometry :=
  match g with
  | LineString cs =>
      LineString (map (fun xy => (fst xy / 100000 - 135, snd xy / 100000 + 45))
                      cs)
  | _ => g
  end.

Definition process_trails_shown : GeoDataFrame -> outcome GeoDataFrame :=
  process_trails show_Q show_Z show_Z show_geometry sample_reproject.

(** ** Sequences of calls on the database manager *)

Inductive pg_method : Type := CallConnect | CallCreateCursor | CallDisconnect.

Definition run_method (driver : Postgres.Driver) (m : pg_method)
  : prog Postgres.state unit :=
  match m with
  | CallConnect => Postgres.connect driver >> ret tt
  | CallCreateCursor => Postgres.create_cursor driver
  | CallDisconnect => Postgres.disconnect driver
  end.

(** The calls one after the other; an exception that leaves a method ends
    the sequence. *)
Fixpoint run_methods (driver : Postgres.Driver) (ms : list pg_method)
  : prog Postgres.state unit :=
  match ms with
  | [] => ret tt
  | m :: t => run_method driver m >> run_methods driver t
  end.

(** The connection parameters a manager was built with. *)
Definition credentials (m : Postgres.PostgresDBManager)
  : list (option string) :=
  [ Postgres.dbname m; Postgres.user m; Postgres.password m;
    Postgres.host m; Postgres.port m ].

(** What a statement of the manager may change: never the connection
    parameters, and the log only grows. *)
Definition frames (s s' : Postgres.state) : Prop :=
  credentials (Postgres.self s') = credentials (Postgres.self s) /\
  exists more, Postgres.records s' = Postgres.records s ++ more.

(** ** Platforms and readers that fail *)

(** A platform whose login opens a session without identifying a user. *)
Definition anonymous_platform : AGO.Platform :=
  {| AGO.login := fun _ _ _ => Returned (AGO.mk_gis None);
     AGO.search := AGO.search PublishSpec.list_platform;
     AGO.delete := AGO.delete PublishSpec.list_platform;
     AGO.add := AGO.add PublishSpec.list_platform;
     AGO.publish := AGO.publish PublishSpec.list_platform |}.

(** A platform that refuses every upload. *)
Definition full_platform : AGO.Platform :=
  {| AGO.login := AGO.login PublishSpec.list_platform;
     AGO.search := AGO.search PublishSpec.list_platform;
     AGO.delete := AGO.delete PublishSpec.list_platform;
     AGO.add := fun _ _ _ _ _ =>
       Raised (mk_exn Exception "Storage quota exceeded");
     AGO.publish := AGO.publish PublishSpec.list_platform |}.

(** A database in which the [trails] table is gone. *)
Definition broken_trails_table (q : Reader.sql_select)
           (conn : option Postgres.conn_handle) : answer DataFrame :=
  if String.eqb (Reader.from_table q) "trails"
  then Raised (mk_exn ProgrammingError "relation does not exist")
  else Samples.stored_table q conn.

(** ** A concrete database *)

Definition working_driver : Postgres.Driver :=
  {| Postgres.pg_connect := fun _ _ _ _ _ => Returned (Postgres.Connection 1);
     Postgres.conn_cursor := fun _ => Returned (Postgres.Cursor 1);
     Postgres.conn_close := fun _ => Returned tt |}.

(** The listing of a schema with one data table; without a connection
    pandas fails on the object it is given. *)
Definition benches_listing (conn : option Postgres.conn_handle)
  : answer (list string) :=
  match conn with
  | Some _ => Returned ["benches"; "qgis_projects"]
  | None =>
      Raised (mk_exn AttributeError
                "'NoneType' object has no attribute 'cursor'")
  end.

Definition benches_table (q : Reader.sql_select)
           (conn : option Postgres.conn_handle) : answer DataFrame :=
  Returned
    (mk_frame (mk_column "wkb_geometry" Object :: source_columns)
       [ mk_row 0 (Str "0101000020"
                     :: cells (source_row 0 "Signs" (Num 49.7)
                                          (Num (-123.1)))) ]).

Definition trails_layer (q : Reader.sql_select)
           (conn : option Postgres.conn_handle) (geom_col : string)
  : answer GeoDataFrame :=
  Returned trails_frame.

Definition script_start : Script.state := Script.mk_state fresh_manager [].

Definition database_block_shown (driver : Postgres.Driver)
  : prog Script.state (GeoDataFrame * GeoDataFrame) :=
  Script.database_block driver benches_listing benches_table trails_layer
    Samples.stacked show_Q show_Z show_Z show_geometry sample_reproject
    (Some "db.example.org") (Some "5432") (Some "citywide") (Some "reader")
    (Some "secret").

(** A table whose latitude column came out as text. *)
Definition text_latitude_frame : DataFrame :=
  mk_frame
    (map (fun c => if String.eqb (label c) "gis_latitude"
                   then mk_column "gis_latitude" Object else c)
         source_columns)
    [ source_row 0 "Signs" (Num 49.7) (Num (-123.1));
      source_row 1 "Signs" (Str "49.7 N") (Num (-123.1)) ].

(** A trail layer in which every trail has its line. *)
Definition complete_trails_frame : GeoDataFrame :=
  mk_geoframe
    (mk_frame trail_columns
       [ trail_row 0 "Elfin Lakes"
           (Geo (LineString [(1200000, 500000); (1200100, 500050)]));
         trail_row 1 "Red Heather"
           (Geo (LineString [(1200100, 500050); (1200300, 500400)])) ])
    "wkb_geometry" "EPSG:3005".

(* ===================================================================== *)
(** * Properties *)
(* ===================================================================== *)

(** ** Lists, masks and outcomes *)

Lemma bind_Ok {A B} (m : outcome A) (k : A -> outcome B) (b : B) :
  Py.bind m k = Ok b -> exists a, m = Ok a /\ k a = Ok b.
Proof.
  destruct m as [a| |]; simpl; intros H; try discriminate.
  exists a; split; [reflexivity | exact H].
Qed.

Lemma mapM_Ok_length {A B} (f : A -> outcome B) (l : list A) (ys : list B) :
  mapM f l = Ok ys -> List.length ys = List.length l.
Proof.
  revert ys; induction l as [|x t IH]; simpl; intros ys H.
  - inversion H; reflexivity.
  - apply bind_Ok in H as (y & _ & H).
    apply bind_Ok in H as (ys' & Hys & H).
    inversion H; subst; simpl; f_equal; apply IH; exact Hys.
Qed.

Lemma mapM_Ok_Forall2 {A B} (f : A -> outcome B) (l : list A) (ys : list B) :
  mapM f l = Ok ys -> Forall2 (fun x y => f x = Ok y) l ys.
Proof.
  revert ys; induction l as [|x t IH]; simpl; intros ys H.
  - inversion H; constructor.
  - apply bind_Ok in H as (y & Hy & H).
    apply bind_Ok in H as (ys' & Hys & H).
    inversion H; subst; constructor; auto.
Qed.

Lemma select_rows_map (p : row -> bool) (rs : list row) :
  select_rows (map p rs) rs = filter p rs.
Proof.
  induction rs as [|r t IH]; simpl; [reflexivity|].
  destruct (p r); rewrite IH; reflexivity.
Qed.

Lemma select_rows_In (m : list bool) (rs : list row) (r : row) :
  In r (select_rows m rs) -> In r rs.
Proof.
  revert m; induction rs as [|a t IH]; intros [|b m]; simpl; try tauto.
  destruct b; simpl; intros H.
  - destruct H as [H|H]; [left; exact H | right; exact (IH _ H)].
  - right; exact (IH _ H).
Qed.

Lemma band_map {A} (p q : A -> bool) (l : list A) :
  band (map p l) (map q l) = map (fun x => p x && q x) l.
Proof.
  induction l as [|x t IH]; simpl; [reflexivity | rewrite IH; reflexivity].
Qed.

Lemma filter_filter {A} (p q : A -> bool) (l : list A) :
  filter p (filter q l) = filter (fun x => q x && p x) l.
Proof.
  induction l as [|x t IH]; simpl; [reflexivity|].
  destruct (q x); simpl; [destruct (p x)|]; rewrite IH; reflexivity.
Qed.

(** ** Column positions *)

Lemma positions_from_spec (l : string) (ls : list string) (i j : nat) :
  In j (positions_from i l ls) <->
  (i <= j)%nat /\ nth_error ls (j - i) = Some l.
Proof.
  revert i; induction ls as [|x t IH]; intros i; simpl.
  - split; [tauto|]. intros [_ H]. destruct (j - i)%nat; discriminate.
  - destruct (String.eqb_spec x l) as [->|Hne]; simpl; rewrite ?IH.
    + split.
      * intros [<-|[Hle H]].
        -- rewrite Nat.sub_diag; auto.
        -- split; [lia|]. replace (j - i)%nat with (S (j - S i)) by lia.
           exact H.
      * intros [Hle H]. destruct (Nat.eq_dec i j) as [->|Hij]; [auto|].
        right; split; [lia|].
        replace (j - i)%nat with (S (j - S i)) in H by lia. exact H.
    + split.
      * intros [Hle H]; split; [lia|].
        replace (j - i)%nat with (S (j - S i)) by lia. exact H.
      * intros [Hle H]. destruct (Nat.eq_dec i j) as [->|Hij].
        -- rewrite Nat.sub_diag in H; simpl in H; congruence.
        -- split; [lia|].
           replace (j - i)%nat with (S (j - S i)) in H by lia. exact H.
Qed.

Lemma positions_spec (l : string) (ls : list string) (j : nat) :
  In j (positions l ls) <-> nth_error ls j = Some l.
Proof.
  unfold positions; rewrite positions_from_spec, Nat.sub_0_r.
  split; [tauto | intros H; split; [lia | exact H]].
Qed.

Lemma get_loc_Ok (df : DataFrame) (l : string) (j : nat) :
  get_loc df l = Ok j ->
  positions l (labels df) = [j] /\ nth_error (labels df) j = Some l.
Proof.
  unfold get_loc. destruct (positions l (labels df)) as [|i [|i' t]] eqn:E;
    try discriminate.
  intros H; inversion H; subst. split; [reflexivity|].
  apply positions_spec; rewrite E; left; reflexivity.
Qed.

Lemma get_loc_columns (df df' : DataFrame) (l : string) :
  columns df' = columns df -> get_loc df' l = get_loc df l.
Proof. unfold get_loc, labels; intros ->; reflexivity. Qed.

(** ** Comparisons and masks *)

Lemma cmp_cell_Ok (op : Q -> Q -> bool) (k : Q) (c : cell) (b : bool) :
  cmp_cell op k c = Ok b -> b = cmp_value op k c.
Proof.
  unfold cmp_value; destruct c; simpl; intros H; inversion H; reflexivity.
Qed.

Lemma mapM_cmp_Ok (op : Q -> Q -> bool) (k : Q) (i : nat) (rs : list row)
      (m : list bool) :
  mapM (fun r => cmp_cell op k (cell_at r i)) rs = Ok m ->
  m = map (fun r => cmp_value op k (cell_at r i)) rs.
Proof.
  revert m; induction rs as [|r t IH]; simpl; intros m H.
  - inversion H; reflexivity.
  - apply bind_Ok in H as (b & Hb & H).
    apply bind_Ok in H as (m' & Hm & H).
    inversion H; subst. apply cmp_cell_Ok in Hb as ->.
    rewrite (IH _ Hm); reflexivity.
Qed.

Lemma cmp_series_Ok (op : Q -> Q -> bool) (k : Q) (df : DataFrame) (i : nat)
      (m : list bool) :
  cmp_series op k df i = Ok m ->
  m = map (fun r => cmp_value op k (cell_at r i)) (rows df).
Proof.
  unfold cmp_series.
  destruct (dt (nth i (columns df) no_column));
    try discriminate; apply mapM_cmp_Ok.
Qed.

Lemma isin_Str (vs : list string) (c : cell) :
  isin vs c = true -> exists s, c = Str s /\ In s vs.
Proof.
  destruct c as [| | |s| | |]; try discriminate. unfold isin. intros H.
  exists s; split; [reflexivity|].
  apply existsb_exists in H as (x & Hx & E).
  apply String.eqb_eq in E; subst; exact Hx.
Qed.

Lemma in_range_cmp (lo hi : Q) (c : cell) :
  cmp_value ge lo c && cmp_value le hi c = in_range lo hi c.
Proof.
  unfold cmp_value, in_range; destruct (as_number c); reflexivity.
Qed.

Lemma in_range_notna (lo hi : Q) (c : cell) :
  in_range lo hi c = true -> isna c = false.
Proof. destruct c; simpl; try reflexivity; discriminate. Qed.

Lemma in_range_bounds (lo hi : Q) (c : cell) :
  in_range lo hi c = true ->
  exists q, as_number c = Some q /\ lo <= q /\ q <= hi.
Proof.
  unfold in_range. destruct (as_number c) as [q|]; [|discriminate].
  intros H; apply andb_prop in H as [H1 H2].
  exists q; split; [reflexivity|].
  split; apply Qle_bool_iff; assumption.
Qed.

(** ** A projected row *)

Lemma cell_at_take_row (ix : list nat) (r : row) (j : nat) :
  (j < List.length ix)%nat ->
  cell_at (take_row ix r) j = cell_at r (nth j ix 0%nat).
Proof.
  intros Hj. unfold take_row, cell_at at 1; simpl.
  rewrite (nth_indep _ _ (cell_at r 0%nat)) by (rewrite length_map; exact Hj).
  apply (map_nth (cell_at r)).
Qed.

Lemma labels_take (ix : list nat) (df : DataFrame) :
  List.length (labels (take ix df)) = List.length ix.
Proof. unfold labels, take; simpl; rewrite !length_map; reflexivity. Qed.

Lemma nth_error_lt {A} (l : list A) (j : nat) (x : A) :
  nth_error l j = Some x -> (j < List.length l)%nat.
Proof. intros H; apply nth_error_Some; congruence. Qed.

Lemma labels_rename (m : list (string * string)) (df : DataFrame) :
  labels (rename m df) = map (rename_label m) (labels df).
Proof. unfold labels, rename; cbn [columns]; rewrite !map_map; reflexivity. Qed.

(** ** Counting with filters *)

Lemma filter_disjoint_le {A} (p q : A -> bool) (l : list A) :
  (forall x, In x l -> p x = true -> q x = true -> False) ->
  (List.length (filter p l) + List.length (filter q l) <= List.length l)%nat.
Proof.
  induction l as [|a t IH]; intros H; simpl; [lia|].
  assert (IH' := IH (fun x Hx => H x (or_intror Hx))).
  destruct (p a) eqn:Ep, (q a) eqn:Eq; simpl; try lia.
  exfalso; apply (H a); auto. left; reflexivity.
Qed.

Lemma filter_cover {A} (p q : A -> bool) (l : list A) :
  (forall x, In x l -> p x = true -> q x = true -> False) ->
  (List.length (filter p l) + List.length (filter q l))%nat = List.length l ->
  forall x, In x l -> p x = true \/ q x = true.
Proof.
  induction l as [|a t IH]; intros H Hlen x Hx; [contradiction|].
  assert (Hd : forall y, In y t -> p y = true -> q y = true -> False)
    by (intros y Hy; apply H; right; exact Hy).
  pose proof (filter_disjoint_le p q t Hd) as Hle.
  simpl in Hlen.
  destruct (p a) eqn:Ep, (q a) eqn:Eq; simpl in Hlen;
    try (exfalso; lia).
  - exfalso; apply (H a); auto. left; reflexivity.
  - destruct Hx as [<-|Hx]; [left; exact Ep|]. apply IH; auto; lia.
  - destruct Hx as [<-|Hx]; [right; exact Eq|]. apply IH; auto; lia.
Qed.

Lemma filter_split3 {A} (s a b c : A -> bool) (l : list A) :
  (forall x, In x l -> s x = true ->
             (a x = true /\ b x = false /\ c x = false) \/
             (a x = false /\ b x = true /\ c x = false) \/
             (a x = false /\ b x = false /\ c x = true)) ->
  List.length (filter s l)
  = (List.length (filter (fun x => s x && a x) l)
     + List.length (filter (fun x => s x && b x) l)
     + List.length (filter (fun x => s x && c x) l))%nat.
Proof.
  induction l as [|x t IH]; intros H; simpl; [reflexivity|].
  assert (IH' := IH (fun y Hy => H y (or_intror Hy))).
  destruct (s x) eqn:Es; simpl; [|exact IH'].
  destruct (H x (or_introl eq_refl) Es)
    as [(-> & -> & ->)|[(-> & -> & ->)|(-> & -> & ->)]]; simpl; lia.
Qed.

Lemma filter_ext_length {A} (p q : A -> bool) (l : list A) :
  (forall x, In x l -> p x = q x) ->
  List.length (filter p l) = List.length (filter q l).
Proof. intros H. rewrite (filter_ext_in _ _ _ H). reflexivity. Qed.

Lemma minus200_outside (x : Q) :
  Qeq_bool x (-200) = true -> in_range lon_min lon_max (Num x) = false.
Proof.
  intros E. apply Qeq_bool_iff in E.
  unfold in_range, ge; cbn [as_number].
  destruct (Qle_bool lon_min x) eqn:H; [|reflexivity].
  apply Qle_bool_iff in H. rewrite E in H.
  exfalso. revert H. unfold lon_min, Qle; simpl. lia.
Qed.

(** ** The stages of [process_assets] *)

Section TransformFacts.

Variable repr_float : Q -> string.
Variable repr_int : Z -> string.
Variable str_stamp : Z -> string.
Variable wkt : geometry -> string.

Abbreviation py_str' := (py_str repr_float repr_int str_stamp wkt).
Abbreviation astype' := (astype_str_objects repr_float repr_int str_stamp wkt).
Abbreviation process_assets' :=
  (process_assets repr_float repr_int str_stamp wkt).

Lemma dropna_pair (df df' : DataFrame) (a b : string) (ja jb : nat) :
  dropna [a; b] df = Ok df' ->
  get_loc df a = Ok ja -> get_loc df b = Ok jb ->
  columns df' = columns df /\
  rows df' = filter (fun r => negb (isna (cell_at r ja))
                              && negb (isna (cell_at r jb))) (rows df).
Proof.
  intros H Ha Hb.
  apply get_loc_Ok in Ha as [Ha _]. apply get_loc_Ok in Hb as [Hb _].
  unfold dropna in H; simpl in H. rewrite Ha, Hb in H; simpl in H.
  inversion H; subst; simpl. split; [reflexivity|].
  apply filter_ext; intros r. rewrite orb_false_r, negb_orb; reflexivity.
Qed.

Lemma process_assets_inv (df : DataFrame) (latcol loncol : string)
      (g : GeoDataFrame) :
  process_assets' df latcol loncol = Ok g ->
  exists jc ix jlat jlon gs,
    get_loc df "asset_category" = Ok jc /\
    get_indexer_for (values ast_cols)
      (map (rename_label ast_cols) (labels df)) = Ok ix /\
    get_loc (selected df jc ix) latcol = Ok jlat /\
    get_loc (selected df jc ix) loncol = Ok jlon /\
    mapM (fun r => point_from_xy (cell_at r jlon) (cell_at r jlat))
         (filter (in_box jlat jlon) (rows (selected df jc ix))) = Ok gs /\
    g = mk_geoframe
          (astype' (with_geometry
                      (mk_frame (columns (selected df jc ix))
                         (filter (in_box jlat jlon)
                                 (rows (selected df jc ix)))) gs))
          "geometry" "EPSG:4326".
Proof.
  unfold process_assets. intros H.
  apply bind_Ok in H as (jc & Hjc & H).
  rewrite select_rows_map in H.
  apply bind_Ok in H as (sel & Hsel & H).
  unfold getitem_list in Hsel.
  apply bind_Ok in Hsel as (ix & Hix & Hsel).
  assert (Hix' : get_indexer_for (values ast_cols)
                   (map (rename_label ast_cols) (labels df)) = Ok ix).
  { rewrite <- Hix, labels_rename; reflexivity. }
  assert (Esel : sel = selected df jc ix) by (inversion Hsel; reflexivity).
  clear Hsel.
  apply bind_Ok in H as (dn & Hdn & H).
  apply bind_Ok in H as (jlat & Hjlat & H).
  apply bind_Ok in H as (m1 & Hm1 & H).
  apply bind_Ok in H as (m2 & Hm2 & H).
  apply bind_Ok in H as (jlon & Hjlon & H).
  apply bind_Ok in H as (m3 & Hm3 & H).
  apply bind_Ok in H as (m4 & Hm4 & H).
  apply bind_Ok in H as (jlon' & Hjlon' & H).
  apply bind_Ok in H as (jlat' & Hjlat' & H).
  apply bind_Ok in H as (gs & Hgs & H).
  assert (Hcols : columns dn = columns sel).
  { unfold dropna in Hdn. apply bind_Ok in Hdn as (i0 & _ & Hdn).
    inversion Hdn; reflexivity. }
  rewrite (get_loc_columns sel dn) in Hjlat, Hjlon by exact Hcols.
  rewrite (get_loc_columns dn) in Hjlon', Hjlat' by reflexivity.
  rewrite (get_loc_columns sel dn) in Hjlon', Hjlat' by exact Hcols.
  assert (jlon' = jlon) by congruence. assert (jlat' = jlat) by congruence.
  subst jlon' jlat'.
  destruct (dropna_pair sel dn latcol loncol jlat jlon Hdn Hjlat Hjlon)
    as [_ Hrows].
  apply cmp_series_Ok in Hm1, Hm2, Hm3, Hm4. subst m1 m2 m3 m4.
  rewrite !band_map, select_rows_map, Hrows, filter_filter in H, Hgs.
  assert (Hf : forall r,
             (negb (isna (cell_at r jlat)) && negb (isna (cell_at r jlon)))
             && (cmp_value ge lat_min (cell_at r jlat)
                 && cmp_value le lat_max (cell_at r jlat)
                 && cmp_value ge lon_min (cell_at r jlon)
                 && cmp_value le lon_max (cell_at r jlon))
             = in_box jlat jlon r).
  { intros r. unfold in_box.
    rewrite <- !in_range_cmp, <- !andb_assoc.
    destruct (isna (cell_at r jlat)) eqn:E1.
    - destruct (cell_at r jlat); try discriminate; reflexivity.
    - destruct (isna (cell_at r jlon)) eqn:E2; simpl; [|reflexivity].
      destruct (cell_at r jlon); try discriminate.
      unfold cmp_value; simpl. rewrite !andb_false_r; reflexivity. }
  rewrite (filter_ext _ _ Hf) in H, Hgs.
  exists jc, ix, jlat, jlon, gs. subst sel.
  repeat split; try assumption.
  inversion H. rewrite Hcols. reflexivity.
Qed.

(** *** What [get_indexer_for] returns *)

Lemma get_indexer_for_sound (wanted ls : list string) (ix : list nat) :
  get_indexer_for wanted ls = Ok ix ->
  Forall (fun i => exists w, In w wanted /\ nth_error ls i = Some w) ix.
Proof.
  revert ix; induction wanted as [|w t IH]; simpl; intros ix H.
  - inversion H; constructor.
  - destruct (positions w ls) as [|p ps] eqn:E; [discriminate|].
    apply bind_Ok in H as (rest & Hrest & H). inversion H; subst.
    change (p :: ps ++ rest) with ((p :: ps) ++ rest).
    apply Forall_app; split.
    + apply Forall_forall; intros i Hi. exists w; split; [left; reflexivity|].
      apply positions_spec; rewrite E; exact Hi.
    + eapply Forall_impl; [|apply IH; exact Hrest].
      intros i (w' & Hw' & Hi); exists w'; split; [right|]; assumption.
Qed.

Lemma get_indexer_for_complete (wanted ls : list string) (ix : list nat)
      (w : string) (p : nat) :
  get_indexer_for wanted ls = Ok ix ->
  In w wanted -> nth_error ls p = Some w -> In p ix.
Proof.
  revert ix; induction wanted as [|w0 t IH]; simpl; intros ix H Hw Hp.
  - contradiction.
  - destruct (positions w0 ls) as [|q qs] eqn:E; [discriminate|].
    apply bind_Ok in H as (rest & Hrest & H). inversion H; subst.
    change (q :: qs ++ rest) with ((q :: qs) ++ rest).
    apply in_or_app. destruct Hw as [->|Hw].
    + left. rewrite <- E. apply positions_spec; exact Hp.
    + right. eapply IH; eauto.
Qed.

Lemma labels_selected (df : DataFrame) (jc : nat) (ix : list nat) (j : nat) :
  Forall (fun i => (i < List.length (labels df))%nat) ix ->
  (j < List.length ix)%nat ->
  nth_error (labels (selected df jc ix)) j =
  nth_error (map (rename_label ast_cols) (labels df)) (nth j ix 0%nat).
Proof.
  intros Hix Hj. unfold selected, take, labels; cbn [columns].
  assert (Hlt : (nth j ix 0 < List.length (columns df))%nat).
  { rewrite Forall_forall in Hix.
    specialize (Hix _ (nth_In ix 0%nat Hj)).
    unfold labels in Hix; rewrite length_map in Hix; exact Hix. }
  rewrite !nth_error_map, (nth_error_nth' ix 0%nat Hj); cbn [option_map].
  destruct (nth_error (columns df) (nth j ix 0%nat)) as [c|] eqn:Ec.
  - cbn [option_map]. f_equal.
    erewrite nth_error_nth; [|apply map_nth_error; exact Ec].
    reflexivity.
  - apply nth_error_None in Ec; lia.
Qed.

Lemma sound_lt (wanted ls : list string) (ix : list nat) :
  Forall (fun i => exists w, In w wanted /\ nth_error ls i = Some w) ix ->
  Forall (fun i => (i < List.length ls)%nat) ix.
Proof.
  apply Forall_impl; intros i (w & _ & H). eapply nth_error_lt; eauto.
Qed.

(** *** Rows after the geometry column is attached *)

Lemma set_geometry_cells_combine (rs : list row) (gs : list geometry) :
  set_geometry_cells rs gs =
  map (fun rg => mk_row (idx (fst rg)) (cells (fst rg) ++ [Geo (snd rg)]))
      (combine rs gs).
Proof.
  revert gs; induction rs as [|r t IH]; intros [|g gs]; simpl;
    try reflexivity. rewrite IH; reflexivity.
Qed.

Lemma map_idx_set_geometry (rs : list row) (gs : list geometry) :
  List.length gs = List.length rs ->
  map idx (set_geometry_cells rs gs) = map idx rs.
Proof.
  revert gs; induction rs as [|r t IH]; intros [|g gs]; simpl;
    try discriminate; try reflexivity.
  intros H; injection H as H. rewrite IH by exact H; reflexivity.
Qed.

Lemma nth_astype_cells (objs : list string) (cols : list column)
      (cs : list cell) (j : nat) (d : cell) (dc : column) :
  List.length cols = List.length cs -> (j < List.length cs)%nat ->
  nth j (astype_cells repr_float repr_int str_stamp wkt objs cols cs) d =
  if mem (label (nth j cols dc)) objs then Str (py_str' (nth j cs d))
  else nth j cs d.
Proof.
  revert cs j; induction cols as [|c t IH]; intros [|v cs] j; simpl;
    try discriminate; try lia.
  intros Hlen Hj. injection Hlen as Hlen.
  destruct j as [|j]; [reflexivity|]. apply IH; [exact Hlen | lia].
Qed.

Lemma labels_astype (df : DataFrame) :
  labels (astype' df) = labels df.
Proof.
  unfold astype_str_objects, labels; cbn [columns]. rewrite map_map.
  apply map_ext; intros c.
  destruct (mem (label c) (object_labels df)); reflexivity.
Qed.

Lemma object_labels_with_geometry (df : DataFrame) (gs : list geometry)
      (l : string) :
  mem l (object_labels (with_geometry df gs)) = true -> In l (labels df).
Proof.
  unfold mem, object_labels, with_geometry, labels; cbn [columns].
  intros H. apply existsb_exists in H as (x & Hx & E).
  apply String.eqb_eq in E; subst x.
  apply in_map_iff in Hx as (c & <- & Hc).
  apply filter_In in Hc as [Hc Hd].
  apply in_app_or in Hc as [Hc|[<-|[]]]; [|discriminate].
  apply in_map; exact Hc.
Qed.

Lemma point_from_xy_Ok (x y : cell) (g : geometry) :
  point_from_xy x y = Ok g ->
  exists a b, as_number x = Some a /\ as_number y = Some b /\ g = Point a b.
Proof.
  destruct x, y; simpl; intros H; inversion H; eauto.
Qed.

Lemma Forall2_combine_In {A B} (R : A -> B -> Prop) (l : list A)
      (l' : list B) (x : A) (y : B) :
  Forall2 R l l' -> In (x, y) (combine l l') -> R x y.
Proof.
  induction 1 as [|a b l l' Hab _ IH]; simpl; [contradiction|].
  intros [E|Hin]; [inversion E; subst; exact Hab | exact (IH Hin)].
Qed.

Lemma kept_rows (df : DataFrame) (jc : nat) (ix : list nat)
      (jlat jlon : nat) :
  (jlat < List.length ix)%nat -> (jlon < List.length ix)%nat ->
  filter (in_box jlat jlon) (rows (selected df jc ix)) =
  map (take_row ix)
      (filter (keep jc (nth jlat ix 0%nat) (nth jlon ix 0%nat)) (rows df)).
Proof.
  intros Hlat Hlon. unfold selected, take, rename; cbn [rows].
  rewrite filter_map_swap, filter_filter. f_equal.
  apply filter_ext; intros r. unfold keep, in_box.
  rewrite !cell_at_take_row by assumption. apply andb_assoc.
Qed.

Lemma labels_selected_in (df : DataFrame) (jc : nat) (ix : list nat)
      (l : string) :
  get_indexer_for (values ast_cols)
    (map (rename_label ast_cols) (labels df)) = Ok ix ->
  In l (labels (selected df jc ix)) -> In l (values ast_cols).
Proof.
  intros Hix Hl. apply In_nth_error in Hl as (j & Hj).
  pose proof (get_indexer_for_sound _ _ _ Hix) as Hs.
  assert (Hjlt : (j < List.length ix)%nat).
  { apply nth_error_lt in Hj. unfold selected in Hj.
    rewrite labels_take in Hj; exact Hj. }
  rewrite labels_selected in Hj; [| |exact Hjlt].
  - rewrite Forall_forall in Hs.
    destruct (Hs _ (nth_In ix 0%nat Hjlt)) as (w & Hw & E).
    rewrite E in Hj; inversion Hj; subst; exact Hw.
  - apply sound_lt in Hs. rewrite length_map in Hs. exact Hs.
Qed.

Lemma keep_false (pc plat plon : nat) (r : row) :
  isin cats (cell_at r pc) = false \/
  isna (cell_at r plat) = true \/ isna (cell_at r plon) = true \/
  in_range lat_min lat_max (cell_at r plat) = false \/
  in_range lon_min lon_max (cell_at r plon) = false ->
  keep pc plat plon r = false.
Proof.
  unfold keep. intros [H|[H|[H|[H|H]]]].
  - rewrite H; reflexivity.
  - destruct (in_range lat_min lat_max (cell_at r plat)) eqn:E.
    + apply in_range_notna in E; congruence.
    + rewrite andb_false_r; reflexivity.
  - destruct (in_range lon_min lon_max (cell_at r plon)) eqn:E.
    + apply in_range_notna in E; congruence.
    + rewrite andb_false_r; reflexivity.
  - rewrite H, andb_false_r; reflexivity.
  - rewrite H, andb_false_r; reflexivity.
Qed.

Lemma filtered_out {A B} (f : A -> B) (p : A -> bool) (l : list A) (x : A) :
  NoDup (map f l) -> In x l -> p x = false ->
  ~ In (f x) (map f (filter p l)).
Proof.
  induction l as [|a t IH]; simpl; [tauto|].
  intros Hnd [->|Hin] Hp; inversion Hnd as [|? ? Hnotin Hnd']; subst.
  - rewrite Hp. intros H. apply Hnotin.
    apply in_map_iff in H as (y & E & Hy). apply filter_In in Hy as [Hy _].
    rewrite <- E. apply in_map; exact Hy.
  - destruct (p a); simpl; [|apply IH; assumption].
    intros [E|H]; [|exact (IH Hnd' Hin Hp H)].
    apply Hnotin. rewrite E. apply in_map; exact Hin.
Qed.

(** *** The output rows, one by one *)

Lemma output_row_valid (df : DataFrame) (jc : nat) (ix : list nat)
      (jlat jlon oc : nat) (gs : list geometry) (o : row) :
  get_indexer_for (values ast_cols)
    (map (rename_label ast_cols) (labels df)) = Ok ix ->
  (jlat < List.length ix)%nat -> (jlon < List.length ix)%nat ->
  nth_error ix oc = Some jc ->
  mapM (fun r => point_from_xy (cell_at r jlon) (cell_at r jlat))
       (filter (in_box jlat jlon) (rows (selected df jc ix))) = Ok gs ->
  In o (rows (astype' (with_geometry
                         (mk_frame (columns (selected df jc ix))
                            (filter (in_box jlat jlon)
                                    (rows (selected df jc ix)))) gs))) ->
  valid_row py_str' oc jlat jlon (List.length ix) o.
Proof.
  intros Hix Hlat Hlon Hoc Hgs Ho.
  pose proof (mapM_Ok_Forall2 _ _ _ Hgs) as HF.
  assert (Hoclt : (oc < List.length ix)%nat) by (eapply nth_error_lt; eauto).
  assert (Hocnth : nth oc ix 0%nat = jc) by (apply nth_error_nth; exact Hoc).
  set (kept := filter (in_box jlat jlon) (rows (selected df jc ix))) in *.
  set (W := with_geometry (mk_frame (columns (selected df jc ix)) kept) gs)
    in *.
  unfold astype_str_objects in Ho; cbn [rows] in Ho.
  apply in_map_iff in Ho as (r' & <- & Hr').
  unfold W, with_geometry in Hr'; cbn [rows] in Hr'.
  rewrite set_geometry_cells_combine in Hr'.
  apply in_map_iff in Hr' as ([r gm] & <- & Hrg). cbn [fst snd idx cells].
  pose proof (Forall2_combine_In _ _ _ _ _ HF Hrg) as Hpt. cbn beta in Hpt.
  apply point_from_xy_Ok in Hpt as (a & b & Ha & Hb & ->).
  apply in_combine_l in Hrg. unfold kept in Hrg.
  rewrite kept_rows in Hrg by assumption.
  apply in_map_iff in Hrg as (r0 & <- & Hr0).
  apply filter_In in Hr0 as [_ Hkeep]. unfold keep in Hkeep.
  apply andb_prop in Hkeep as [Hkeep Hlonr].
  apply andb_prop in Hkeep as [Hcat Hlatr].
  rewrite cell_at_take_row in Ha, Hb by assumption.
  (* the cells of the output row *)
  assert (Hcols : List.length (columns (selected df jc ix)) = List.length ix).
  { unfold selected, take; cbn [columns]. apply length_map. }
  assert (Hlen : List.length (columns W)
                 = List.length (cells (take_row ix r0) ++ [Geo (Point a b)])).
  { unfold W, with_geometry; cbn [columns cells take_row].
    rewrite !length_app, Hcols, length_map; reflexivity. }
  assert (Hcells : List.length (cells (take_row ix r0)) = List.length ix).
  { cbn [take_row cells]. apply length_map. }
  assert (Hcell : forall j, (j < List.length ix)%nat ->
            cell_at (mk_row (idx (take_row ix r0))
                       (astype_cells repr_float repr_int str_stamp wkt
                          (object_labels W) (columns W)
                          (cells (take_row ix r0) ++ [Geo (Point a b)]))) j
            = (if mem (label (nth j (columns W) no_column))
                      (object_labels W)
               then Str (py_str' (cell_at r0 (nth j ix 0%nat)))
               else cell_at r0 (nth j ix 0%nat))).
  { intros j Hj. unfold cell_at at 1; cbn [cells].
    rewrite (nth_astype_cells _ _ _ _ _ no_column Hlen)
      by (rewrite length_app, Hcells; simpl; lia).
    rewrite app_nth1 by (rewrite Hcells; exact Hj).
    fold (cell_at (take_row ix r0) j).
    rewrite cell_at_take_row by exact Hj. reflexivity. }
  (* category *)
  assert (Hs : exists s, cell_at r0 jc = Str s /\ In s cats).
  { apply isin_Str; exact Hcat. }
  destruct Hs as (s & Hs & Hin).
  apply in_range_bounds in Hlatr as (lat & Elat & Hlat1 & Hlat2).
  apply in_range_bounds in Hlonr as (lon & Elon & Hlon1 & Hlon2).
  assert (a = lon) by congruence. assert (b = lat) by congruence. subst a b.
  exists s, lat, lon. repeat split; try assumption.
  - rewrite (Hcell oc Hoclt), Hocnth, Hs.
    destruct (mem _ _); reflexivity.
  - rewrite (Hcell jlat Hlat). destruct (mem _ _).
    + right. exists (cell_at r0 (nth jlat ix 0%nat)); split; auto.
    + left; exact Elat.
  - rewrite (Hcell jlon Hlon). destruct (mem _ _).
    + right. exists (cell_at r0 (nth jlon ix 0%nat)); split; auto.
    + left; exact Elon.
  - unfold cell_at; cbn [cells].
    rewrite (nth_astype_cells _ _ _ _ _ no_column Hlen)
      by (rewrite length_app, Hcells; simpl; lia).
    rewrite app_nth2 by (rewrite Hcells; lia).
    rewrite Hcells, Nat.sub_diag. cbn [nth].
    assert (Hg : nth (List.length ix) (columns W) no_column
                 = mk_column "geometry" GeometryDtype).
    { unfold W, with_geometry; cbn [columns].
      rewrite app_nth2 by (rewrite Hcols; lia).
      rewrite Hcols, Nat.sub_diag; reflexivity. }
    rewrite Hg; cbn [label].
    destruct (mem "geometry" (object_labels W)) eqn:Em; [|reflexivity].
    exfalso. unfold W in Em.
    apply object_labels_with_geometry in Em.
    change (labels (mk_frame (columns (selected df jc ix)) kept))
      with (labels (selected df jc ix)) in Em.
    apply (labels_selected_in _ _ _ _ Hix) in Em.
    simpl in Em. intuition discriminate.
Qed.

(** *** The rename and the column selection on clean labels *)

Lemma lookup_Some_In (m : list (string * string)) (k v : string) :
  lookup k m = Some v -> In (k, v) m.
Proof.
  induction m as [|[k' v'] t IH]; simpl; [discriminate|].
  destruct (String.eqb_spec k' k) as [->|Hne].
  - intros E; inversion E; left; reflexivity.
  - intros E; right; exact (IH E).
Qed.

Lemma In_lookup (m : list (string * string)) (k v : string) :
  NoDup (map fst m) -> In (k, v) m -> lookup k m = Some v.
Proof.
  induction m as [|[k' v'] t IH]; simpl; [contradiction|].
  intros Hnd Hin. inversion Hnd as [|? ? Hnotin Hnd']; subst.
  destruct Hin as [E|Hin].
  - inversion E; subst. rewrite String.eqb_refl; reflexivity.
  - destruct (String.eqb_spec k' k) as [->|Hne]; [|exact (IH Hnd' Hin)].
    exfalso; apply Hnotin. apply (in_map fst) in Hin; exact Hin.
Qed.

Lemma In_values_inj (m : list (string * string)) (k k' v : string) :
  NoDup (map snd m) -> In (k, v) m -> In (k', v) m -> k = k'.
Proof.
  induction m as [|[k0 v0] t IH]; simpl; [contradiction|].
  intros Hnd H1 H2. inversion Hnd as [|? ? Hnotin Hnd']; subst.
  destruct H1 as [E1|H1], H2 as [E2|H2].
  - congruence.
  - inversion E1; subst. exfalso; apply Hnotin.
    apply (in_map snd) in H2; exact H2.
  - inversion E2; subst. exfalso; apply Hnotin.
    apply (in_map snd) in H1; exact H1.
  - exact (IH Hnd' H1 H2).
Qed.

Lemma NoDup_keys : NoDup (keys ast_cols).
Proof. repeat constructor; simpl; intuition discriminate. Qed.

Lemma NoDup_values : NoDup (values ast_cols).
Proof. repeat constructor; simpl; intuition discriminate. Qed.

Lemma positions_from_map (f : string -> string) (k v : string)
      (ls : list string) (i : nat) :
  (forall l, In l ls -> (f l = v <-> l = k)) ->
  positions_from i v (map f ls) = positions_from i k ls.
Proof.
  revert i; induction ls as [|x t IH]; intros i H; simpl; [reflexivity|].
  rewrite IH by (intros l Hl; apply H; right; exact Hl).
  destruct (String.eqb_spec (f x) v) as [E|E],
           (String.eqb_spec x k) as [E'|E']; try reflexivity.
  - exfalso; apply E', H; [left; reflexivity | exact E].
  - exfalso; apply E, H; [left; reflexivity | exact E'].
Qed.

Lemma clean_labels_pair (ls : list string) (k v : string) :
  clean_labels ls = true -> In (k, v) ast_cols ->
  count_label k ls = 1%nat /\ count_label v ls = 0%nat.
Proof.
  unfold clean_labels. rewrite forallb_forall. intros H Hin.
  specialize (H _ Hin). cbn [fst snd] in H.
  apply andb_prop in H as [H1 H2].
  apply Nat.eqb_eq in H1, H2. split; assumption.
Qed.

Lemma count_label_0 (l : string) (ls : list string) :
  count_label l ls = 0%nat -> ~ In l ls.
Proof.
  unfold count_label. intros H Hin. apply In_nth_error in Hin as (j & Hj).
  apply positions_spec in Hj.
  destruct (positions l ls); [contradiction | discriminate].
Qed.

Lemma positions_renamed (ls : list string) (k v : string) :
  clean_labels ls = true -> In (k, v) ast_cols ->
  positions v (map (rename_label ast_cols) ls) = positions k ls.
Proof.
  intros Hc Hin. unfold positions. apply positions_from_map.
  intros l Hl. unfold rename_label. split.
  - destruct (lookup l ast_cols) as [v'|] eqn:E.
    + intros ->. apply lookup_Some_In in E.
      symmetry. exact (In_values_inj _ _ _ _ NoDup_values Hin E).
    + intros ->. exfalso.
      destruct (clean_labels_pair _ _ _ Hc Hin) as [_ H0].
      exact (count_label_0 _ _ H0 Hl).
  - intros ->. rewrite (In_lookup _ _ _ NoDup_keys Hin); reflexivity.
Qed.

Lemma clean_indexer_sub (ls : list string) (m : list (string * string)) :
  clean_labels ls = true -> incl m ast_cols ->
  exists ix,
    get_indexer_for (values m) (map (rename_label ast_cols) ls) = Ok ix /\
    Forall2 (fun kv i => positions (fst kv) ls = [i]) m ix.
Proof.
  intros Hc. induction m as [|[k v] t IH]; intros Hincl.
  - exists []; split; [reflexivity | constructor].
  - destruct IH as (rest & Hrest & HF).
    { intros x Hx; apply Hincl; right; exact Hx. }
    assert (Hin : In (k, v) ast_cols) by (apply Hincl; left; reflexivity).
    destruct (clean_labels_pair _ _ _ Hc Hin) as [H1 _].
    unfold count_label in H1.
    destruct (positions k ls) as [|p [|p' ps]] eqn:E; try discriminate.
    exists (p :: rest). split.
    + cbn [values map snd get_indexer_for].
      rewrite (positions_renamed _ _ _ Hc Hin), E.
      fold (values t). rewrite Hrest. reflexivity.
    + constructor; [exact E | exact HF].
Qed.

Lemma clean_indexer (ls : list string) :
  clean_labels ls = true ->
  exists ix,
    get_indexer_for (values ast_cols) (map (rename_label ast_cols) ls)
      = Ok ix /\
    Forall2 (fun kv i => positions (fst kv) ls = [i]) ast_cols ix.
Proof. intros Hc. apply clean_indexer_sub; [exact Hc | apply incl_refl]. Qed.

Lemma clean_selected_labels (df : DataFrame) (jc : nat) (ix : list nat) :
  clean_labels (labels df) = true ->
  Forall2 (fun kv i => positions (fst kv) (labels df) = [i]) ast_cols ix ->
  labels (selected df jc ix) = values ast_cols.
Proof.
  intros Hc HF. unfold selected, take, labels at 1; cbn [columns].
  rewrite map_map.
  assert (Hgen : forall m, incl m ast_cols ->
             Forall2 (fun kv i => positions (fst kv) (labels df) = [i]) m ix ->
             map (fun i => label (nth i (columns (rename ast_cols
                    (mk_frame (columns df)
                       (filter (fun r => isin cats (cell_at r jc)) (rows df)))))
                    no_column)) ix = values m).
  { clear HF. intros m Hincl HF.
    induction HF as [|[k v] i m' ix' Hi _ IH]; [reflexivity|].
    cbn [map values snd]. f_equal.
    - assert (Hin : In (k, v) ast_cols) by (apply Hincl; left; reflexivity).
      cbn [fst] in Hi.
      assert (Hp : nth_error (labels df) i = Some k).
      { apply positions_spec. rewrite Hi; left; reflexivity. }
      unfold rename; cbn [columns].
      unfold labels in Hp. rewrite nth_error_map in Hp.
      destruct (nth_error (columns df) i) as [c|] eqn:Ec; [|discriminate].
      inversion Hp as [Hk].
      erewrite nth_error_nth; [|apply map_nth_error; exact Ec].
      cbn [label]. unfold rename_label. rewrite Hk.
      rewrite (In_lookup _ _ _ NoDup_keys Hin); reflexivity.
    - apply IH. intros x Hx; apply Hincl; right; exact Hx. }
  apply Hgen; [apply incl_refl | exact HF].
Qed.

(** *** Which rows are kept *)

Lemma process_assets_kept (df : DataFrame) (latcol loncol : string)
      (g : GeoDataFrame) :
  process_assets' df latcol loncol = Ok g ->
  exists jc ix jlat jlon gs,
    get_indexer_for (values ast_cols)
      (map (rename_label ast_cols) (labels df)) = Ok ix /\
    mapM (fun r => point_from_xy (cell_at r jlon) (cell_at r jlat))
         (filter (in_box jlat jlon) (rows (selected df jc ix))) = Ok gs /\
    g = mk_geoframe
          (astype' (with_geometry
                      (mk_frame (columns (selected df jc ix))
                         (filter (in_box jlat jlon)
                                 (rows (selected df jc ix)))) gs))
          "geometry" "EPSG:4326" /\
    (jlat < List.length ix)%nat /\ (jlon < List.length ix)%nat /\
    nth_error (labels df) jc = Some "asset_category" /\
    nth_error (map (rename_label ast_cols) (labels df)) (nth jlat ix 0%nat)
      = Some latcol /\
    nth_error (map (rename_label ast_cols) (labels df)) (nth jlon ix 0%nat)
      = Some loncol /\
    nth_error (labels (selected df jc ix)) jlat = Some latcol /\
    nth_error (labels (selected df jc ix)) jlon = Some loncol /\
    map idx (rows (frame g))
      = map idx (filter (keep jc (nth jlat ix 0%nat) (nth jlon ix 0%nat))
                        (rows df)).
Proof.
  intros H.
  apply process_assets_inv in H
    as (jc & ix & jlat & jlon & gs & Hjc & Hix & Hjlat & Hjlon & Hgs & ->).
  cbn [frame].
  pose proof (get_indexer_for_sound _ _ _ Hix) as Hsound.
  pose proof (sound_lt _ _ _ Hsound) as Hlt. rewrite length_map in Hlt.
  apply get_loc_Ok in Hjc as [_ Hjc].
  apply get_loc_Ok in Hjlat as [_ Hjlat].
  apply get_loc_Ok in Hjlon as [_ Hjlon].
  assert (Hlat : (jlat < List.length ix)%nat).
  { apply nth_error_lt in Hjlat. unfold selected in Hjlat.
    rewrite labels_take in Hjlat; exact Hjlat. }
  assert (Hlon : (jlon < List.length ix)%nat).
  { apply nth_error_lt in Hjlon. unfold selected in Hjlon.
    rewrite labels_take in Hjlon; exact Hjlon. }
  pose proof Hjlat as Hplat. pose proof Hjlon as Hplon.
  rewrite labels_selected in Hplat, Hplon by assumption.
  exists jc, ix, jlat, jlon, gs.
  repeat (split; [first [assumption | reflexivity]|]).
  unfold astype_str_objects; cbn [rows]. rewrite map_map; cbn [idx].
  unfold with_geometry; cbn [rows].
  rewrite map_idx_set_geometry by (apply (mapM_Ok_length _ _ _ Hgs)).
  rewrite kept_rows by assumption. rewrite map_map; reflexivity.
Qed.

(** *** C1 *)

(** C1.  Whenever [process_assets] returns a frame, its rows are, in
    order, the input rows whose category is in the allow-list and whose
    latitude and longitude are present and inside the British Columbia
    box; a row failing one of these tests does not reach the output; and
    every output row carries a category of the allow-list, a latitude in
    [[47, 60]], a longitude in [[-145, -113]] and the point built from
    them. *)
Theorem process_assets_rows_valid (df : DataFrame) (latcol loncol : string)
        (g : GeoDataFrame) :
  process_assets' df latcol loncol = Ok g ->
  exists pc plat plon : nat,
    nth_error (labels df) pc = Some "asset_category" /\
    nth_error (map (rename_label ast_cols) (labels df)) plat = Some latcol /\
    nth_error (map (rename_label ast_cols) (labels df)) plon = Some loncol /\
    map idx (rows (frame g))
      = map idx (filter (keep pc plat plon) (rows df)) /\
    (forall r,
        In r (rows df) -> NoDup (map idx (rows df)) ->
        isin cats (cell_at r pc) = false \/
        isna (cell_at r plat) = true \/ isna (cell_at r plon) = true \/
        in_range lat_min lat_max (cell_at r plat) = false \/
        in_range lon_min lon_max (cell_at r plon) = false ->
        ~ In (idx r) (map idx (rows (frame g)))) /\
    exists oc olat olon og : nat,
      nth_error (labels (frame g)) oc = Some "Category - Classification" /\
      nth_error (labels (frame g)) olat = Some latcol /\
      nth_error (labels (frame g)) olon = Some loncol /\
      nth_error (labels (frame g)) og = Some "geometry" /\
      Forall (valid_row py_str' oc olat olon og) (rows (frame g)).
Proof.
  intros H.
  apply process_assets_kept in H
    as (jc & ix & jlat & jlon & gs & Hix & Hgs & -> & Hlat & Hlon & Hjc
        & Hplat & Hplon & Hjlat & Hjlon & Hidx).
  cbn [frame] in *.
  assert (Hcat : nth_error (map (rename_label ast_cols) (labels df)) jc
                 = Some "Category - Classification").
  { rewrite nth_error_map, Hjc; reflexivity. }
  assert (Hoc : exists oc, nth_error ix oc = Some jc).
  { apply In_nth_error.
    apply (get_indexer_for_complete _ _ _ "Category - Classification" _ Hix);
      [simpl; tauto | exact Hcat]. }
  destruct Hoc as (oc & Hoc).
  pose proof (sound_lt _ _ _ (get_indexer_for_sound _ _ _ Hix)) as Hlt.
  rewrite length_map in Hlt.
  assert (Hlabels : forall j l,
             nth_error (labels (selected df jc ix)) j = Some l ->
             nth_error (labels (astype' (with_geometry
                    (mk_frame (columns (selected df jc ix))
                       (filter (in_box jlat jlon)
                               (rows (selected df jc ix)))) gs))) j
             = Some l).
  { intros j l Hj. rewrite labels_astype.
    unfold with_geometry, labels; cbn [columns]. rewrite map_app.
    rewrite nth_error_app1; [exact Hj|]. eapply nth_error_lt; exact Hj. }
  exists jc, (nth jlat ix 0%nat), (nth jlon ix 0%nat).
  repeat (split; [assumption|]). split.
  { intros r Hr Hnd Hbad. rewrite Hidx.
    apply filtered_out; [assumption..|]. apply keep_false; exact Hbad. }
  exists oc, jlat, jlon, (List.length ix). repeat split.
  - apply Hlabels. rewrite labels_selected; [|assumption|].
    + rewrite (nth_error_nth _ _ _ Hoc); exact Hcat.
    + eapply nth_error_lt; exact Hoc.
  - apply Hlabels; exact Hjlat.
  - apply Hlabels; exact Hjlon.
  - rewrite labels_astype. unfold with_geometry, labels; cbn [columns].
    rewrite map_app, nth_error_app2;
      unfold selected, take; cbn [columns]; rewrite !length_map;
      [rewrite Nat.sub_diag; reflexivity | lia].
  - apply Forall_forall; intros o Ho.
    eapply output_row_valid; eassumption.
Qed.

(** *** C3 *)

(** C3, as amended.  When every key of the rename mapping labels exactly
    one input column and no input column already carries one of the
    mapping's target labels, the selection after the rename succeeds and
    the output has the thirteen target labels in their declared order,
    followed by [geometry]: every other input column is gone. *)
Theorem process_assets_columns (df : DataFrame) (latcol loncol : string) :
  clean_labels (labels df) = true ->
  (exists sel,
      getitem_list (rename ast_cols df) (values ast_cols) = Ok sel /\
      labels sel = values ast_cols) /\
  forall g,
    process_assets' df latcol loncol = Ok g ->
    labels (frame g) = values ast_cols ++ ["geometry"] /\
    shape1 (frame g) = 14%nat.
Proof.
  intros Hc. destruct (clean_indexer _ Hc) as (ix & Hix & HF). split.
  - exists (take ix (rename ast_cols df)). split.
    + unfold getitem_list. rewrite labels_rename, Hix; reflexivity.
    + rewrite <- (clean_selected_labels df 0%nat ix Hc HF).
      reflexivity.
  - intros g Hg.
    apply process_assets_inv in Hg
      as (jc & ix' & jlat & jlon & gs & _ & Hix' & _ & _ & _ & ->).
    assert (ix' = ix) by congruence; subst ix'. cbn [frame].
    assert (Hl : labels (astype' (with_geometry
                    (mk_frame (columns (selected df jc ix))
                       (filter (in_box jlat jlon)
                               (rows (selected df jc ix)))) gs))
                 = values ast_cols ++ ["geometry"]).
    { rewrite labels_astype. unfold with_geometry, labels; cbn [columns].
      rewrite map_app. f_equal.
      exact (clean_selected_labels df jc ix Hc HF). }
    split; [exact Hl|].
    unfold shape1. rewrite <- (length_map label).
    fold (labels (astype' (with_geometry
                    (mk_frame (columns (selected df jc ix))
                       (filter (in_box jlat jlon)
                               (rows (selected df jc ix)))) gs))).
    rewrite Hl; reflexivity.
Qed.

(** *** When [process_assets] returns *)

Lemma mapM_total {A B} (f : A -> outcome B) (l : list A) :
  (forall x, In x l -> exists y, f x = Ok y) ->
  exists ys, mapM f l = Ok ys.
Proof.
  induction l as [|x t IH]; intros H; simpl; [eauto|].
  destruct (H x (or_introl eq_refl)) as (y & ->).
  destruct IH as (ys & ->); [intros z Hz; apply H; right; exact Hz|].
  simpl; eauto.
Qed.

Lemma Forall2_nth_error {A B} (R : A -> B -> Prop) (l : list A)
      (l' : list B) (j : nat) (x : A) :
  Forall2 R l l' -> nth_error l j = Some x ->
  exists y, nth_error l' j = Some y /\ R x y.
Proof.
  intros HF; revert j; induction HF as [|a b l l' Hab _ IH]; intros j.
  - destruct j; discriminate.
  - destruct j as [|j]; simpl.
    + intros E; inversion E; subst; eauto.
    + apply IH.
Qed.

Lemma cmp_cell_total (op : Q -> Q -> bool) (k : Q) (c : cell) :
  comparable c = true -> exists b, cmp_cell op k c = Ok b.
Proof. destruct c; simpl; try discriminate; eauto. Qed.

Lemma point_from_xy_total (x y : cell) :
  comparable x = true -> comparable y = true ->
  isna x = false -> isna y = false ->
  exists g, point_from_xy x y = Ok g.
Proof. destruct x, y; simpl; try discriminate; eauto. Qed.

Lemma process_assets_returns (df : DataFrame) (pc plat plon : nat) :
  clean_labels (labels df) = true ->
  positions "asset_category" (labels df) = [pc] ->
  positions "gis_latitude" (labels df) = [plat] ->
  positions "gis_longitude" (labels df) = [plon] ->
  comparable_dtype (dt (nth plat (columns df) no_column)) = true ->
  comparable_dtype (dt (nth plon (columns df) no_column)) = true ->
  (forall r, In r (rows df) -> isin cats (cell_at r pc) = true ->
             comparable (cell_at r plat) = true /\
             comparable (cell_at r plon) = true) ->
  exists g,
    process_assets' df "GIS Latitude" "GIS Longitude" = Ok g /\
    map idx (rows (frame g)) = map idx (filter (keep pc plat plon) (rows df)).
Proof.
  intros Hc Hpc Hplat Hplon Hdlat Hdlon Hcells.
  destruct (clean_indexer _ Hc) as (ix & Hix & HF).
  pose proof (clean_selected_labels df pc ix Hc HF) as Hlab.
  assert (Hlen : List.length ix = 13%nat).
  { apply Forall2_length in HF. rewrite <- HF; reflexivity. }
  assert (Hilat : nth 11 ix 0%nat = plat).
  { destruct (Forall2_nth_error _ _ _ 11%nat _ HF eq_refl) as (i & Hi & Hp).
    cbn [fst] in Hp. rewrite Hplat in Hp. inversion Hp; subst.
    apply nth_error_nth; exact Hi. }
  assert (Hilon : nth 12 ix 0%nat = plon).
  { destruct (Forall2_nth_error _ _ _ 12%nat _ HF eq_refl) as (i & Hi & Hp).
    cbn [fst] in Hp. rewrite Hplon in Hp. inversion Hp; subst.
    apply nth_error_nth; exact Hi. }
  assert (Hgl : forall d, columns d = columns (selected df pc ix) ->
                  get_loc d "GIS Latitude" = Ok 11%nat /\
                  get_loc d "GIS Longitude" = Ok 12%nat).
  { intros d Hd. rewrite !(get_loc_columns _ d) by exact Hd.
    unfold get_loc. rewrite Hlab. split; reflexivity. }
  assert (Hdt : forall j, (j < 13)%nat ->
             dt (nth j (columns (selected df pc ix)) no_column)
             = dt (nth (nth j ix 0%nat) (columns df) no_column)).
  { intros j Hj. unfold selected, take, rename; cbn [columns].
    rewrite (nth_indep _ _ (nth 0%nat (map (fun c => mk_column
               (rename_label ast_cols (label c)) (dt c)) (columns df))
               no_column))
      by (rewrite length_map, Hlen; exact Hj).
    rewrite (map_nth (fun i => nth i _ _) ix 0%nat j).
    change no_column
      with ((fun c => mk_column (rename_label ast_cols (label c)) (dt c))
              no_column) at 1.
    rewrite map_nth. reflexivity. }
  (* the rows that reach the comparisons *)
  set (sel := selected df pc ix) in *.
  set (dn := mk_frame (columns sel)
               (filter (fun r => negb (isna (cell_at r 11%nat))
                                 && negb (isna (cell_at r 12%nat)))
                       (rows sel))).
  assert (Hdn : dropna ["GIS Latitude"; "GIS Longitude"] sel = Ok dn).
  { unfold dropna. fold (labels sel). rewrite Hlab.
    unfold dn. cbn -[isna cell_at]. f_equal. f_equal.
    apply filter_ext; intros r.
    rewrite orb_false_r, negb_orb; reflexivity. }
  assert (Hrow : forall r, In r (rows dn) ->
             (comparable (cell_at r 11%nat) = true /\
              isna (cell_at r 11%nat) = false) /\
             (comparable (cell_at r 12%nat) = true /\
              isna (cell_at r 12%nat) = false)).
  { intros r Hr. unfold dn in Hr; cbn [rows] in Hr.
    apply filter_In in Hr as [Hr Hna].
    apply andb_prop in Hna as [Hn1 Hn2]. apply negb_true_iff in Hn1, Hn2.
    unfold sel, selected, take, rename in Hr; cbn [rows] in Hr.
    apply in_map_iff in Hr as (r0 & <- & Hr0).
    apply filter_In in Hr0 as [Hr0 Hcat].
    rewrite !cell_at_take_row in * by lia.
    rewrite Hilat, Hilon in *.
    destruct (Hcells r0 Hr0 Hcat); auto. }
  assert (Hcmp : forall op k j, (j = 11 \/ j = 12)%nat ->
             exists m, cmp_series op k dn j = Ok m).
  { intros op k j Hj. unfold cmp_series.
    assert (Hd : comparable_dtype
                   (dt (nth j (columns dn) no_column)) = true).
    { unfold dn; cbn [columns]. destruct Hj as [-> | ->];
        rewrite Hdt by lia; rewrite ?Hilat, ?Hilon; assumption. }
    destruct (mapM_total (fun r => cmp_cell op k (cell_at r j)) (rows dn))
      as (m & Hm).
    { intros r Hr. apply cmp_cell_total.
      destruct (Hrow r Hr) as [[? _] [? _]]. destruct Hj; subst; assumption. }
    exists m. destruct (dt (nth j (columns dn) no_column));
      try discriminate Hd; exact Hm. }
  destruct (Hcmp ge lat_min 11%nat) as (m1 & Hm1); [auto|].
  destruct (Hcmp le lat_max 11%nat) as (m2 & Hm2); [auto|].
  destruct (Hcmp ge lon_min 12%nat) as (m3 & Hm3); [auto|].
  destruct (Hcmp le lon_max 12%nat) as (m4 & Hm4); [auto|].
  set (kept := select_rows (band (band (band m1 m2) m3) m4) (rows dn)).
  assert (Hsub : forall r, In r kept -> In r (rows dn)).
  { intros r; unfold kept; apply select_rows_In. }
  destruct (mapM_total
              (fun r => point_from_xy (cell_at r 12%nat) (cell_at r 11%nat))
              kept) as (gs & Hgs).
  { intros r Hr. destruct (Hrow r (Hsub r Hr)) as [[? ?] [? ?]].
    apply point_from_xy_total; assumption. }
  assert (Hrun : process_assets' df "GIS Latitude" "GIS Longitude"
                 = Ok (mk_geoframe
                         (astype' (with_geometry
                                     (mk_frame (columns dn) kept) gs))
                         "geometry" "EPSG:4326")).
  { unfold process_assets. unfold get_loc at 1. rewrite Hpc. cbn [Py.bind].
    rewrite select_rows_map.
    unfold getitem_list. rewrite labels_rename.
    change (labels (mk_frame (columns df) _)) with (labels df).
    rewrite Hix. cbn [Py.bind]. fold (selected df pc ix). fold sel.
    rewrite Hdn. cbn [Py.bind].
    destruct (Hgl dn eq_refl) as [-> ->]. cbn [Py.bind].
    rewrite Hm1, Hm2, Hm3, Hm4. cbn [Py.bind].
    fold kept.
    destruct (Hgl (mk_frame (columns dn) kept) eq_refl) as [-> ->].
    cbn [Py.bind]. cbn [rows]. rewrite Hgs. reflexivity. }
  eexists. split; [exact Hrun|].
  destruct (process_assets_kept _ _ _ _ Hrun)
    as (pc' & ix' & jlat' & jlon' & gs' & _ & _ & _ & _ & _ & H1 & H2 & H3
        & _ & _ & Hidx).
  rewrite Hidx.
  apply positions_spec in H1. rewrite Hpc in H1.
  destruct H1 as [<-|[]].
  rewrite <- (positions_spec "GIS Latitude") in H2.
  rewrite <- (positions_spec "GIS Longitude") in H3.
  rewrite (positions_renamed _ "gis_latitude") in H2;
    [|exact Hc | simpl; tauto].
  rewrite (positions_renamed _ "gis_longitude") in H3;
    [|exact Hc | simpl; tauto].
  rewrite Hplat in H2. rewrite Hplon in H3.
  destruct H2 as [<-|[]]. destruct H3 as [<-|[]]. reflexivity.
Qed.

(** *** C2 *)

Lemma cell_of_at (df : DataFrame) (l : string) (p : nat) (r : row) :
  positions l (labels df) = [p] -> cell_of df l r = cell_at r p.
Proof. unfold cell_of; intros ->; reflexivity. Qed.

Lemma count_label_1 (l : string) (ls : list string) :
  count_label l ls = 1%nat -> exists p, positions l ls = [p].
Proof.
  unfold count_label. destruct (positions l ls) as [|p [|? ?]];
    try discriminate. eauto.
Qed.

(** C2.  A frame of ten rows, two of category Parking and eight of
    category Signs, one Signs row without longitude, one Signs row with
    longitude -200, the Signs rows being otherwise located inside the box:
    [process_assets] returns a frame of exactly six rows. *)
Theorem scenario_row_count (df : DataFrame) :
  clean_labels (labels df) = true ->
  col_dtype df "gis_latitude" = Float64 ->
  col_dtype df "gis_longitude" = Float64 ->
  List.length (rows df) = 10%nat ->
  List.length (filter (is_category df "Parking") (rows df)) = 2%nat ->
  List.length (filter (is_category df "Signs") (rows df)) = 8%nat ->
  List.length (filter (fun r => is_category df "Signs" r
                                && lon_missing df r) (rows df)) = 1%nat ->
  List.length (filter (fun r => is_category df "Signs" r
                                && lon_is df (-200) r) (rows df)) = 1%nat ->
  (forall r, In r (rows df) -> is_category df "Signs" r = true ->
     float_within lat_min lat_max (cell_of df "gis_latitude" r) = true /\
     (lon_missing df r = true \/ lon_is df (-200) r = true \/
      float_within lon_min lon_max (cell_of df "gis_longitude" r) = true)) ->
  exists g,
    process_assets' df "GIS Latitude" "GIS Longitude" = Ok g /\
    shape0 (frame g) = 6%nat.
Proof.
  intros Hc Hd1 Hd2 H10 Hp Hs Hn H2 Hrows.
  assert (Hin_cat : In ("asset_category", "Category - Classification")
                       ast_cols) by (simpl; tauto).
  destruct (clean_labels_pair _ _ _ Hc Hin_cat) as [Hc1 _].
  destruct (count_label_1 _ _ Hc1) as (pc & Hpc).
  assert (Hin_lat : In ("gis_latitude", "GIS Latitude") ast_cols)
    by (simpl; tauto).
  assert (Hin_lon : In ("gis_longitude", "GIS Longitude") ast_cols)
    by (simpl; tauto).
  destruct (clean_labels_pair _ _ _ Hc Hin_lat) as [Hc2 _].
  destruct (clean_labels_pair _ _ _ Hc Hin_lon) as [Hc3 _].
  destruct (count_label_1 _ _ Hc2) as (plat & Hplat).
  destruct (count_label_1 _ _ Hc3) as (plon & Hplon).
  unfold col_dtype in Hd1, Hd2. rewrite Hplat in Hd1. rewrite Hplon in Hd2.
  assert (Hcat : forall r, is_category df "Signs" r = true ->
                           isin cats (cell_at r pc) = true).
  { intros r. unfold is_category. rewrite (cell_of_at _ _ _ r Hpc).
    destruct (cell_at r pc); try discriminate.
    intros E; apply String.eqb_eq in E; subst; reflexivity. }
  assert (Hpark : forall r, is_category df "Parking" r = true ->
                            isin cats (cell_at r pc) = false).
  { intros r. unfold is_category. rewrite (cell_of_at _ _ _ r Hpc).
    destruct (cell_at r pc); try discriminate.
    intros E; apply String.eqb_eq in E; subst; reflexivity. }
  assert (Hcover : forall r, In r (rows df) ->
             is_category df "Parking" r = true \/
             is_category df "Signs" r = true).
  { apply filter_cover; [|lia].
    intros r _ E1 E2. apply Hpark in E1. apply Hcat in E2. congruence. }
  assert (Hkeep : forall r, In r (rows df) ->
             keep pc plat plon r
             = is_category df "Signs" r
               && float_within lon_min lon_max (cell_of df "gis_longitude" r)).
  { intros r Hr. unfold keep.
    destruct (is_category df "Signs" r) eqn:Es.
    - rewrite (Hcat r Es). destruct (Hrows r Hr Es) as [Hlat Hlon].
      rewrite (cell_of_at _ _ _ r Hplat) in Hlat.
      unfold lon_missing, lon_is in Hlon.
      rewrite !(cell_of_at _ _ _ r Hplon) in Hlon.
      rewrite (cell_of_at _ _ _ r Hplon).
      destruct (cell_at r plat); try discriminate. cbn [float_within] in Hlat.
      rewrite Hlat. cbn [andb].
      destruct (cell_at r plon); try reflexivity;
        exfalso; destruct Hlon as [?|[?|?]]; discriminate.
    - destruct (Hcover r Hr) as [E|E]; [|congruence].
      rewrite (Hpark r E); reflexivity. }
  destruct (process_assets_returns df pc plat plon Hc Hpc Hplat Hplon)
    as (g & Hg & Hidx).
  { rewrite Hd1; reflexivity. }
  { rewrite Hd2; reflexivity. }
  { intros r Hr Hin.
    destruct (Hcover r Hr) as [E|E];
      [apply Hpark in E; congruence|].
    destruct (Hrows r Hr E) as [Hlat Hlon].
    rewrite (cell_of_at _ _ _ r Hplat) in Hlat.
    unfold lon_missing, lon_is in Hlon.
    rewrite !(cell_of_at _ _ _ r Hplon) in Hlon.
    split.
    - destruct (cell_at r plat); try discriminate; reflexivity.
    - destruct (cell_at r plon); try reflexivity;
        destruct Hlon as [?|[?|?]]; discriminate. }
  exists g; split; [exact Hg|].
  unfold shape0. rewrite <- (length_map idx), Hidx, length_map.
  rewrite (filter_ext_length _ _ _ Hkeep).
  pose proof (filter_split3 (is_category df "Signs") (lon_missing df)
                (lon_is df (-200))
                (fun r => float_within lon_min lon_max
                            (cell_of df "gis_longitude" r)) (rows df)) as H3.
  rewrite Hs, Hn, H2 in H3.
  assert (E : forall n, 8%nat = (1 + 1 + n)%nat -> n = 6%nat) by (intros; lia).
  apply E, H3. clear E H3.
  intros r Hr Es. destruct (Hrows r Hr Es) as [_ Hlon].
  unfold lon_missing, lon_is in *.
  destruct (cell_of df "gis_longitude" r) as [k|n|x|s|b|t|gm];
    cbn [isna float_within] in *;
    try (exfalso; destruct Hlon as [?|[?|?]]; discriminate).
  - left; auto.
  - destruct (Qeq_bool x (-200)) eqn:E200.
    + right; left. repeat split. apply minus200_outside; exact E200.
    + right; right. repeat split.
      destruct Hlon as [?|[?|?]]; try discriminate; assumption.
Qed.

End TransformFacts.

(** ** The asset transformer on concrete frames *)

(** C3 at the scenario frame. *)
Lemma process_assets_columns_witness :
  exists g,
    process_assets_shown scenario_frame "GIS Latitude" "GIS Longitude" = Ok g /\
    labels (frame g) = values ast_cols ++ ["geometry"] /\
    shape1 (frame g) = 14%nat.
Proof.
  eexists. split; [vm_compute; reflexivity|].
  apply (process_assets_columns show_Q show_Z show_Z show_geometry
           scenario_frame "GIS Latitude" "GIS Longitude");
    vm_compute; reflexivity.
Defined.

(** C3 as stated fails: a frame with every mapped source column and an
    ambient column already labelled [Park] comes out with two [Park]
    columns, fourteen attribute columns in all. *)
Lemma process_assets_columns_counterexample :
  well_typed ambient_park_frame = true /\
  forallb (fun k => mem k (labels ambient_park_frame)) (keys ast_cols) = true /\
  exists g,
    process_assets_shown ambient_park_frame "GIS Latitude" "GIS Longitude"
      = Ok g /\
    labels (frame g) <> values ast_cols ++ ["geometry"] /\
    labels (frame g)
      = [ "Asset ID"; "GIS ID"; "Park"; "Park"; "Park Subarea";
          "Category - Classification"; "Segment - Sub Classification";
          "Description"; "Campsite Number"; "Name";
          "acs Is Asset Accessible";
          "acs Is the Route to the Asset Accessible";
          "GIS Latitude"; "GIS Longitude"; "geometry" ].
Proof.
  split; [reflexivity|]. split; [reflexivity|].
  eexists. split; [vm_compute; reflexivity|].
  split; [|reflexivity]. vm_compute. discriminate.
Qed.

(** C1 at the scenario frame. *)
Lemma process_assets_rows_valid_witness :
  exists g,
    process_assets_shown scenario_frame "GIS Latitude" "GIS Longitude" = Ok g /\
    exists pc plat plon : nat,
      nth_error (labels scenario_frame) pc = Some "asset_category" /\
      nth_error (map (rename_label ast_cols) (labels scenario_frame)) plat
        = Some "GIS Latitude" /\
      nth_error (map (rename_label ast_cols) (labels scenario_frame)) plon
        = Some "GIS Longitude" /\
      map idx (rows (frame g))
        = map idx (filter (keep pc plat plon) (rows scenario_frame)) /\
      (forall r,
          In r (rows scenario_frame) ->
          NoDup (map idx (rows scenario_frame)) ->
          isin cats (cell_at r pc) = false \/
          isna (cell_at r plat) = true \/ isna (cell_at r plon) = true \/
          in_range lat_min lat_max (cell_at r plat) = false \/
          in_range lon_min lon_max (cell_at r plon) = false ->
          ~ In (idx r) (map idx (rows (frame g)))) /\
      exists oc olat olon og : nat,
        nth_error (labels (frame g)) oc = Some "Category - Classification" /\
        nth_error (labels (frame g)) olat = Some "GIS Latitude" /\
        nth_error (labels (frame g)) olon = Some "GIS Longitude" /\
        nth_error (labels (frame g)) og = Some "geometry" /\
        Forall (valid_row (py_str show_Q show_Z show_Z show_geometry)
                          oc olat olon og) (rows (frame g)).
Proof.
  eexists. split; [vm_compute; reflexivity|].
  apply (process_assets_rows_valid show_Q show_Z show_Z show_geometry
           scenario_frame "GIS Latitude" "GIS Longitude").
  vm_compute; reflexivity.
Defined.

(** C2 at the scenario frame. *)
Lemma scenario_row_count_witness :
  exists g,
    process_assets_shown scenario_frame "GIS Latitude" "GIS Longitude" = Ok g /\
    shape0 (frame g) = 6%nat.
Proof.
  apply (scenario_row_count show_Q show_Z show_Z show_geometry scenario_frame);
    try (vm_compute; reflexivity).
  intros r Hr. simpl in Hr.
  repeat (destruct Hr as [<-|Hr];
          [vm_compute; first [ discriminate | intuition congruence ]|]).
  contradiction.
Defined.

(* ===================================================================== *)
(** * The database connector *)
(* ===================================================================== *)

Section ConnectorFacts.

Import Postgres.

Variable driver : Driver.

(** C8, as amended.  When the driver's [connect] fails with an
    [OperationalError] (or a subclass of it), [connect] logs the error,
    sets the handle to null and returns null; a failure of any other class
    is not caught and leaves the manager as it was. *)
Theorem connect_failure (s : state) (e : exn) :
  pg_connect driver (dbname (self s)) (user (self s)) (password (self s))
             (host (self s)) (port (self s)) = Raised e ->
  (isinstance e OperationalError = true ->
   exists s',
     connect driver s = (s', Ok None) /\
     connection (self s') = None /\
     records s' = records s
                  ++ [mk_record ERROR
                        (String.append "..error connecting to database: "
                                       (exn_str e))]) /\
  (isinstance e OperationalError = false ->
   connect driver s = (s, Raise e)).
Proof.
  intros H. unfold connect, try_except, pbind, get, lift. rewrite H.
  cbn [call]. split; intros ->.
  - eexists. split; [reflexivity|]. split; reflexivity.
  - reflexivity.
Qed.

(** On success the handle is the connection the driver returned. *)
Lemma connect_success (s : state) (c : conn_handle) :
  pg_connect driver (dbname (self s)) (user (self s)) (password (self s))
             (host (self s)) (port (self s)) = Returned c ->
  exists s', connect driver s = (s', Ok (Some c)) /\
             connection (self s') = Some c.
Proof.
  intros H. unfold connect, try_except, pbind, get, lift. rewrite H.
  eexists; split; reflexivity.
Qed.

(** *** Disconnecting *)

Lemma disconnect_not_connected (s : state) :
  connection (self s) = None ->
  exists s', disconnect driver s = (s', Ok tt) /\
             connection (self s') = None.
Proof.
  intros H. unfold disconnect, pbind, get. rewrite H.
  eexists; split; [reflexivity | exact H].
Qed.

Lemma disconnect_connected (s : state) (c : conn_handle) :
  connection (self s) = Some c ->
  exists s' r,
    disconnect driver s = (s', r) /\
    connection (self s') = None /\ cursor (self s') = None /\
    match conn_close driver c with
    | Returned _ => r = Ok tt
    | Raised e => if isinstance e DatabaseError then r = Ok tt
                  else r = Raise e
    end.
Proof.
  intros H. unfold disconnect, pbind at 1, get. rewrite H.
  unfold try_finally, try_except, pbind, lift.
  destruct (conn_close driver c) as [[]|e]; cbn [call].
  - do 2 eexists; repeat split.
  - destruct (isinstance e DatabaseError);
      do 2 eexists; repeat split.
Qed.



End ConnectorFacts.

(* ===================================================================== *)
(** * The asset reader *)
(* ===================================================================== *)

Section ReaderFacts.

Import Reader.

Variable read_table_names : option Postgres.conn_handle -> answer (list string).
Variable read_sql : sql_select -> option Postgres.conn_handle
                    -> answer DataFrame.
Variable concat : list DataFrame -> answer DataFrame.

Abbreviation read_tables' := (read_tables read_sql concat).
Abbreviation read_assets' := (read_assets read_table_names read_sql concat).

Lemma data_tables_none (names : list string) :
  (forall x, In x names -> x = "qgis_projects") -> data_tables names = [].
Proof.
  induction names as [|x t IH]; intros Hall; [reflexivity|].
  unfold data_tables; simpl. rewrite (Hall x (or_introl eq_refl)). simpl.
  apply IH. intros y Hy; apply Hall; right; exact Hy.
Qed.

(** C10.  When the schema lists no data table (no table at all, or only
    [qgis_projects]), the loop body never runs, the local [df] is never
    bound and [read_assets] raises [UnboundLocalError]. *)
Theorem read_assets_empty_schema (conn : option Postgres.conn_handle)
        (names : list string) (out : list string) :
  read_table_names conn = Returned names ->
  (forall x, In x names -> x = "qgis_projects") ->
  exists msg,
    read_assets' conn out = (out, Raise (mk_exn UnboundLocalError msg)).
Proof.
  intros Hnames Hall. unfold read_assets, pbind, lift. rewrite Hnames.
  cbn [call].
  fold (data_tables names). rewrite (data_tables_none _ Hall).
  cbn. eexists; reflexivity.
Qed.

(** *** The loop over the tables *)

Lemma dict_set_fresh {V} (k : string) (v : V) (f : string -> V)
      (done : list string) :
  ~ In k done ->
  dict_set k v (map (fun t => (t, f t)) done)
  = map (fun t => (t, f t)) done ++ [(k, v)].
Proof.
  induction done as [|x t IH]; intros Hk; simpl; [reflexivity|].
  destruct (String.eqb_spec x k) as [->|Hne].
  - exfalso; apply Hk; left; reflexivity.
  - rewrite IH; [reflexivity|]. intros H; apply Hk; right; exact H.
Qed.

Lemma read_tables_run (conn : option Postgres.conn_handle)
      (fetched stripped : string -> DataFrame) (tabs : list string) :
  forall (done : list string) (df : option DataFrame) (out : list string)
         (result : DataFrame),
    NoDup (done ++ tabs) ->
    tabs <> [] ->
    (forall t, In t tabs ->
               read_sql (asset_query t) conn = Returned (fetched t) /\
               drop_columns ["wkb_geometry"] (fetched t) = Ok (stripped t)) ->
    (forall k, (0 < k < List.length tabs)%nat ->
               exists c, concat (map stripped (done ++ firstn k tabs))
                         = Returned c) ->
    concat (map stripped (done ++ tabs)) = Returned result ->
    read_tables' conn tabs (map (fun t => (t, stripped t)) done) df out
    = (out ++ map (String.append "..reading table: ") tabs, Ok (Some result)).
Proof.
  induction tabs as [|t rest IH]; intros done df out result Hnd Hne Hread
                                         Hpre Hall; [congruence|].
  destruct (Hread t (or_introl eq_refl)) as [Hq Hd].
  assert (Hfresh : ~ In t done).
  { intros Hin. apply NoDup_remove_2 in Hnd. apply Hnd.
    apply in_or_app; left; exact Hin. }
  cbn [read_tables]. unfold pbind at 1, print at 1, modify.
  unfold pbind at 1, lift at 1. rewrite Hq; cbn [call].
  unfold pbind at 1, lift at 1. rewrite Hd.
  rewrite (dict_set_fresh t (stripped t) stripped done Hfresh).
  unfold dict_values. rewrite map_app, map_map; cbn [snd map].
  change (map (fun x : string => stripped x) done) with (map stripped done).
  change [stripped t] with (map stripped [t]). rewrite <- map_app.
  destruct rest as [|t' rest'].
  - (* last table *)
    rewrite Hall. unfold pbind, lift; cbn [call read_tables ret].
    reflexivity.
  - destruct (Hpre 1%nat) as (c & Hc); [simpl; lia|].
    cbn [firstn] in Hc. unfold pbind at 1, lift at 1.
    rewrite Hc; cbn [call].
    change (map (fun t0 => (t0, stripped t0)) done ++ [(t, stripped t)])
      with (map (fun t0 => (t0, stripped t0)) done
              ++ map (fun t0 => (t0, stripped t0)) [t]).
    rewrite <- map_app.
    rewrite (IH (done ++ [t]) (Some c) _ result).
    + rewrite <- app_assoc; reflexivity.
    + rewrite <- app_assoc; exact Hnd.
    + discriminate.
    + intros x Hx; apply Hread; right; exact Hx.
    + intros k Hk. destruct (Hpre (S k)) as (c' & Hc'); [simpl in *; lia|].
      exists c'. rewrite <- app_assoc. exact Hc'.
    + rewrite <- app_assoc; exact Hall.
Qed.

(** *** Dropping the raw geometry column *)

Lemma drop_columns_labels (names : list string) (df out : DataFrame) :
  drop_columns names df = Ok out ->
  labels out
  = filter (fun l => negb (existsb (String.eqb l) names)) (labels df).
Proof.
  unfold drop_columns.
  destruct (filter _ names) as [|m ?]; [|discriminate].
  intros H; inversion H; subst; clear H.
  unfold take, labels; cbn [columns]. rewrite map_map.
  rewrite <- (length_map label). fold (labels df).
  assert (G : forall (ls : list string) (cols : list column) (n : nat),
             map label cols = ls ->
             forall pre, List.length pre = n ->
             map (fun i => label (nth i (pre ++ cols) no_column))
                 (filter (fun i => negb (existsb
                            (String.eqb (nth i (map label pre ++ ls) EmptyString))
                            names))
                         (seq n (List.length ls)))
             = filter (fun l => negb (existsb (String.eqb l) names)) ls).
  { intros ls; induction ls as [|l t IH]; intros cols n Hc pre Hp;
      [reflexivity|].
    destruct cols as [|c cols]; [discriminate|]. inversion Hc; subst.
    cbn [List.length seq filter map].
    assert (E1 : nth (List.length pre)
                     (map label pre ++ label c :: map label cols) EmptyString
                 = label c).
    { rewrite app_nth2 by (rewrite length_map; lia).
      rewrite length_map, Nat.sub_diag; reflexivity. }
    assert (E2 : nth (List.length pre) (pre ++ c :: cols)
                     no_column = c).
    { rewrite app_nth2 by lia. rewrite Nat.sub_diag; reflexivity. }
    specialize (IH cols (S (List.length pre)) eq_refl (pre ++ [c])).
    rewrite length_app, Nat.add_1_r in IH. specialize (IH eq_refl).
    rewrite map_app, <- !app_assoc in IH. cbn [map app] in IH.
    rewrite E1. destruct (negb (existsb (String.eqb (label c)) names));
      cbn [map]; rewrite ?E2, IH; reflexivity. }
  exact (G (labels df) (columns df) 0%nat eq_refl [] eq_refl).
Qed.

Lemma drop_columns_gone (df out : DataFrame) :
  drop_columns ["wkb_geometry"] df = Ok out ->
  ~ In "wkb_geometry" (labels out).
Proof.
  intros H Hin. rewrite (drop_columns_labels _ _ _ H) in Hin.
  apply filter_In in Hin as [_ Hin]. simpl in Hin. discriminate.
Qed.

Lemma filter_seq_combine {B} (p : string -> bool) (g : nat -> B)
      (ls : list string) :
  forall k,
    map g (filter (fun i => p (nth (i - k) ls EmptyString))
                  (seq k (List.length ls)))
    = map snd (filter (fun lc => p (fst lc))
                      (combine ls (map g (seq k (List.length ls))))).
Proof.
  induction ls as [|x t IH]; intros k; [reflexivity|].
  cbn [List.length seq filter map combine fst]. rewrite Nat.sub_diag.
  cbn [nth].
  rewrite (filter_ext_in
             (fun i => p (nth (i - k) (x :: t) EmptyString))
             (fun i => p (nth (i - S k) t EmptyString))).
  - destruct (p x); cbn [map snd]; rewrite IH; reflexivity.
  - intros i Hi. apply in_seq in Hi.
    replace (i - k)%nat with (S (i - S k)) by lia. reflexivity.
Qed.

Lemma map_nth_seq {B} (l : list B) (d : B) :
  forall k, map (fun i => nth (i - k) l d) (seq k (List.length l)) = l.
Proof.
  induction l as [|x t IH]; intros k; [reflexivity|].
  cbn [List.length seq map]. rewrite Nat.sub_diag. cbn [nth]. f_equal.
  rewrite <- (IH (S k)) at 2. apply map_ext_in. intros i Hi.
  apply in_seq in Hi. replace (i - k)%nat with (S (i - S k)) by lia.
  reflexivity.
Qed.

Lemma filter_by_label (p : string -> bool) (cols : list column) :
  map snd (filter (fun lc => p (fst lc)) (combine (map label cols) cols))
  = filter (fun c => p (label c)) cols.
Proof.
  induction cols as [|c t IH]; [reflexivity|].
  cbn [map combine filter fst]. destruct (p (label c)); cbn [map snd];
    rewrite IH; reflexivity.
Qed.

(** [df.drop(columns=[l])] yields the frame without the columns labelled
    [l], provided some column carries the label. *)
Lemma drop_columns_without (l : string) (df : DataFrame) :
  In l (labels df) ->
  drop_columns [l] df = Ok (without_column l df).
Proof.
  intros Hin. unfold drop_columns. cbn [filter].
  assert (E : existsb (String.eqb l) (labels df) = true).
  { apply existsb_exists. exists l. split; [exact Hin|].
    apply String.eqb_refl. }
  rewrite E. cbn [negb].
  assert (Hlen : List.length (columns df) = List.length (labels df))
    by (unfold labels; rewrite length_map; reflexivity).
  assert (Hix : forall B (g : nat -> B),
             map g (filter
                      (fun i => negb (existsb
                                        (String.eqb (nth i (labels df)
                                                         EmptyString)) [l]))
                      (seq 0 (List.length (columns df))))
             = map snd
                 (filter (fun lc => negb (String.eqb (fst lc) l))
                         (combine (labels df)
                                  (map g (seq 0 (List.length (columns df))))))).
  { intros B g. rewrite Hlen.
    rewrite <- (filter_seq_combine (fun x => negb (String.eqb x l)) g
                  (labels df) 0).
    f_equal. apply filter_ext. intros i. cbn [existsb].
    rewrite orb_false_r, Nat.sub_0_r. reflexivity. }
  unfold take, without_column. f_equal. f_equal.
  - rewrite Hix.
    rewrite (map_ext (fun i => nth i (columns df) no_column)
                     (fun i => nth (i - 0) (columns df) no_column))
      by (intros i; rewrite Nat.sub_0_r; reflexivity).
    rewrite map_nth_seq. unfold labels.
    apply (filter_by_label (fun x => negb (String.eqb x l))).
  - apply map_ext. intros r. unfold take_row, row_values. f_equal.
    apply Hix.
Qed.

Lemma without_column_labels (l : string) (df : DataFrame) :
  labels (without_column l df)
  = filter (fun x => negb (String.eqb x l)) (labels df).
Proof.
  unfold without_column, labels. cbn [columns].
  induction (columns df) as [|c t IH]; [reflexivity|].
  cbn [filter map]. destruct (negb (String.eqb (label c) l));
    cbn [map]; rewrite IH; reflexivity.
Qed.

(** *** C7 *)

(** C7.  [read_assets] reads every listed table but [qgis_projects]; the
    query for a table selects all its columns plus [gis_latitude] and
    [gis_longitude], the Y and X of the geometry transformed to SRID 4326,
    the geometry being the centroid for [trails] and [roads] and the stored
    geometry otherwise; what is kept of each answer is the frame without
    its raw geometry column, the other columns and every row with its
    values as they came; and what is returned is the concatenation of
    these per-table frames, in the order of the listing. *)
Theorem read_assets_concatenates (conn : option Postgres.conn_handle)
        (names out : list string) (fetched : string -> DataFrame)
        (result : DataFrame) :
  let kept := fun t => without_column "wkb_geometry" (fetched t) in
  read_table_names conn = Returned names ->
  data_tables names <> [] ->
  NoDup (data_tables names) ->
  (forall t, In t (data_tables names) ->
             read_sql (asset_query t) conn = Returned (fetched t) /\
             In "wkb_geometry" (labels (fetched t))) ->
  (forall k, (0 < k < List.length (data_tables names))%nat ->
             exists c, concat (map kept (firstn k (data_tables names)))
                       = Returned c) ->
  concat (map kept (data_tables names)) = Returned result ->
  (forall t, In t (data_tables names) <-> In t names /\ t <> "qgis_projects")
  /\ (forall t,
        select_star (asset_query t) = true /\
        from_schema (asset_query t) = "assets" /\
        from_table (asset_query t) = t /\
        derived (asset_query t)
        = [ (ST_Y (ST_Transform (located t) 4326), "gis_latitude");
            (ST_X (ST_Transform (located t) 4326), "gis_longitude") ] /\
        located t = (if orb (String.eqb t "trails") (String.eqb t "roads")
                     then ST_Centroid (Col "wkb_geometry")
                     else Col "wkb_geometry"))
  /\ (forall t, In t (data_tables names) ->
        drop_columns ["wkb_geometry"] (fetched t) = Ok (kept t) /\
        labels (kept t)
        = filter (fun l => negb (String.eqb l "wkb_geometry"))
                 (labels (fetched t)) /\
        ~ In "wkb_geometry" (labels (kept t)))
  /\ read_assets' conn out
     = (out ++ map (String.append "..reading table: ") (data_tables names),
        Ok result).
Proof.
  intros kept Hnames Hne Hnd Hread Hpre Hall.
  assert (Hdrop : forall t, In t (data_tables names) ->
             drop_columns ["wkb_geometry"] (fetched t) = Ok (kept t)).
  { intros t Ht. apply drop_columns_without. apply (Hread t Ht). }
  split; [|split; [|split; [|]]].
  - intros t. split.
    + intros H. unfold data_tables in H. apply filter_In in H as [H1 H2].
      split; [exact H1|]. intros ->. discriminate.
    + intros [H1 H2]. unfold data_tables. apply filter_In.
      split; [exact H1|].
      apply negb_true_iff. apply String.eqb_neq. exact H2.
  - intros t. repeat split.
    unfold located; simpl. rewrite orb_false_r. reflexivity.
  - intros t Ht. split; [exact (Hdrop t Ht)|]. split.
    + apply without_column_labels.
    + exact (drop_columns_gone _ _ (Hdrop t Ht)).
  - unfold read_assets, pbind at 1, lift at 1. rewrite Hnames; cbn [call].
    fold (data_tables names). unfold pbind.
    change (@nil (string * DataFrame))
      with (map (fun t => (t, kept t)) (@nil string)).
    rewrite (read_tables_run conn fetched kept (data_tables names)
               [] None out result); auto.
    intros t Ht. split; [apply (Hread t Ht) | exact (Hdrop t Ht)].
Qed.

End ReaderFacts.

(* ===================================================================== *)
(** * The publisher *)
(* ===================================================================== *)

Section FeatureFacts.

Import AGO PublishSpec.

Variable isoformat : Z -> string.

(** *** JSON values *)

Lemma json_roundtrip_list (vs : list pyval) :
  json_roundtrip (PList vs) = option_map PList (all_some json_roundtrip vs).
Proof.
  cbn [json_roundtrip]. f_equal.
  induction vs as [|v t IH]; [reflexivity|].
  cbn [all_some]. rewrite <- IH. reflexivity.
Qed.

Lemma json_roundtrip_tuple (vs : list pyval) :
  json_roundtrip (PTuple vs) = option_map PList (all_some json_roundtrip vs).
Proof. rewrite <- json_roundtrip_list. reflexivity. Qed.

Lemma json_roundtrip_dict (kvs : list (string * pyval)) :
  (forall kv, In kv kvs -> json_roundtrip (snd kv) = Some (snd kv)) ->
  json_roundtrip (PDict kvs) = Some (PDict kvs).
Proof.
  intros H. cbn [json_roundtrip].
  match goal with |- option_map _ ?t = _ => assert (E : t = Some kvs) end.
  { induction kvs as [|[k v] t IH]; [reflexivity|].
    pose proof (H (k, v) (or_introl eq_refl)) as Hv. cbn [snd] in Hv.
    rewrite Hv, IH; [reflexivity|].
    intros kv Hkv; apply H; right; exact Hkv. }
  rewrite E; reflexivity.
Qed.

Lemma all_some_map {A B C} (f : B -> option C) (g : A -> B) (h : A -> C)
      (l : list A) :
  (forall x, In x l -> f (g x) = Some (h x)) ->
  all_some f (map g l) = Some (map h l).
Proof.
  induction l as [|x t IH]; intros H; [reflexivity|].
  cbn [map all_some]. rewrite (H x (or_introl eq_refl)), IH; [reflexivity|].
  intros y Hy; apply H; right; exact Hy.
Qed.

Lemma json_py_coord (c : coord) :
  json_roundtrip (py_coord c) = Some (json_coord c).
Proof. reflexivity. Qed.

Lemma read_json_coord (c : coord) : read_coord (json_coord c) = Some c.
Proof. destruct c; reflexivity. Qed.

Lemma json_py_coords (cs : list coord) :
  json_roundtrip (py_coords cs) = Some (PList (map json_coord cs)).
Proof.
  unfold py_coords. rewrite json_roundtrip_tuple.
  rewrite (all_some_map _ _ json_coord); [reflexivity|].
  intros c _; apply json_py_coord.
Qed.

Lemma read_json_coords (cs : list coord) :
  read_list read_coord (PList (map json_coord cs)) = Some cs.
Proof.
  unfold read_list. rewrite (all_some_map _ _ (fun c => c)).
  - rewrite map_id; reflexivity.
  - intros c _; apply read_json_coord.
Qed.

Lemma json_py_rings (rings : list (list coord)) :
  json_roundtrip (PTuple (map py_coords rings))
  = Some (PList (map (fun cs => PList (map json_coord cs)) rings)).
Proof.
  rewrite json_roundtrip_tuple.
  rewrite (all_some_map _ _ (fun cs => PList (map json_coord cs)));
    [reflexivity|].
  intros cs _; apply json_py_coords.
Qed.

Lemma read_json_rings (rings : list (list coord)) :
  read_list (read_list read_coord)
            (PList (map (fun cs => PList (map json_coord cs)) rings))
  = Some rings.
Proof.
  unfold read_list at 1. rewrite (all_some_map _ _ (fun r => r)).
  - rewrite map_id; reflexivity.
  - intros cs _; apply read_json_coords.
Qed.

Lemma json_roundtrip_tagged (k1 s k2 : string) (v : pyval) :
  json_roundtrip (PDict [(k1, PStr s); (k2, v)])
  = option_map (fun b => PDict [(k1, PStr s); (k2, b)]) (json_roundtrip v).
Proof. cbn. destruct (json_roundtrip v); reflexivity. Qed.

Lemma json_roundtrip_feature (k1 s k2 k3 : string) (v2 v3 : pyval) :
  json_roundtrip (PDict [(k1, PStr s); (k2, v2); (k3, v3)])
  = match json_roundtrip v2, json_roundtrip v3 with
    | Some a, Some b => Some (PDict [(k1, PStr s); (k2, a); (k3, b)])
    | _, _ => None
    end.
Proof.
  cbn. destruct (json_roundtrip v2), (json_roundtrip v3); reflexivity.
Qed.

(** The geometry survives serialisation and parsing. *)
Lemma geometry_roundtrip (g : geometry) :
  exists J, json_roundtrip (geo_interface g) = Some J /\
            read_geometry J = Some g.
Proof.
  destruct g as [x y|cs|rings|ps|ls|polys];
    unfold geo_interface; rewrite json_roundtrip_tagged.
  - eexists; split; reflexivity.
  - rewrite json_py_coords.
    eexists; split; [reflexivity|].
    cbn -[read_list]. rewrite read_json_coords; reflexivity.
  - rewrite json_py_rings.
    eexists; split; [reflexivity|].
    cbn -[read_list]. rewrite read_json_rings; reflexivity.
  - rewrite json_py_coords.
    eexists; split; [reflexivity|].
    cbn -[read_list]. rewrite read_json_coords; reflexivity.
  - rewrite json_py_rings.
    eexists; split; [reflexivity|].
    cbn -[read_list]. rewrite read_json_rings; reflexivity.
  - rewrite json_roundtrip_tuple.
    rewrite (all_some_map _ _
               (fun rings => PList (map (fun cs => PList (map json_coord cs))
                                        rings)))
      by (intros rings _; apply json_py_rings).
    eexists; split; [reflexivity|].
    cbn -[read_list]. unfold read_list at 1.
    rewrite (all_some_map _ _ (fun r => r))
      by (intros rings _; apply read_json_rings).
    rewrite map_id; reflexivity.
Qed.

(** *** Building a Feature *)

Lemma filter_key_absent {V} (k : string) (r : list (string * V)) :
  ~ In k (map fst r) -> filter (fun kv => String.eqb (fst kv) k) r = [].
Proof.
  induction r as [|[k0 v0] t IH]; intros H; [reflexivity|]. cbn [filter fst].
  destruct (String.eqb_spec k0 k) as [->|Hne].
  - exfalso; apply H; left; reflexivity.
  - apply IH. intros Hin; apply H; right; exact Hin.
Qed.

Lemma filter_key_singleton {V} (k : string) (v : V)
      (r : list (string * V)) :
  NoDup (map fst r) -> In (k, v) r ->
  filter (fun kv => String.eqb (fst kv) k) r = [(k, v)].
Proof.
  induction r as [|[k0 v0] t IH]; intros Hnd Hin; [contradiction|].
  inversion Hnd as [|? ? Hnotin Hnd']; subst. cbn [filter fst].
  destruct Hin as [E|Hin].
  - inversion E; subst. rewrite String.eqb_refl.
    rewrite (filter_key_absent k t Hnotin); reflexivity.
  - destruct (String.eqb_spec k0 k) as [->|Hne].
    + exfalso; apply Hnotin. apply (in_map fst) in Hin; exact Hin.
    + apply IH; assumption.
Qed.

Lemma setitem_fresh (k : string) (v : pyval) (d : list (string * pyval)) :
  ~ In k (map fst d) -> setitem k v d = d ++ [(k, v)].
Proof.
  induction d as [|[k0 v0] t IH]; intros H; [reflexivity|]. cbn [setitem].
  destruct (String.eqb_spec k0 k) as [->|Hne].
  - exfalso; apply H; left; reflexivity.
  - cbn [app]. rewrite IH; [reflexivity|].
    intros Hin; apply H; right; exact Hin.
Qed.

Lemma properties_fold (r : list (string * cell)) :
  forall acc,
    NoDup (map fst r) ->
    (forall k, In k (map fst r) -> ~ In k (map fst acc)) ->
    fold_left (fun d kv =>
                 if String.eqb (fst kv) "geometry" then d
                 else setitem (fst kv) (property_value isoformat (snd kv)) d)
              r acc
    = acc ++ map (fun kv => (fst kv, property_value isoformat (snd kv)))
                 (fields r).
Proof.
  induction r as [|[k c] t IH]; intros acc Hnd Hfresh.
  - cbn. rewrite app_nil_r; reflexivity.
  - inversion Hnd as [|? ? Hnotin Hnd']; subst.
    cbn [fold_left fst snd]. unfold fields; cbn [filter fst].
    destruct (String.eqb k "geometry") eqn:Ek; cbn [negb].
    + apply IH; [exact Hnd'|].
      intros k' Hk'; apply Hfresh; right; exact Hk'.
    + rewrite setitem_fresh by (apply Hfresh; left; reflexivity).
      rewrite IH; [|exact Hnd'|].
      * rewrite <- app_assoc; reflexivity.
      * intros k' Hk'. rewrite map_app. cbn [map fst].
        intros Hin. apply in_app_or in Hin as [Hin|[<-|[]]].
        -- revert Hin. apply Hfresh; right; exact Hk'.
        -- exact (Hnotin Hk').
Qed.

Lemma normalised_prepared (c : cell) :
  property_value isoformat (prepared_cell c) = normalised isoformat c.
Proof.
  destruct c as [[]| | |s| | |]; try reflexivity.
  cbn. destruct (String.eqb s "None"); reflexivity.
Qed.

Lemma normalised_json (c : cell) :
  is_geo c = false ->
  json_roundtrip (normalised isoformat c) = Some (normalised isoformat c).
Proof.
  destruct c as [[]| | |s| | |]; try reflexivity; try discriminate.
  intros _. cbn. destruct (String.eqb s "None"); reflexivity.
Qed.

Lemma fields_prepared (r : list (string * cell)) :
  fields (prepared_row r) = prepared_row (fields r).
Proof.
  unfold fields, prepared_row. rewrite filter_map_swap. reflexivity.
Qed.

(** *** C5 *)

(** C5, as amended.  For a row whose labels are distinct, that holds a
    geometry under [geometry] and no geometry object elsewhere: the
    Feature built from the row as [publish_feature_layer] prepares it
    serialises, and parsing it back yields the non-geometry fields, each
    either unchanged or normalised (a missing value and the text [None]
    as the empty string, a timestamp as its ISO text), and the geometry
    with the same coordinates. *)
Theorem feature_roundtrip (r : list (string * cell)) (g : geometry) :
  NoDup (map fst r) ->
  In ("geometry", Geo g) r ->
  (forall kv, In kv (fields r) -> is_geo (snd kv) = false) ->
  exists F J,
    feature_of_row isoformat (prepared_row r) = Ok F /\
    json_roundtrip F = Some J /\
    parse_feature J
    = Some (map (fun kv => (fst kv, normalised isoformat (snd kv)))
                (fields r), g).
Proof.
  intros Hnd Hg Hplain.
  assert (Hkeys : map fst (prepared_row r) = map fst r).
  { unfold prepared_row. rewrite map_map. reflexivity. }
  assert (Hg' : In ("geometry", Geo g) (prepared_row r)).
  { unfold prepared_row.
    change ("geometry", Geo g)
      with ((fun kv : string * cell => (fst kv, prepared_cell (snd kv)))
              ("geometry", Geo g)).
    apply in_map; exact Hg. }
  assert (Hnd' : NoDup (map fst (prepared_row r)))
    by (rewrite Hkeys; exact Hnd).
  unfold feature_of_row, row_getitem.
  rewrite (filter_key_singleton "geometry" (Geo g) _ Hnd' Hg').
  cbn [Py.bind].
  rewrite properties_fold; [|exact Hnd' | intros k _ []].
  cbn [app]. rewrite fields_prepared. unfold prepared_row at 1.
  rewrite map_map. cbn [fst snd].
  rewrite (map_ext _ (fun kv => (fst kv, normalised isoformat (snd kv))))
    by (intros kv; rewrite normalised_prepared; reflexivity).
  destruct (geometry_roundtrip g) as (J & HJ & Hread).
  eexists. eexists. split; [reflexivity|].
  rewrite json_roundtrip_feature, HJ.
  rewrite json_roundtrip_dict.
  - split; [reflexivity|].
    cbn -[read_geometry]. rewrite Hread. reflexivity.
  - intros kv Hkv. apply in_map_iff in Hkv as (kv0 & <- & Hkv0).
    cbn [snd]. apply normalised_json. apply Hplain; exact Hkv0.
Qed.

(** What [publish_feature_layer] hands to [_gdf_to_geojson], row by row. *)
Lemma fillna_cells_prepared (cols : list column) (cs cs' : list cell) :
  fillna_cells cols cs = Ok cs' ->
  combine (map label cols)
          (map (fun c => match c with
                         | Str s => if String.eqb s "None" then Str EmptyString else c
                         | _ => c
                         end) cs')
  = prepared_row (combine (map label cols) cs).
Proof.
  revert cs cs'; induction cols as [|c cols IH]; intros cs cs' H.
  - reflexivity.
  - destruct cs as [|v cs]; [inversion H; reflexivity|].
    cbn [fillna_cells] in H.
    apply bind_Ok in H as (v' & Hv & H).
    apply bind_Ok in H as (rest & Hrest & H). inversion H; subst.
    cbn [map combine prepared_row]. rewrite (IH _ _ Hrest).
    f_equal. cbn [fst snd]. f_equal.
    destruct (dt c), v as [k| | |s| | |]; inversion Hv; subst;
      try reflexivity; cbn; destruct (String.eqb s "None"); reflexivity.
Qed.

Lemma labels_fillna_columns (cols : list column) (p : nat -> bool) :
  forall n,
    map label
        (map (fun ic : nat * column =>
                if p (fst ic) then mk_column (label (snd ic)) Object
                else snd ic)
             (combine (seq n (List.length cols)) cols))
    = map label cols.
Proof.
  induction cols as [|c t IH]; intros n; [reflexivity|].
  cbn [List.length seq combine map fst snd]. rewrite IH.
  destruct (p n); reflexivity.
Qed.

Lemma publish_rows (df df1 : DataFrame) :
  fillna_empty df = Ok df1 ->
  iterrows (replace_none df1) = map prepared_row (iterrows df).
Proof.
  unfold fillna_empty. intros H.
  apply bind_Ok in H as (rs & Hrs & H). inversion H; subst; clear H.
  unfold iterrows, replace_none, labels; cbn [columns rows].
  rewrite (labels_fillna_columns (columns df)
             (fun i => existsb isna (column_cells i (rows df))) 0%nat).
  rewrite !map_map; cbn [cells].
  apply mapM_Ok_Forall2 in Hrs.
  induction Hrs as [|r r' rows' rs' Hr _ IH]; [reflexivity|].
  cbn [map]. rewrite IH. f_equal.
  apply bind_Ok in Hr as (cs & Hcs & Hr). inversion Hr; subst; cbn [cells].
  apply fillna_cells_prepared; exact Hcs.
Qed.

End FeatureFacts.

Section PublishFacts.

Import AGO PublishSpec.

Variable platform : Platform.
Variable isoformat : Z -> string.
Variable json_dumps : pyval -> answer string.

Abbreviation publish_feature_layer' :=
  (publish_feature_layer platform isoformat json_dumps).
Abbreviation delete_existing' := (delete_existing platform).

(** *** Running statements *)

Lemma pbind_Ok {S A B} (m : prog S A) (k : A -> prog S B) (s s' : S)
      (b : B) :
  pbind m k s = (s', Ok b) ->
  exists s1 a, m s = (s1, Ok a) /\ k a s1 = (s', Ok b).
Proof.
  unfold pbind. destruct (m s) as [s1 [a|e|]]; intros H;
    try discriminate. eauto.
Qed.

Lemma lift_Ok {S A} (o : outcome A) (s s' : S) (a : A) :
  lift o s = (s', Ok a) -> s' = s /\ o = Ok a.
Proof. unfold lift; intros H; inversion H; auto. Qed.

Lemma call_Ok {A} (r : answer A) (a : A) : call r = Ok a -> r = Returned a.
Proof. destruct r; simpl; intros H; inversion H; reflexivity. Qed.

Lemma item_eqb_eq (a b : item) : item_eqb a b = true <-> a = b.
Proof.
  unfold item_eqb. destruct a, b; cbn [item_id title type owner]. split.
  - intros H. apply andb_prop in H as [H H4]. apply andb_prop in H as [H H3].
    apply andb_prop in H as [H1 H2].
    apply Nat.eqb_eq in H1. apply String.eqb_eq in H2, H3, H4.
    subst; reflexivity.
  - intros E; inversion E; subst.
    rewrite Nat.eqb_refl, !String.eqb_refl; reflexivity.
Qed.

Lemma matches_geojson (t u : string) (i : item) :
  matches t u i = true -> is_geojson i = true.
Proof.
  unfold matches. intros H. apply andb_prop in H as [H _].
  apply andb_prop in H as [_ H]. exact H.
Qed.

(** *** The deletions *)

Lemma delete_existing_Ok (Hlaw : lawful platform) (L : list item) :
  forall s s',
    delete_existing' L s = (s', Ok tt) ->
    store s' = filter (fun j => negb (existsb (item_eqb j)
                                              (filter is_geojson L)))
                      (store s) /\
    calls s' = calls s ++ map Deleted (filter is_geojson L) /\
    self s' = self s.
Proof.
  induction L as [|i rest IH]; intros s s' H.
  - inversion H; subst. cbn. rewrite app_nil_r. repeat split.
    induction (store s') as [|j t IHs]; [reflexivity|].
    cbn. f_equal. exact IHs.
  - cbn [delete_existing] in H. apply pbind_Ok in H as (s1 & [] & Hstep & H).
    apply IH in H as (Hst & Hcalls & Hself). cbn [filter].
    fold (is_geojson i) in Hstep. destruct (is_geojson i) eqn:Ei.
    + apply pbind_Ok in Hstep as (sa & [] & Ha & Hstep).
      inversion Ha; subst sa; clear Ha.
      apply pbind_Ok in Hstep as (sb & sg & Hb & Hstep).
      inversion Hb; subst sb sg; clear Hb.
      apply pbind_Ok in Hstep as (sc & items & Hc & Hstep).
      apply lift_Ok in Hc as [-> Hc]. apply call_Ok in Hc.
      cbn [store] in Hc. apply (delete_law _ Hlaw) in Hc.
      apply pbind_Ok in Hstep as (sd & [] & Hd & Hstep).
      inversion Hd; subst sd; clear Hd.
      inversion Hstep; subst s1; clear Hstep.
      cbn [store calls self] in *. subst items.
      rewrite Hst, Hcalls, Hself. repeat split.
      * rewrite filter_filter. apply filter_ext. intros j.
        cbn [existsb]. rewrite negb_orb. reflexivity.
      * rewrite <- app_assoc. reflexivity.
    + inversion Hstep; subst s1. auto.
Qed.

Lemma try_except_Ok {S A} (body : prog S A)
      (handler : exn -> option (prog S A)) (s s' : S) (a : A) :
  (forall e h s1 s2 b, handler e = Some h -> h s1 <> (s2, Ok b)) ->
  try_except body handler s = (s', Ok a) ->
  body s = (s', Ok a).
Proof.
  unfold try_except. intros Hh.
  destruct (body s) as [s1 [x|e|]]; intros H; try discriminate.
  - exact H.
  - destruct (handler e) as [h|] eqn:E; [|discriminate].
    exfalso. exact (Hh e h s1 s' a E H).
Qed.

(** *** One publication *)

Lemma publish_once (Hlaw : lawful platform) (gdf : GeoDataFrame)
      (t n d f : string) (s s' : state) (g : GIS) (u : string) :
  gis (self s) = Some g -> me g = Some u ->
  publish_feature_layer' gdf t n d f s = (s', Ok tt) ->
  exists L it,
    calls s' = calls s
               ++ [Searched (search_query t u) "GeoJson"]
               ++ map Deleted L
               ++ [Added (mk_properties t "GeoJson" "BCparks data" d
                                        (String.append n ".geojson")) f;
                   Published it] /\
    (forall i, In i L <-> In i (store s) /\ matches t u i = true) /\
    filter is_geojson (store s')
    = filter is_geojson
             (filter (fun j => negb (matches t u j)) (store s)) ++ [it] /\
    matches t u it = true /\
    self s' = self s.
Proof.
  intros Hgis Hme H. unfold publish_feature_layer in H.
  apply pbind_Ok in H as (s0 & sg & Hget & H).
  inversion Hget; subst s0 sg; clear Hget. rewrite Hgis in H.
  apply pbind_Ok in H as (s0 & df & Hdf & H).
  apply lift_Ok in Hdf as [-> _].
  apply pbind_Ok in H as (s0 & [] & Hlog & H).
  inversion Hlog; subst s0; clear Hlog.
  apply pbind_Ok in H as (s0 & gj & Hgj & H).
  apply lift_Ok in Hgj as [-> _].
  apply try_except_Ok in H.
  2:{ intros e h s1 s2 b Hh. destruct (isinstance e Exception);
        [|discriminate]. inversion Hh; subst. discriminate. }
  rewrite Hme in H.
  apply pbind_Ok in H as (s0 & name & Hname & H).
  inversion Hname; subst s0 name; clear Hname.
  apply pbind_Ok in H as (s0 & [] & Hrec & H).
  inversion Hrec; subst s0; clear Hrec.
  apply pbind_Ok in H as (s0 & sg & Hget & H).
  inversion Hget; subst s0 sg; clear Hget.
  apply pbind_Ok in H as (s0 & found & Hfound & H).
  apply lift_Ok in Hfound as [-> Hfound]. apply call_Ok in Hfound.
  cbn [store] in Hfound. fold (search_query t u) in Hfound, H.
  apply pbind_Ok in H as (sd & [] & Hdel & H).
  apply (delete_existing_Ok Hlaw) in Hdel as (Hst & Hcalls & Hself).
  cbn [store calls self] in Hst, Hcalls, Hself.
  apply pbind_Ok in H as (s0 & data & Hdata & H).
  apply lift_Ok in Hdata as [-> _].
  apply pbind_Ok in H as (s0 & [] & Hrec & H).
  inversion Hrec; subst s0; clear Hrec.
  apply pbind_Ok in H as (s0 & sg & Hget & H).
  inversion Hget; subst s0 sg; clear Hget.
  apply pbind_Ok in H as (s0 & [items it] & Hadd & H).
  apply lift_Ok in Hadd as [-> Hadd]. apply call_Ok in Hadd.
  cbn [store] in Hadd.
  apply (add_law _ Hlaw) in Hadd as (Hitems & Htitle & Htype & Howner).
  cbn [p_title p_type] in Htitle, Htype.
  cbn [fst snd] in H.
  apply pbind_Ok in H as (s0 & [] & Hset & H).
  inversion Hset; subst s0; clear Hset.
  apply pbind_Ok in H as (s0 & [] & Hrec & H).
  inversion Hrec; subst s0; clear Hrec.
  apply pbind_Ok in H as (s0 & sg & Hget & H).
  inversion Hget; subst s0 sg; clear Hget.
  apply pbind_Ok in H as (s0 & items' & Hpub & H).
  apply lift_Ok in Hpub as [-> Hpub]. apply call_Ok in Hpub.
  cbn [store] in Hpub. apply (publish_law _ Hlaw) in Hpub.
  apply pbind_Ok in H as (s0 & [] & Hset & H).
  inversion Hset; subst s0; clear Hset.
  inversion H; subst s'; clear H.
  cbn [store calls self].
  set (L := filter is_geojson
              (filter (fun i => String.eqb (title i) t) found)) in *.
  assert (HL : forall i, In i L <-> In i (store s) /\ matches t u i = true).
  { intros i. rewrite <- (search_law _ Hlaw _ _ _ _ Hfound i).
    unfold L. rewrite !filter_In. unfold is_geojson.
    rewrite !String.eqb_eq. tauto. }
  assert (Hit : matches t u it = true).
  { unfold matches, is_geojson. rewrite Htitle, Htype, !String.eqb_refl.
    rewrite Hme in Howner. inversion Howner; subst.
    rewrite String.eqb_refl; reflexivity. }
  exists L, it.
  split; [|split; [exact HL|split; [|split; [exact Hit|exact Hself]]]].
  - rewrite Hcalls. rewrite <- !app_assoc. reflexivity.
  - rewrite Hpub, Hitems, filter_app. cbn [filter].
    rewrite (matches_geojson _ _ _ Hit). f_equal. rewrite Hst. f_equal.
    apply filter_ext_in. intros j Hj. f_equal.
    destruct (matches t u j) eqn:Em.
    + apply existsb_exists. exists j. split; [|apply item_eqb_eq; reflexivity].
      apply HL; split; assumption.
    + destruct (existsb (item_eqb j) L) eqn:Ee; [|reflexivity].
      apply existsb_exists in Ee as (i & Hi & E).
      apply item_eqb_eq in E; subst i.
      apply HL in Hi as [_ Hi]. congruence.
Qed.

Lemma filter_contradiction {A} (m g : A -> bool) (l : list A) :
  filter (fun x => negb (m x) && (g x && m x)) l = [].
Proof.
  induction l as [|x t IH]; [reflexivity|]. cbn [filter].
  destruct (m x); cbn; rewrite ?andb_false_r; exact IH.
Qed.

Lemma filter_matches_geojson (t u : string) (l : list item) :
  filter (matches t u) l = filter (matches t u) (filter is_geojson l).
Proof.
  rewrite filter_filter. apply filter_ext. intros i.
  destruct (matches t u i) eqn:E.
  - rewrite (matches_geojson _ _ _ E); reflexivity.
  - rewrite andb_false_r; reflexivity.
Qed.

Lemma publish_once_single (Hlaw : lawful platform) (gdf : GeoDataFrame)
      (t n d f : string) (s s' : state) (g : GIS) (u : string) :
  gis (self s) = Some g -> me g = Some u ->
  publish_feature_layer' gdf t n d f s = (s', Ok tt) ->
  List.length (filter (matches t u) (store s')) = 1%nat /\
  (forall i, In i (store s) -> is_geojson i = true ->
             matches t u i = false -> In i (store s')).
Proof.
  intros Hgis Hme H.
  destruct (publish_once Hlaw _ _ _ _ _ _ _ _ _ Hgis Hme H)
    as (L & it & _ & _ & Hst & Hit & _). split.
  - rewrite filter_matches_geojson, Hst, filter_app, !filter_filter.
    cbn [filter]. rewrite Hit.
    rewrite filter_contradiction; reflexivity.
  - intros i Hi Hgeo Hm.
    assert (Hin : In i (filter is_geojson (store s'))).
    { rewrite Hst. apply in_or_app; left.
      apply filter_In; split; [|exact Hgeo].
      apply filter_In; split; [exact Hi | rewrite Hm; reflexivity]. }
    apply filter_In in Hin as [Hin _]. exact Hin.
Qed.

(** *** C4 *)

(** C4.  On a lawful platform, a publication that succeeds deletes,
    before it uploads, exactly the stored items of type GeoJson that carry
    the given title and belong to the current user; and two publications
    in succession with the same input leave exactly one such item after
    the first and after the second, keep every GeoJson item of another
    title or owner, and delete nothing that does not match. *)
Theorem publish_idempotent (gdf : GeoDataFrame) (t n d f : string)
        (s s1 s2 : state) (g : GIS) (u : string) :
  lawful platform ->
  gis (self s) = Some g -> me g = Some u ->
  publish_feature_layer' gdf t n d f s = (s1, Ok tt) ->
  publish_feature_layer' gdf t n d f s1 = (s2, Ok tt) ->
  (exists L it,
      calls s1 = calls s
                 ++ [Searched (search_query t u) "GeoJson"]
                 ++ map Deleted L
                 ++ [Added (mk_properties t "GeoJson" "BCparks data" d
                                          (String.append n ".geojson")) f;
                     Published it] /\
      (forall i, In i L <-> In i (store s) /\ matches t u i = true)) /\
  List.length (filter (matches t u) (store s1)) = 1%nat /\
  List.length (filter (matches t u) (store s2)) = 1%nat /\
  (forall i, In i (store s) -> is_geojson i = true ->
             matches t u i = false -> In i (store s2)) /\
  (forall i, In (Deleted i) (calls s2) ->
             In (Deleted i) (calls s) \/ matches t u i = true).
Proof.
  intros Hlaw Hgis Hme H1 H2.
  destruct (publish_once Hlaw _ _ _ _ _ _ _ _ _ Hgis Hme H1)
    as (L1 & it1 & Hc1 & HL1 & _ & _ & Hself1).
  assert (Hgis1 : gis (self s1) = Some g) by (rewrite Hself1; exact Hgis).
  destruct (publish_once Hlaw _ _ _ _ _ _ _ _ _ Hgis1 Hme H2)
    as (L2 & it2 & Hc2 & HL2 & _ & _ & _).
  destruct (publish_once_single Hlaw _ _ _ _ _ _ _ _ _ Hgis Hme H1)
    as [Hone1 Hkeep1].
  destruct (publish_once_single Hlaw _ _ _ _ _ _ _ _ _ Hgis1 Hme H2)
    as [Hone2 Hkeep2].
  split; [exists L1, it1; split; assumption|].
  split; [exact Hone1|]. split; [exact Hone2|]. split.
  - intros i Hi Hgeo Hm. apply Hkeep2; try assumption.
    apply Hkeep1; assumption.
  - intros i Hi. rewrite Hc2, Hc1 in Hi.
    repeat (apply in_app_or in Hi as [Hi|Hi]).
    + left; exact Hi.
    + destruct Hi as [Hi|[]]; discriminate.
    + right. apply in_map_iff in Hi as (j & E & Hj). inversion E; subst.
      apply HL1 in Hj as [_ Hj]; exact Hj.
    + destruct Hi as [Hi|[Hi|[]]]; discriminate.
    + destruct Hi as [Hi|[]]; discriminate.
    + right. apply in_map_iff in Hi as (j & E & Hj). inversion E; subst.
      apply HL2 in Hj as [_ Hj]; exact Hj.
    + destruct Hi as [Hi|[Hi|[]]]; discriminate.
Qed.

(** *** C6 *)

Lemma disconnect_total (s : state) :
  disconnect s = (disconnected s, Ok tt) /\
  gis (self (disconnected s)) = None /\
  store (disconnected s) = store s /\ calls (disconnected s) = calls s /\
  (forall r, In r (records s) -> In r (records (disconnected s))).
Proof.
  unfold disconnected, disconnect, pbind, get.
  destruct (gis (self s)) as [g|] eqn:E; cbn.
  - repeat split. intros r Hr. apply in_or_app; left; exact Hr.
  - repeat split; [exact E|]. intros r Hr. apply in_or_app; left; exact Hr.
Qed.

Lemma logging_run (l : level) (msg : string) (s : state) :
  logging l msg s = (logged l msg s, Ok tt).
Proof. reflexivity. Qed.

Lemma logging_then {A} (l : level) (msg : string) (k : prog state A)
      (s : state) :
  (logging l msg >> k) s = k (logged l msg s).
Proof. reflexivity. Qed.

Lemma except_Ok {S A} (body : prog S A) (handler : exn -> option (prog S A))
      (s s' : S) (a : A) :
  body s = (s', Ok a) -> try_except body handler s = (s', Ok a).
Proof. unfold try_except; intros ->; reflexivity. Qed.

Lemma finally_disconnect {A} (body : prog state A) (s s' : state)
      (r : outcome A) :
  body s = (s', r) -> try_finally body disconnect s = (disconnected s', r).
Proof.
  unfold try_finally; intros ->.
  destruct (disconnect_total s') as [-> _]. reflexivity.
Qed.

Lemma except_wrapped {S A} (body : prog S A) (s s' : S) (e : exn) :
  body s = (s', Raise e) ->
  try_except body
    (fun e => if isinstance e Exception
              then Some (praise Exception
                           (String.append "Error occurred: " (exn_str e)))
              else None) s
  = (s', Raise (wrapped e)).
Proof.
  unfold try_except, wrapped; intros ->.
  destruct (isinstance e Exception); reflexivity.
Qed.

(** *** What is logged before the trails are reached *)

Ltac differs :=
  let E := fresh "E" in
  intros E; cbv in E; discriminate E.

Lemma untouched_refl (s : state) : trails_untouched s s.
Proof.
  exists []. rewrite app_nil_r. split; [reflexivity|]. split; intros [].
Qed.

Lemma untouched_trans (s1 s2 s3 : state) :
  trails_untouched s1 s2 -> trails_untouched s2 s3 ->
  trails_untouched s1 s3.
Proof.
  intros (m1 & E1 & H1 & H1') (m2 & E2 & H2 & H2'). exists (m1 ++ m2).
  rewrite E2, E1, app_assoc. split; [reflexivity|].
  split; intros H; apply in_app_or in H; tauto.
Qed.

Lemma untouched_same (s s' : state) :
  records s' = records s -> trails_untouched s s'.
Proof.
  intros E. exists []. rewrite app_nil_r. split; [exact E|].
  split; intros [].
Qed.

Lemma untouched_logged (l : level) (msg : string) (s : state) :
  mk_record l msg <> trails_header ->
  mk_record l msg <> trails_empty_record ->
  trails_untouched s (logged l msg s).
Proof.
  intros H1 H2. exists [mk_record l msg]. split; [reflexivity|].
  split; intros [E|[]]; [apply H1 | apply H2]; exact E.
Qed.

Lemma quiet_ret {A} (a : A) : quiet (ret a).
Proof. intros s. apply untouched_refl. Qed.

Lemma quiet_get : quiet get.
Proof. intros s. apply untouched_refl. Qed.

Lemma quiet_lift {A} (o : outcome A) : quiet (lift o).
Proof. intros s. apply untouched_refl. Qed.

Lemma quiet_praise {A} (c : exn_class) (msg : string) :
  quiet (@praise state A c msg).
Proof. intros s. apply untouched_refl. Qed.

Lemma quiet_modify (f : state -> state) :
  (forall s, records (f s) = records s) -> quiet (modify f).
Proof. intros H s. apply untouched_same, H. Qed.

Lemma quiet_logging (l : level) (msg : string) :
  mk_record l msg <> trails_header ->
  mk_record l msg <> trails_empty_record ->
  quiet (logging l msg).
Proof. intros H1 H2 s. apply untouched_logged; assumption. Qed.

Lemma quiet_pbind {A B} (m : prog state A) (k : A -> prog state B) :
  quiet m -> (forall a, quiet (k a)) -> quiet (pbind m k).
Proof.
  intros Hm Hk s. unfold pbind. specialize (Hm s).
  destruct (m s) as [s1 [a|e|]]; cbn [fst] in *; try exact Hm.
  eapply untouched_trans; [exact Hm | apply Hk].
Qed.

Lemma quiet_try_except {A} (body : prog state A)
      (handler : exn -> option (prog state A)) :
  quiet body -> (forall e h, handler e = Some h -> quiet h) ->
  quiet (try_except body handler).
Proof.
  intros Hb Hh s. unfold try_except. specialize (Hb s).
  destruct (body s) as [s1 [a|e|]]; cbn [fst] in *; try exact Hb.
  destruct (handler e) as [h'|] eqn:Eh; [|exact Hb].
  eapply untouched_trans; [exact Hb | apply (Hh e h' Eh)].
Qed.

Ltac quiet_leaf :=
  first [ apply quiet_ret | apply quiet_get | apply quiet_lift
        | apply quiet_praise
        | apply quiet_modify; intros ?; reflexivity
        | apply quiet_logging; differs ].

Ltac quiet_chain :=
  repeat first [ quiet_leaf | apply quiet_pbind; [|intros ?] ].

Lemma quiet_delete_existing (L : list item) : quiet (delete_existing' L).
Proof.
  induction L as [|i rest IH]; [apply quiet_ret|].
  cbn [delete_existing]. apply quiet_pbind; [|intros _; exact IH].
  destruct (String.eqb (type i) "GeoJson"); [|apply quiet_ret].
  quiet_chain.
Qed.

(** [publish_feature_layer], however it ends, logs nothing that belongs
    to the trails step of the block. *)
Lemma quiet_publish_feature_layer (gdf : GeoDataFrame)
      (t n d f : string) :
  quiet (publish_feature_layer' gdf t n d f).
Proof.
  unfold publish_feature_layer.
  apply quiet_pbind; [apply quiet_get|intros s0].
  destruct (gis (self s0)) as [g|]; [|apply quiet_praise].
  apply quiet_pbind; [apply quiet_lift|intros df].
  apply quiet_pbind; [quiet_leaf|intros _].
  apply quiet_pbind; [apply quiet_lift|intros gj].
  apply quiet_try_except.
  - apply quiet_pbind; [destruct (me g); quiet_leaf|intros name].
    apply quiet_pbind; [quiet_leaf|intros _].
    apply quiet_pbind; [quiet_leaf|intros s1].
    apply quiet_pbind; [quiet_leaf|intros found].
    apply quiet_pbind; [apply quiet_delete_existing|intros _].
    quiet_chain.
  - intros e h. destruct (isinstance e Exception); [|discriminate].
    intros E; injection E as <-. quiet_chain.
Qed.

Lemma quiet_disconnect : quiet disconnect.
Proof.
  unfold disconnect. apply quiet_pbind; [apply quiet_get|intros s0].
  destruct (gis (self s0)); quiet_chain.
Qed.

Lemma untouched_at_assets (h u p : option string) (g : GIS)
      (name : string) (s : state) :
  trails_untouched s (at_assets h u p g name s).
Proof.
  unfold at_assets.
  eapply untouched_trans; [|apply untouched_logged; differs].
  eapply untouched_trans; [|apply untouched_logged; differs].
  exists [mk_record INFO (String.append nl "Logging to AGO")].
  split; [reflexivity|]. split; intros [E|[]]; revert E; differs.
Qed.

Lemma untouched_at_login (h u p : option string) (s : state) :
  trails_untouched s (at_login h u p s).
Proof.
  exists [mk_record INFO (String.append nl "Logging to AGO")].
  split; [reflexivity|]. split; intros [E|[]]; revert E; differs.
Qed.

(** C6, as amended.  Once the login has succeeded: when the asset frame
    is empty, its error is logged, no call is made to the platform on its
    behalf, the run goes on with the trails, and it ends well whenever the
    trail publication does; when the trail frame is empty and the asset
    step has returned, its error is logged and the run ends well.  When
    the asset publication raises, the block raises that exception, wrapped,
    from the state the publication left, and between the start of the
    block and its end neither the header of the trails step nor the record
    of an empty trail frame is logged, whatever the trail frame holds.  The
    same holds when the login raises and when it identifies no user, and
    then no call is made to the platform either. *)
Theorem empty_dataset_skipped (h u p : option string) (today : string)
        (gdf_ast gdf_trl : GeoDataFrame) (s : state) :
  let block := publish_block platform isoformat json_dumps h u p today
                             gdf_ast gdf_trl in
  (forall g name,
      login platform h u p = Returned g -> me g = Some name ->
      let s2 := at_assets h u p g name s in
      (shape0 (frame gdf_ast) = 0%nat ->
       let s3 := at_trails (logged ERROR (message assets_empty_record) s2) in
       In assets_empty_record (records s3) /\ calls s3 = calls s /\
       (shape0 (frame gdf_trl) = 0%nat ->
        block s
        = (disconnected (logged ERROR (message trails_empty_record) s3),
           Ok tt)) /\
       ((0 < shape0 (frame gdf_trl))%nat ->
        forall s4 r,
          publish_feature_layer' gdf_trl trails_title "bcparks_trails_v2"
            (cat ["Line dataset - BCParks trails (updated on "; today; ")"])
            parc_folder s3 = (s4, r) ->
          fst (block s) = disconnected s4 /\
          (r = Ok tt -> block s = (disconnected s4, Ok tt)))) /\
      ((0 < shape0 (frame gdf_ast))%nat -> shape0 (frame gdf_trl) = 0%nat ->
       forall s3,
         publish_feature_layer' gdf_ast assets_title "bcparks_assets_v2"
           (cat ["Point dataset - BCParks assets (updated on "; today; ")"])
           parc_folder s2 = (s3, Ok tt) ->
         block s
         = (disconnected
              (logged ERROR (message trails_empty_record) (at_trails s3)),
            Ok tt) /\
         In trails_empty_record
            (records (disconnected
                        (logged ERROR (message trails_empty_record)
                                (at_trails s3))))) /\
      ((0 < shape0 (frame gdf_ast))%nat ->
       forall s3 e,
         publish_feature_layer' gdf_ast assets_title "bcparks_assets_v2"
           (cat ["Point dataset - BCParks assets (updated on "; today; ")"])
           parc_folder s2 = (s3, Raise e) ->
         block s = (disconnected s3, Raise (wrapped e)) /\
         trails_untouched s (disconnected s3))) /\
  (forall e,
      login platform h u p = Raised e ->
      block s = (disconnected (at_login h u p s), Raise (wrapped e)) /\
      trails_untouched s (disconnected (at_login h u p s)) /\
      calls (disconnected (at_login h u p s)) = calls s) /\
  (forall g,
      login platform h u p = Returned g -> me g = None ->
      let s2 := logged ERROR "..connection to AGOL failed."
                  (mk_state (mk_manager h u p (Some g))
                            (records (at_login h u p s)) (store s)
                            (calls s)) in
      block s
      = (disconnected s2,
         Raise (wrapped (mk_exn ConnectionError
                                "Failed to connect to AGOL."))) /\
      trails_untouched s (disconnected s2) /\
      calls (disconnected s2) = calls s).
Proof.
  intros block.
  assert (Hltb : forall m, (0 < m)%nat -> (0 <? m)%nat = true)
    by (intros m Hm; apply Nat.ltb_lt; exact Hm).
  split; [|split].
  - intros g name Hlogin Hme s2.
    assert (Hstart : forall k : prog state unit,
              (logging INFO (String.append nl "Logging to AGO") >>
               set_self (init h u p) >>
               connect platform >>
               logging INFO
                 (String.append nl "Publishing the Assets dataset to AGO") >>
               k) s = k s2).
    { intros k. unfold pbind, logging, set_self, connect, modify, get, lift,
                       set_gis, init, pbind.
      cbn [self host username password]. rewrite Hlogin. cbn [call].
      rewrite Hme. reflexivity. }
    split; [|split].
    + intros Hast s3. split.
      { unfold s3, at_trails, logged; cbn [records].
        apply in_or_app; left. apply in_or_app; right. left; reflexivity. }
      split; [reflexivity|]. split.
      * intros Htrl. unfold block, publish_block.
        apply finally_disconnect, except_Ok.
        rewrite Hstart, Hast, Htrl. cbn [Nat.ltb Nat.leb].
        rewrite !logging_then. apply logging_run.
      * intros Htrl s4 r Hrun.
        assert (Hbody : forall k : prog state unit,
                   (logging ERROR
                            "..Assets dataset is empty. AGO update aborted!" >>
                    logging INFO
                      (String.append nl
                                     "Publishing the Trails dataset to AGO")
                    >> k) s2 = k s3).
        { intros k. rewrite !logging_then. reflexivity. }
        unfold block, publish_block. split.
        -- unfold try_finally, try_except.
           rewrite Hstart, Hast, (Hltb _ Htrl). cbn [Nat.ltb Nat.leb].
           rewrite Hbody, Hrun.
           destruct (disconnect_total s4) as [Hd _].
           destruct r as [[]|e|]; [rewrite Hd; reflexivity| |rewrite Hd;
                                                               reflexivity].
           destruct (isinstance e Exception); unfold praise, lift;
             [|rewrite Hd; reflexivity].
           destruct (disconnect_total s4) as [Hd' _]. rewrite Hd'.
           reflexivity.
        -- intros ->. apply finally_disconnect, except_Ok.
           rewrite Hstart, Hast, (Hltb _ Htrl). cbn [Nat.ltb Nat.leb].
           rewrite Hbody. exact Hrun.
    + intros Hast Htrl s3 Hrun. split.
      * unfold block, publish_block.
        apply finally_disconnect, except_Ok.
        rewrite Hstart, Htrl, (Hltb _ Hast). cbn [Nat.ltb Nat.leb].
        unfold pbind at 1. rewrite Hrun.
        rewrite !logging_then. apply logging_run.
      * destruct (disconnect_total
                    (logged ERROR (message trails_empty_record)
                            (at_trails s3))) as (_ & _ & _ & _ & Hrec).
        apply Hrec. unfold logged; cbn [records].
        apply in_or_app; right; left; reflexivity.
    + intros Hast s3 e Hrun. split.
      * unfold block, publish_block.
        apply finally_disconnect, except_wrapped.
        rewrite Hstart, (Hltb _ Hast).
        unfold pbind at 1. rewrite Hrun. reflexivity.
      * eapply untouched_trans; [apply untouched_at_assets|].
        eapply untouched_trans; [|apply quiet_disconnect].
        fold s2.
        pose proof (quiet_publish_feature_layer gdf_ast assets_title
                      "bcparks_assets_v2"
                      (cat ["Point dataset - BCParks assets (updated on ";
                            today; ")"])
                      parc_folder s2) as Hq.
        rewrite Hrun in Hq. exact Hq.
  - intros e Hlogin. split; [|split].
    + unfold block, publish_block.
      apply finally_disconnect, except_wrapped.
      unfold pbind, logging, set_self, connect, modify, get, lift,
             set_gis, init, at_login, pbind.
      cbn [self host username password]. rewrite Hlogin. reflexivity.
    + eapply untouched_trans; [apply untouched_at_login|].
      apply quiet_disconnect.
    + destruct (disconnect_total (at_login h u p s)) as (_ & _ & _ & E & _).
      exact E.
  - intros g Hlogin Hme s2. split; [|split].
    + unfold block, publish_block.
      apply finally_disconnect, except_wrapped.
      unfold pbind, logging, set_self, connect, modify, get, lift,
             set_gis, init, at_login, praise, raise, s2, logged, pbind,
             logging, modify, lift.
      cbn [self host username password records store calls].
      rewrite Hlogin. cbn [call]. rewrite Hme. reflexivity.
    + eapply untouched_trans; [|apply quiet_disconnect].
      eapply untouched_trans; [apply (untouched_at_login h u p)|].
      unfold s2. eapply untouched_trans; [|apply untouched_logged; differs].
      apply untouched_same. reflexivity.
    + destruct (disconnect_total s2) as (_ & _ & _ & E & _). exact E.
Qed.

End PublishFacts.

(* ===================================================================== *)
(** * Both disconnects *)
(* ===================================================================== *)




(* ===================================================================== *)
(** * Concrete runs *)
(* ===================================================================== *)

Lemma append_cancel_l (p a b : string) :
  String.append p a = String.append p b -> a = b.
Proof.
  induction p as [|c p IH]; simpl; intros H; [exact H|].
  inversion H; auto.
Qed.

Lemma append_empty_r (a : string) : String.append a EmptyString = a.
Proof.
  induction a as [|c a IH]; simpl; [reflexivity | rewrite IH; reflexivity].
Qed.

Ltac unfold_list_platform H :=
  cbn [AGO.search AGO.delete AGO.add AGO.publish PublishSpec.list_platform]
    in H.

Lemma list_platform_lawful : PublishSpec.lawful PublishSpec.list_platform.
Proof.
  constructor.
  - intros items t u found H i. unfold_list_platform H.
    inversion H; subst; clear H.
    rewrite filter_In. unfold PublishSpec.matches, PublishSpec.is_geojson.
    split.
    + intros [[Hin Hq] [Ht Hty]]. split; [exact Hin|].
      apply andb_prop in Hq as [Hq _]. apply String.eqb_eq in Hq.
      rewrite Ht in Hq.
      assert (Hu : u = AGO.owner i).
      { apply append_cancel_l in Hq. inversion Hq as [Hq'].
        rewrite !append_empty_r in Hq'. exact Hq'. }
      rewrite Ht, Hty, <- Hu, !String.eqb_refl. reflexivity.
    + intros [Hin Hm]. apply andb_prop in Hm as [Hm Ho].
      apply andb_prop in Hm as [Ht Hty].
      apply String.eqb_eq in Ht, Hty, Ho. subst.
      rewrite Hty, !String.eqb_refl. auto.
  - intros items i items' H. unfold_list_platform H.
    inversion H; reflexivity.
  - intros items g props data folder items' it H. unfold_list_platform H.
    destruct (AGO.me g) as [u|]; [|discriminate].
    inversion H; subst. auto.
  - intros items it items' H. unfold_list_platform H.
    inversion H; subst; clear H.
    rewrite filter_app. cbn [filter]. unfold PublishSpec.is_geojson at 2.
    cbn [AGO.type]. cbn [String.eqb Ascii.eqb Bool.eqb].
    rewrite app_nil_r, filter_filter. apply filter_ext_in.
    intros j _. unfold PublishSpec.is_geojson.
    destruct (String.eqb (AGO.type j) "GeoJson") eqn:E;
      [|rewrite andb_false_r; reflexivity].
    apply String.eqb_eq in E. rewrite E.
    rewrite andb_true_r. cbn. rewrite andb_false_r. reflexivity.
Qed.

Section Runs.

Import AGO PublishSpec Samples.

(** C4 on the list platform, from a store that holds two stale copies. *)
Lemma publish_idempotent_witness :
  let s1 := fst (publish_assets_on_list signed_in) in
  let s2 := fst (publish_assets_on_list s1) in
  (exists L it,
      calls s1 = calls signed_in
                 ++ [Searched (search_query assets_title "parc_admin")
                              "GeoJson"]
                 ++ map Deleted L
                 ++ [Added (mk_properties assets_title "GeoJson"
                              "BCparks data" "Point dataset"
                              (String.append "bcparks_assets_v2" ".geojson"))
                           parc_folder;
                     Published it] /\
      (forall i, In i L <-> In i (store signed_in)
                            /\ matches assets_title "parc_admin" i = true)) /\
  List.length (filter (matches assets_title "parc_admin") (store s1)) = 1%nat /\
  List.length (filter (matches assets_title "parc_admin") (store s2)) = 1%nat /\
  (forall i, In i (store signed_in) -> is_geojson i = true ->
             matches assets_title "parc_admin" i = false ->
             In i (store s2)) /\
  (forall i, In (Deleted i) (calls s2) ->
             In (Deleted i) (calls signed_in)
             \/ matches assets_title "parc_admin" i = true).
Proof.
  intros s1 s2.
  apply (publish_idempotent list_platform sample_isoformat sample_json_dumps
           one_row_layer assets_title "bcparks_assets_v2" "Point dataset"
           parc_folder signed_in s1 s2 (mk_gis (Some "parc_admin"))
           "parc_admin" list_platform_lawful);
    vm_compute; reflexivity.
Defined.

(** C5 on a row with a missing value, the text [None] and a timestamp. *)
Lemma feature_roundtrip_witness :
  exists F J,
    feature_of_row sample_isoformat (prepared_row plain_row) = Ok F /\
    json_roundtrip F = Some J /\
    parse_feature J
    = Some (map (fun kv => (fst kv, normalised sample_isoformat (snd kv)))
                (fields plain_row), Point (-123.1) 49.7).
Proof.
  apply (feature_roundtrip sample_isoformat plain_row (Point (-123.1) 49.7)).
  - repeat constructor; simpl; intuition discriminate.
  - simpl; tauto.
  - intros kv Hkv. simpl in Hkv.
    repeat (destruct Hkv as [<-|Hkv]; [reflexivity|]). contradiction.
Defined.

(** C5 as stated fails on a row with two columns labelled alike: the
    properties object keeps one value per key, so the first [Park] value
    does not come back. *)
Lemma feature_roundtrip_counterexample :
  In ("geometry", Geo (Point (-123.1) 49.7)) twice_park_row /\
  exists F J props g,
    feature_of_row sample_isoformat (prepared_row twice_park_row) = Ok F /\
    json_roundtrip F = Some J /\
    parse_feature J = Some (props, g) /\
    props = [("Asset ID", PInt 1001); ("Park", PStr "Stawamus Chief")] /\
    props <> map (fun kv => (fst kv, normalised sample_isoformat (snd kv)))
                 (fields twice_park_row).
Proof.
  split; [simpl; tauto|].
  do 4 eexists. split; [vm_compute; reflexivity|].
  split; [vm_compute; reflexivity|].
  split; [vm_compute; reflexivity|].
  split; [reflexivity|]. vm_compute. discriminate.
Qed.

(** C8 on a driver that refuses the connection. *)
Lemma connect_failure_witness :
  let e := mk_exn OperationalError "could not connect to server" in
  (isinstance e OperationalError = true ->
   exists s',
     Postgres.connect refusing_driver fresh_manager = (s', Ok None) /\
     Postgres.connection (Postgres.self s') = None /\
     Postgres.records s'
     = Postgres.records fresh_manager
       ++ [mk_record ERROR
             (String.append "..error connecting to database: " (exn_str e))])
  /\
  (isinstance e OperationalError = false ->
   Postgres.connect refusing_driver fresh_manager = (fresh_manager, Raise e)).
Proof.
  intros e. apply (connect_failure refusing_driver fresh_manager e).
  reflexivity.
Defined.

(** C8 as stated fails: a failure of the driver outside
    [OperationalError] is raised by [connect], not logged. *)
Lemma connect_failure_counterexample :
  let e := mk_exn InterfaceError "bad connection parameters" in
  Postgres.pg_connect interface_failing_driver
    (Some "citywide") (Some "reader") (Some "secret")
    (Some "db.example.org") (Some "5432") = Raised e /\
  Postgres.connect interface_failing_driver fresh_manager
  = (fresh_manager, Raise e).
Proof. split; reflexivity. Qed.



(** C10 on a schema that lists only [qgis_projects]. *)
Lemma read_assets_empty_schema_witness :
  exists msg,
    Reader.read_assets only_projects stored_table stacked None []
    = ([], Raise (mk_exn UnboundLocalError msg)).
Proof.
  apply (read_assets_empty_schema only_projects stored_table stacked None
           ["qgis_projects"] []).
  - reflexivity.
  - intros x [<-|[]]. reflexivity.
Defined.

(** C6 on five runs: no asset row and one trail row; one asset row and
    no trail row; an asset publication that raises; a login that raises;
    a login that identifies no user. *)
Lemma empty_dataset_skipped_witness :
  let h := Some "https://www.arcgis.com" in
  let u := Some "parc_admin" in
  let p := Some "secret" in
  let today := "November 26, 2024" in
  let run := fun platform gdf_ast gdf_trl =>
    publish_block platform sample_isoformat sample_json_dumps h u p today
                  gdf_ast gdf_trl start in
  snd (run list_platform empty_layer one_row_layer) = Ok tt /\
  (snd (run list_platform one_row_layer empty_layer) = Ok tt /\
   In trails_empty_record
      (records (fst (run list_platform one_row_layer empty_layer)))) /\
  (snd (run failing_platform one_row_layer empty_layer)
   = Raise (mk_exn Exception
              (String.append
                 "Error occurred: ..error publishing/updating feature layer: "
                 "Unable to search")) /\
   trails_untouched start
     (fst (run failing_platform one_row_layer empty_layer))) /\
  (snd (run offline_platform one_row_layer empty_layer)
   = Raise (mk_exn Exception
              "Error occurred: A connection error has occurred") /\
   trails_untouched start
     (fst (run offline_platform one_row_layer empty_layer))) /\
  (snd (run anonymous_platform one_row_layer empty_layer)
   = Raise (mk_exn Exception "Error occurred: Failed to connect to AGOL.") /\
   trails_untouched start
     (fst (run anonymous_platform one_row_layer empty_layer))).
Proof.
  intros h u p today run.
  assert (Hpos : (0 < shape0 (frame one_row_layer))%nat)
    by (vm_compute; constructor).
  split; [|split; [|split; [|split]]].
  - destruct (empty_dataset_skipped list_platform sample_isoformat
                sample_json_dumps h u p today empty_layer one_row_layer
                start) as [Hin _].
    destruct (Hin (mk_gis (Some "parc_admin")) "parc_admin" eq_refl eq_refl)
      as (H1 & _ & _).
    destruct (H1 eq_refl) as (_ & _ & _ & H4).
    edestruct (H4 Hpos) as [_ Hb]; [vm_compute; reflexivity|].
    unfold run. rewrite (Hb eq_refl). reflexivity.
  - destruct (empty_dataset_skipped list_platform sample_isoformat
                sample_json_dumps h u p today one_row_layer empty_layer
                start) as [Hin _].
    destruct (Hin (mk_gis (Some "parc_admin")) "parc_admin" eq_refl eq_refl)
      as (_ & H2 & _).
    edestruct (H2 Hpos eq_refl) as [Hb Hi]; [vm_compute; reflexivity|].
    unfold run. rewrite Hb. cbn [fst snd]. split; [reflexivity|exact Hi].
  - destruct (empty_dataset_skipped failing_platform sample_isoformat
                sample_json_dumps h u p today one_row_layer empty_layer
                start) as [Hin _].
    destruct (Hin (mk_gis (Some "parc_admin")) "parc_admin" eq_refl eq_refl)
      as (_ & _ & H3).
    edestruct (H3 Hpos) as [Hb Hu]; [vm_compute; reflexivity|].
    unfold run. rewrite Hb. cbn [fst snd].
    split; [vm_compute; reflexivity|exact Hu].
  - destruct (empty_dataset_skipped offline_platform sample_isoformat
                sample_json_dumps h u p today one_row_layer empty_layer
                start) as (_ & Hraise & _).
    destruct (Hraise (mk_exn ConnectionError
                             "A connection error has occurred") eq_refl)
      as (Hb & Hu & _).
    unfold run. rewrite Hb. cbn [fst snd].
    split; [vm_compute; reflexivity|exact Hu].
  - destruct (empty_dataset_skipped anonymous_platform sample_isoformat
                sample_json_dumps h u p today one_row_layer empty_layer
                start) as (_ & _ & Hanon).
    destruct (Hanon (mk_gis None) eq_refl eq_refl) as (Hb & Hu & _).
    unfold run. rewrite Hb. cbn [fst snd].
    split; [vm_compute; reflexivity|exact Hu].
Defined.

(** The same run, computed: the asset error is logged, the trail layer is
    searched for and uploaded, the block ends well. *)
Lemma empty_assets_run :
  let final := publish_block list_platform sample_isoformat sample_json_dumps
                 (Some "https://www.arcgis.com") (Some "parc_admin")
                 (Some "secret") "November 26, 2024"
                 empty_layer one_row_layer start in
  snd final = Ok tt /\
  In assets_empty_record (records (fst final)) /\
  (exists p it,
      calls (fst final)
      = [Searched (search_query trails_title "parc_admin") "GeoJson";
         Added p parc_folder; Published it]) /\
  map title (store (fst final)) = [trails_title; trails_title].
Proof.
  vm_compute. split; [reflexivity|]. split; [tauto|].
  split; [do 2 eexists; reflexivity | reflexivity].
Qed.

(** C6 as stated fails for the trails: with an empty trail frame and an
    asset publication that raises, the block raises before it reaches the
    trails and their error is never logged. *)
Lemma empty_dataset_skipped_counterexample :
  let final := publish_block failing_platform sample_isoformat
                 sample_json_dumps
                 (Some "https://www.arcgis.com") (Some "parc_admin")
                 (Some "secret") "November 26, 2024"
                 one_row_layer empty_layer start in
  shape0 (frame empty_layer) = 0%nat /\
  (exists msg, snd final = Raise (mk_exn Exception msg)) /\
  ~ In trails_empty_record (records (fst final)).
Proof.
  vm_compute. split; [reflexivity|]. split; [eexists; reflexivity|].
  intros H. repeat (destruct H as [H|H]; [discriminate|]). exact H.
Qed.

(** C7 on a schema of two data tables and the project table: the frame
    returned, row by row. *)
Lemma read_assets_concatenates_witness :
  Reader.read_assets listed_tables stored_table stacked None []
  = (map (String.append "..reading table: ") ["benches"; "trails"],
     Ok (mk_frame
           [ mk_column "assetid" Int64; mk_column "asset_category" Object;
             mk_column "gis_latitude" Float64;
             mk_column "gis_longitude" Float64 ]
           [ mk_row 0 [Int 7; Str "benches"; Num 49.7; Num (-123.1)];
             mk_row 1 [Int 7; Str "trails"; Num 49.7; Num (-123.1)] ])).
Proof.
  apply (read_assets_concatenates listed_tables stored_table stacked None
           ["benches"; "qgis_projects"; "trails"] [] fetched_table).
  - reflexivity.
  - discriminate.
  - repeat constructor; simpl; intuition discriminate.
  - intros t Ht. simpl in Ht.
    destruct Ht as [<-|[<-|[]]]; (split; [reflexivity|]);
      vm_compute; tauto.
  - intros k Hk. assert (Ek : k = 1%nat) by (vm_compute in Hk; lia).
    subst k. eexists. vm_compute; reflexivity.
  - vm_compute; reflexivity.
Defined.

End Runs.

(* ===================================================================== *)
(** * Further properties of the asset transformer *)
(* ===================================================================== *)

Lemma positions_absent (l : string) (ls : list string) :
  ~ In l ls -> positions l ls = [].
Proof.
  intros H. destruct (positions l ls) as [|j t] eqn:E; [reflexivity|].
  exfalso. apply H. assert (Hj : In j (positions l ls)) by (rewrite E; left; auto).
  apply positions_spec in Hj. eapply nth_error_In; exact Hj.
Qed.

Lemma get_indexer_for_missing (wanted ls : list string) (w : string) :
  In w wanted -> ~ In w ls ->
  exists msg, get_indexer_for wanted ls = Raise (mk_exn KeyError msg).
Proof.
  induction wanted as [|w0 t IH]; intros Hin Hno; [contradiction|].
  cbn [get_indexer_for].
  destruct (positions w0 ls) as [|p ps] eqn:E; [eexists; reflexivity|].
  destruct Hin as [->|Hin].
  - rewrite (positions_absent _ _ Hno) in E. discriminate.
  - destruct (IH Hin Hno) as (msg & ->). eexists; reflexivity.
Qed.

Lemma rename_label_target (m : list (string * string)) (l k v : string) :
  NoDup (map snd m) -> In (k, v) m ->
  rename_label m l = v -> l = v \/ l = k.
Proof.
  intros Hnd Hin. unfold rename_label.
  destruct (lookup l m) as [v'|] eqn:E; [|auto].
  intros ->. right. apply lookup_Some_In in E.
  exact (In_values_inj _ _ _ _ Hnd E Hin).
Qed.

Lemma renamed_absent (m : list (string * string)) (ls : list string)
      (k v : string) :
  NoDup (map snd m) -> In (k, v) m -> ~ In k ls -> ~ In v ls ->
  ~ In v (map (rename_label m) ls).
Proof.
  intros Hnd Hin Hk Hv H. apply in_map_iff in H as (l & E & Hl).
  destruct (rename_label_target _ _ _ _ Hnd Hin E) as [->| ->]; auto.
Qed.

Section TransformErrors.

Variable repr_float : Q -> string.
Variable repr_int : Z -> string.
Variable str_stamp : Z -> string.
Variable wkt : geometry -> string.

Abbreviation process_assets' :=
  (process_assets repr_float repr_int str_stamp wkt).
Abbreviation astype' :=
  (astype_str_objects repr_float repr_int str_stamp wkt).

(** X1.  A frame without an [asset_category] column makes
    [process_assets] raise [KeyError] at its first statement, whatever
    else the frame holds. *)
Theorem process_assets_without_category (df : DataFrame)
        (latcol loncol : string) :
  ~ In "asset_category" (labels df) ->
  exists msg,
    process_assets' df latcol loncol = Raise (mk_exn KeyError msg).
Proof.
  intros H. unfold process_assets, get_loc.
  rewrite (positions_absent _ _ H). eexists; reflexivity.
Qed.

(** X2.  When the category column is there but some pair of the rename
    mapping has neither its source nor its target name among the columns,
    [process_assets] raises [KeyError] at the column selection. *)
Theorem process_assets_missing_column (df : DataFrame)
        (latcol loncol k v : string) :
  count_label "asset_category" (labels df) = 1%nat ->
  In (k, v) ast_cols ->
  ~ In k (labels df) -> ~ In v (labels df) ->
  exists msg,
    process_assets' df latcol loncol = Raise (mk_exn KeyError msg).
Proof.
  intros Hcat Hin Hk Hv.
  destruct (count_label_1 _ _ Hcat) as (pc & Hpc).
  unfold process_assets, get_loc. rewrite Hpc. cbn [Py.bind].
  unfold getitem_list. rewrite labels_rename.
  change (labels (mk_frame (columns df) _)) with (labels df).
  destruct (get_indexer_for_missing (values ast_cols)
              (map (rename_label ast_cols) (labels df)) v)
    as (msg & ->).
  - apply (in_map snd) in Hin. exact Hin.
  - apply (renamed_absent ast_cols (labels df) k v); auto.
    apply NoDup_values.
  - exists msg; reflexivity.
Qed.

Lemma astype_cells_text (objs : list string) (cols : list column)
      (cs : list cell) (j : nat) (c : column) (v : cell) :
  (forall c0, In c0 cols -> dt c0 = Object -> mem (label c0) objs = true) ->
  nth_error (map (fun c => if mem (label c) objs
                           then mk_column (label c) Object else c) cols) j
    = Some c ->
  dt c = Object ->
  nth_error (astype_cells repr_float repr_int str_stamp wkt objs cols cs) j
    = Some v ->
  exists s, v = Str s.
Proof.
  revert cs j. induction cols as [|c0 t IH]; intros cs j Hobj Hc Hdt Hv.
  - destruct j; discriminate.
  - destruct cs as [|v0 cs]; [destruct j; discriminate|].
    destruct j as [|j]; cbn [map astype_cells nth_error] in Hc, Hv.
    + destruct (mem (label c0) objs) eqn:Em.
      * inversion Hv; eauto.
      * inversion Hc; subst c. rewrite (Hobj c0 (or_introl eq_refl) Hdt) in Em.
        discriminate.
    + apply (IH cs j); auto. intros c1 H1. apply Hobj. right; exact H1.
Qed.

Lemma object_labels_mem (df : DataFrame) (c : column) :
  In c (columns df) -> dt c = Object ->
  mem (label c) (object_labels df) = true.
Proof.
  intros Hin Hdt. unfold mem, object_labels. apply existsb_exists.
  exists (label c). split; [|apply String.eqb_refl].
  apply in_map. apply filter_In. split; [exact Hin|].
  rewrite Hdt; reflexivity.
Qed.

Lemma astype_object_text (df : DataFrame) (o : row) (j : nat)
      (c : column) (v : cell) :
  In o (rows (astype' df)) ->
  nth_error (columns (astype' df)) j = Some c -> dt c = Object ->
  nth_error (cells o) j = Some v ->
  exists s, v = Str s.
Proof.
  unfold astype_str_objects. cbn [rows columns]. intros Ho Hc Hdt Hv.
  apply in_map_iff in Ho as (r & <- & _). cbn [cells] in Hv.
  eapply astype_cells_text; eauto.
  intros c0 H0 Hd. apply object_labels_mem; assumption.
Qed.

(** X3.  In every frame [process_assets] returns, each cell of a column
    of dtype object is a string: the closing [astype] leaves no other
    Python object (a missing value, a number) in such a column. *)
Theorem process_assets_object_columns_text (df : DataFrame)
        (latcol loncol : string) (g : GeoDataFrame)
        (o : row) (j : nat) (c : column) (v : cell) :
  process_assets' df latcol loncol = Ok g ->
  In o (rows (frame g)) ->
  nth_error (columns (frame g)) j = Some c -> dt c = Object ->
  nth_error (cells o) j = Some v ->
  exists s, v = Str s.
Proof.
  intros H Ho Hc Hdt Hv.
  apply process_assets_inv in H
    as (jc & ix & jlat & jlon & gs & _ & _ & _ & _ & _ & ->).
  cbn [frame] in Ho, Hc. eapply astype_object_text; eauto.
Qed.

(** X4.  [process_assets] cannot be applied to its own output: the
    frame it returns has no [asset_category] column any more, so a second
    call raises [KeyError]. *)
Theorem process_assets_not_repeatable (df : DataFrame)
        (latcol loncol latcol' loncol' : string) (g : GeoDataFrame) :
  process_assets' df latcol loncol = Ok g ->
  exists msg,
    process_assets' (frame g) latcol' loncol'
      = Raise (mk_exn KeyError msg).
Proof.
  intros H.
  apply process_assets_inv in H
    as (jc & ix & jlat & jlon & gs & _ & Hix & _ & _ & _ & ->).
  cbn [frame]. unfold process_assets, get_loc.
  rewrite positions_absent; [eexists; reflexivity|].
  rewrite labels_astype. unfold with_geometry, labels at 1.
  cbn [columns]. rewrite map_app. intros Hin.
  apply in_app_or in Hin as [Hin|Hin].
  - apply (labels_selected_in df jc ix _ Hix) in Hin.
    vm_compute in Hin. intuition discriminate.
  - cbn in Hin. intuition discriminate.
Qed.

(** X5.  On a table without rows whose columns are the mapped source
    columns (each once, no target name taken) [process_assets] returns:
    the result has no rows and the fourteen output columns. *)
Theorem process_assets_empty_input (df : DataFrame) :
  clean_labels (labels df) = true ->
  comparable_dtype (col_dtype df "gis_latitude") = true ->
  comparable_dtype (col_dtype df "gis_longitude") = true ->
  rows df = [] ->
  exists g,
    process_assets' df "GIS Latitude" "GIS Longitude" = Ok g /\
    rows (frame g) = [] /\
    labels (frame g) = values ast_cols ++ ["geometry"].
Proof.
  intros Hc Hlat Hlon Hrows.
  destruct (clean_labels_pair _ "asset_category" "Category - Classification"
              Hc) as (Hc1 & _); [vm_compute; tauto|].
  destruct (clean_labels_pair _ "gis_latitude" "GIS Latitude" Hc)
    as (Hc2 & _); [vm_compute; tauto|].
  destruct (clean_labels_pair _ "gis_longitude" "GIS Longitude" Hc)
    as (Hc3 & _); [vm_compute; tauto|].
  apply count_label_1 in Hc1 as (pc & Hpc).
  apply count_label_1 in Hc2 as (plat & Hplat).
  apply count_label_1 in Hc3 as (plon & Hplon).
  unfold col_dtype in Hlat, Hlon. rewrite Hplat in Hlat. rewrite Hplon in Hlon.
  destruct (process_assets_returns repr_float repr_int str_stamp wkt
              df pc plat plon Hc Hpc Hplat Hplon Hlat Hlon)
    as (g & Hg & Hidx).
  { rewrite Hrows. intros r []. }
  exists g. split; [exact Hg|]. split.
  - rewrite Hrows in Hidx. cbn in Hidx. eapply map_eq_nil; exact Hidx.
  - apply process_assets_inv in Hg
      as (jc & ix & jlat & jlon & gs & _ & Hix & _ & _ & _ & ->).
    cbn [frame]. rewrite labels_astype. unfold with_geometry, labels at 1.
    cbn [columns]. rewrite map_app. f_equal.
    destruct (clean_indexer _ Hc) as (ix' & Hix' & HF).
    rewrite Hix in Hix'. inversion Hix'; subst ix'.
    exact (clean_selected_labels df jc ix Hc HF).
Qed.

End TransformErrors.

Lemma process_assets_without_category_witness :
  exists msg,
    process_assets_shown uncategorised_frame "GIS Latitude" "GIS Longitude"
      = Raise (mk_exn KeyError msg).
Proof.
  apply (process_assets_without_category show_Q show_Z show_Z show_geometry
           uncategorised_frame).
  vm_compute. intuition discriminate.
Defined.

Lemma process_assets_missing_column_witness :
  exists msg,
    process_assets_shown no_campsite_frame "GIS Latitude" "GIS Longitude"
      = Raise (mk_exn KeyError msg).
Proof.
  apply (process_assets_missing_column show_Q show_Z show_Z show_geometry
           no_campsite_frame "GIS Latitude" "GIS Longitude"
           "campsite_number" "Campsite Number").
  - vm_compute; reflexivity.
  - vm_compute; tauto.
  - vm_compute; intuition discriminate.
  - vm_compute; intuition discriminate.
Defined.

Lemma process_assets_object_columns_text_witness :
  exists g o v,
    process_assets_shown scenario_frame "GIS Latitude" "GIS Longitude" = Ok g /\
    nth_error (rows (frame g)) 0 = Some o /\
    nth_error (cells o) 7 = Some v /\
    exists s, v = Str s.
Proof.
  eexists; eexists; eexists.
  split; [vm_compute; reflexivity|].
  split; [vm_compute; reflexivity|].
  split; [vm_compute; reflexivity|].
  eapply (process_assets_object_columns_text show_Q show_Z show_Z
            show_geometry scenario_frame "GIS Latitude" "GIS Longitude"
            _ _ 7%nat).
  - vm_compute; reflexivity.
  - vm_compute; left; reflexivity.
  - vm_compute; reflexivity.
  - reflexivity.
  - vm_compute; reflexivity.
Defined.

Lemma process_assets_not_repeatable_witness :
  exists g msg,
    process_assets_shown scenario_frame "GIS Latitude" "GIS Longitude" = Ok g /\
    process_assets_shown (frame g) "GIS Latitude" "GIS Longitude"
      = Raise (mk_exn KeyError msg).
Proof.
  destruct (process_assets_not_repeatable show_Q show_Z show_Z show_geometry
              scenario_frame "GIS Latitude" "GIS Longitude"
              "GIS Latitude" "GIS Longitude" _ eq_refl) as (msg & H).
  eexists; exists msg. split; [reflexivity|exact H].
Defined.

Lemma process_assets_empty_input_witness :
  exists g,
    process_assets_shown empty_source_frame "GIS Latitude" "GIS Longitude"
      = Ok g /\
    rows (frame g) = [] /\
    labels (frame g) = values ast_cols ++ ["geometry"].
Proof.
  apply (process_assets_empty_input show_Q show_Z show_Z show_geometry
           empty_source_frame); vm_compute; reflexivity.
Defined.

(* ===================================================================== *)
(** * The trail transformer *)
(* ===================================================================== *)

(** ** A rename mapping applied to the columns it expects *)

Section CleanMapping.

Variable m : list (string * string).
Hypothesis m_keys : NoDup (keys m).
Hypothesis m_values : NoDup (values m).

Lemma clean_for_pair (ls : list string) (k v : string) :
  clean_for m ls = true -> In (k, v) m ->
  count_label k ls = 1%nat /\ count_label v ls = 0%nat.
Proof.
  unfold clean_for. rewrite forallb_forall. intros H Hin.
  specialize (H _ Hin). cbn [fst snd] in H.
  apply andb_prop in H as [H1 H2].
  apply Nat.eqb_eq in H1, H2. split; assumption.
Qed.

Lemma positions_renamed_for (ls : list string) (k v : string) :
  clean_for m ls = true -> In (k, v) m ->
  positions v (map (rename_label m) ls) = positions k ls.
Proof.
  intros Hc Hin. unfold positions. apply positions_from_map.
  intros l Hl. split.
  - intros E. destruct (rename_label_target m l k v m_values Hin E)
      as [->|Hlk]; [|exact Hlk].
    exfalso. destruct (clean_for_pair _ _ _ Hc Hin) as [_ H0].
    exact (count_label_0 _ _ H0 Hl).
  - intros ->. unfold rename_label.
    rewrite (In_lookup _ _ _ m_keys Hin); reflexivity.
Qed.

Lemma clean_indexer_for (ls : list string) (m' : list (string * string)) :
  clean_for m ls = true -> incl m' m ->
  exists ix,
    get_indexer_for (values m') (map (rename_label m) ls) = Ok ix /\
    Forall2 (fun kv i => positions (fst kv) ls = [i]) m' ix.
Proof.
  intros Hc. induction m' as [|[k v] t IH]; intros Hincl.
  - exists []; split; [reflexivity | constructor].
  - destruct IH as (rest & Hrest & HF).
    { intros x Hx; apply Hincl; right; exact Hx. }
    assert (Hin : In (k, v) m) by (apply Hincl; left; reflexivity).
    destruct (clean_for_pair _ _ _ Hc Hin) as [H1 _].
    apply count_label_1 in H1 as (p & E).
    exists (p :: rest). split.
    + cbn [values map snd get_indexer_for].
      rewrite (positions_renamed_for _ _ _ Hc Hin), E.
      fold (values t). rewrite Hrest. reflexivity.
    + constructor; [exact E | exact HF].
Qed.

Lemma renamed_column (df : DataFrame) (k v : string) (i : nat) :
  In (k, v) m -> positions k (labels df) = [i] ->
  nth i (columns (rename m df)) no_column
    = mk_column v (dt (nth i (columns df) no_column)).
Proof.
  intros Hin Hi.
  assert (Hp : nth_error (labels df) i = Some k).
  { apply positions_spec. rewrite Hi; left; reflexivity. }
  unfold labels in Hp. rewrite nth_error_map in Hp.
  destruct (nth_error (columns df) i) as [c|] eqn:Ec; [|discriminate].
  inversion Hp as [Hk].
  unfold rename; cbn [columns].
  erewrite nth_error_nth; [|apply map_nth_error; exact Ec].
  rewrite (nth_error_nth _ _ _ Ec).
  unfold rename_label. rewrite Hk, (In_lookup _ _ _ m_keys Hin); reflexivity.
Qed.

Lemma take_renamed_labels (df : DataFrame) (ix : list nat)
      (m' : list (string * string)) :
  incl m' m ->
  Forall2 (fun kv i => positions (fst kv) (labels df) = [i]) m' ix ->
  labels (take ix (rename m df)) = values m'.
Proof.
  intros Hincl HF. unfold take, labels at 1; cbn [columns]. rewrite map_map.
  induction HF as [|[k v] i t ix' Hi _ IH]; [reflexivity|].
  cbn [map values snd]. f_equal.
  - cbn [fst] in Hi. rewrite (renamed_column df k v i); [reflexivity| |exact Hi].
    apply Hincl; left; reflexivity.
  - apply IH. intros x Hx; apply Hincl; right; exact Hx.
Qed.

End CleanMapping.

(** ** Positions in a list of distinct labels *)

Lemma positions_from_absent (l : string) (ls : list string) (i : nat) :
  ~ In l ls -> positions_from i l ls = [].
Proof.
  revert i; induction ls as [|x t IH]; intros i H; simpl; [reflexivity|].
  destruct (String.eqb_spec x l) as [->|_].
  - exfalso; apply H; left; reflexivity.
  - apply IH. intros Hin; apply H; right; exact Hin.
Qed.

Lemma positions_from_NoDup (ls : list string) (i j : nat) (l : string) :
  NoDup ls -> nth_error ls j = Some l -> positions_from i l ls = [(i + j)%nat].
Proof.
  revert i j; induction ls as [|x t IH]; intros i j Hnd Hj.
  - destruct j; discriminate.
  - inversion Hnd as [|? ? Hx Hnd']; subst. destruct j as [|j]; simpl in *.
    + inversion Hj; subst. rewrite String.eqb_refl, Nat.add_0_r.
      rewrite positions_from_absent by exact Hx. reflexivity.
    + destruct (String.eqb_spec x l) as [->|_].
      * exfalso; apply Hx. eapply nth_error_In; exact Hj.
      * rewrite (IH (S i) j Hnd' Hj). f_equal; lia.
Qed.

Lemma positions_NoDup (ls : list string) (j : nat) (l : string) :
  NoDup ls -> nth_error ls j = Some l -> positions l ls = [j].
Proof. intros Hnd Hj. exact (positions_from_NoDup ls 0 j l Hnd Hj). Qed.

Lemma NoDup_label_inj (cols : list column) (j : nat) (c c' : column) :
  NoDup (map label cols) -> nth_error cols j = Some c -> In c' cols ->
  label c' = label c -> c' = c.
Proof.
  intros Hnd Hj Hin Hl. apply In_nth_error in Hin as (j' & Hj').
  assert (E : j' = j).
  { apply (proj1 (NoDup_nth_error (map label cols)) Hnd).
    - apply nth_error_Some. rewrite (map_nth_error label _ _ Hj'). discriminate.
    - rewrite (map_nth_error label _ _ Hj'), (map_nth_error label _ _ Hj), Hl.
      reflexivity. }
  subst j'. congruence.
Qed.

(** Which columns the closing [astype] converts, on distinct labels: the
    ones of dtype object. *)
Lemma object_mem_dtype (df : DataFrame) (j : nat) (c : column) :
  NoDup (labels df) -> nth_error (columns df) j = Some c ->
  mem (label c) (object_labels df) = dtype_eqb (dt c) Object.
Proof.
  intros Hnd Hj. unfold mem, object_labels.
  destruct (dtype_eqb (dt c) Object) eqn:Ed.
  - apply existsb_exists. exists (label c). split; [|apply String.eqb_refl].
    apply in_map, filter_In. split; [eapply nth_error_In; exact Hj | exact Ed].
  - apply not_true_is_false. intros H.
    apply existsb_exists in H as (l & Hl & El). apply String.eqb_eq in El.
    apply in_map_iff in Hl as (c' & Hc' & Hin). apply filter_In in Hin as [Hin Hd].
    assert (c' = c) by (eapply NoDup_label_inj; eauto; congruence).
    subst c'. congruence.
Qed.

Lemma map_at_length {A} (n : nat) (f : A -> A) (l : list A) :
  List.length (map_at n f l) = List.length l.
Proof.
  revert n; induction l as [|x t IH]; intros [|n]; simpl; auto.
Qed.

Lemma nth_map_at {A} (n j : nat) (f : A -> A) (l : list A) (d : A) :
  (j < List.length l)%nat ->
  nth j (map_at n f l) d = if Nat.eqb j n then f (nth j l d) else nth j l d.
Proof.
  revert n j; induction l as [|x t IH]; intros n j Hj; [simpl in Hj; lia|].
  destruct n as [|n], j as [|j]; simpl; try reflexivity.
  - apply IH. simpl in Hj; lia.
Qed.

Section TrailFacts.

Variable repr_float : Q -> string.
Variable repr_int : Z -> string.
Variable str_stamp : Z -> string.
Variable wkt : geometry -> string.
Variable reproject : string -> Z -> geometry -> geometry.

Abbreviation process_trails' :=
  (process_trails repr_float repr_int str_stamp wkt reproject).

Lemma NoDup_trl_keys : NoDup (keys trl_cols).
Proof. repeat constructor; simpl; intuition discriminate. Qed.

Lemma NoDup_trl_values : NoDup (values trl_cols).
Proof. repeat constructor; simpl; intuition discriminate. Qed.

(** X6.  When a pair of the trail mapping has neither its source nor its
    target name among the columns, [process_trails] raises [KeyError] at
    the column selection. *)
Theorem process_trails_missing_column (gdf : GeoDataFrame) (k v : string) :
  In (k, v) trl_cols ->
  ~ In k (labels (frame gdf)) -> ~ In v (labels (frame gdf)) ->
  exists msg, process_trails' gdf = Raise (mk_exn KeyError msg).
Proof.
  intros Hin Hk Hv. unfold process_trails, getitem_list.
  rewrite labels_rename.
  destruct (get_indexer_for_missing (values trl_cols)
              (map (rename_label trl_cols) (labels (frame gdf))) v)
    as (msg & ->).
  - apply (in_map snd) in Hin. exact Hin.
  - apply (renamed_absent trl_cols _ k v); auto. apply NoDup_trl_values.
  - exists msg; reflexivity.
Qed.

(** X7.  On a trail frame as [read_trails] delivers it (active geometry
    column [wkb_geometry], a CRS set) whose columns are the mapped source
    columns, [process_trails] returns: the output columns are the values
    of the mapping in their declared order, [geometry] last and active,
    every row is kept in its order, and the CRS is EPSG:4326. *)
Theorem process_trails_returns (gdf : GeoDataFrame) :
  clean_for trl_cols (labels (frame gdf)) = true ->
  geometry_name gdf = "wkb_geometry" ->
  col_dtype (frame gdf) "wkb_geometry" = GeometryDtype ->
  crs gdf <> EmptyString ->
  exists g,
    process_trails' gdf = Ok g /\
    labels (frame g) = values trl_cols /\
    map idx (rows (frame g)) = map idx (rows (frame gdf)) /\
    geometry_name g = "geometry" /\
    crs g = "EPSG:4326".
Proof.
  intros Hc Hname Hdt Hcrs.
  destruct (clean_indexer_for trl_cols NoDup_trl_keys NoDup_trl_values
              _ trl_cols Hc (incl_refl _)) as (ix & Hix & HF).
  pose proof (take_renamed_labels trl_cols NoDup_trl_keys (frame gdf) ix
                trl_cols (incl_refl _) HF) as Hlab.
  unfold process_trails, getitem_list. rewrite labels_rename, Hix.
  cbn [Py.bind]. rewrite Hname.
  change (negb ("wkb_geometry" =? "wkb_geometry")%string) with false.
  cbv iota.
  unfold set_geometry. cbn [frame]. rewrite Hlab.
  change (positions "geometry" (values trl_cols)) with [14%nat].
  destruct (Forall2_nth_error _ _ _ 14%nat _ HF eq_refl) as (i & Hi & Hp).
  cbn [fst] in Hp.
  assert (Hgeo : dt (nth 14 (columns (take ix (rename trl_cols (frame gdf))))
                        no_column) = GeometryDtype).
  { unfold take; cbn [columns].
    erewrite nth_error_nth; [|apply map_nth_error; exact Hi].
    rewrite (renamed_column trl_cols NoDup_trl_keys (frame gdf)
               "wkb_geometry" "geometry" i); [|vm_compute; tauto|exact Hp].
    cbn [dt]. unfold col_dtype in Hdt. rewrite Hp in Hdt. exact Hdt. }
  rewrite Hgeo. cbn [Py.bind crs].
  unfold to_crs. cbn [frame geometry_name crs]. rewrite Hlab.
  change (positions "geometry" (values trl_cols)) with [14%nat].
  destruct (String.eqb_spec (crs gdf) EmptyString) as [E|_]; [contradiction|].
  cbn [Py.bind frame geometry_name crs].
  eexists. split; [reflexivity|]. cbn [frame geometry_name crs].
  split; [|split; [|split; [reflexivity | vm_compute; reflexivity]]].
  - rewrite labels_astype. exact Hlab.
  - unfold astype_str_objects, take. cbn [rows].
    rewrite !map_map. cbn [idx take_row]. reflexivity.
Qed.

Lemma process_trails_inv (gdf g : GeoDataFrame) :
  process_trails' gdf = Ok g ->
  clean_for trl_cols (labels (frame gdf)) = true ->
  exists ix,
    Forall2 (fun kv i => positions (fst kv) (labels (frame gdf)) = [i])
            trl_cols ix /\
    let sel := take ix (rename trl_cols (frame gdf)) in
    labels sel = values trl_cols /\
    dt (nth 14 (columns sel) no_column) = GeometryDtype /\
    g = mk_geoframe
          (astype_str_objects repr_float repr_int str_stamp wkt
             (mk_frame (columns sel)
                (map (fun r =>
                        mk_row (idx r)
                          (map_at 14
                             (reproject_cell reproject (crs gdf) 4326)
                             (cells r)))
                     (rows sel))))
          "geometry" "EPSG:4326".
Proof.
  intros H Hc.
  destruct (clean_indexer_for trl_cols NoDup_trl_keys NoDup_trl_values
              _ trl_cols Hc (incl_refl _)) as (ix & Hix & HF).
  pose proof (take_renamed_labels trl_cols NoDup_trl_keys (frame gdf) ix
                trl_cols (incl_refl _) HF) as Hlab.
  exists ix. split; [exact HF|]. split; [exact Hlab|].
  cbn zeta.
  unfold process_trails, getitem_list in H.
  rewrite labels_rename, Hix in H. cbn [Py.bind] in H.
  destruct (negb (geometry_name gdf =? "wkb_geometry")%string) eqn:En;
    [discriminate|].
  unfold set_geometry in H. cbn [frame] in H. rewrite Hlab in H.
  change (positions "geometry" (values trl_cols)) with [14%nat] in H.
  cbv beta iota in H.
  destruct (dt (nth 14 (columns (take ix (rename trl_cols (frame gdf))))
                   no_column)) eqn:Ed; try discriminate.
  cbn [Py.bind crs] in H. unfold to_crs in H.
  cbn [frame geometry_name crs] in H. rewrite Hlab in H.
  change (positions "geometry" (values trl_cols)) with [14%nat] in H.
  cbv beta iota in H.
  destruct (String.eqb (crs gdf) EmptyString) eqn:Ec; [discriminate|].
  cbn [Py.bind frame geometry_name crs] in H.
  inversion H. split; reflexivity.
Qed.

Lemma trail_cell (gdf : GeoDataFrame) (ix : list nat) (r : row)
      (f : cell -> cell) (rs : list row) (j : nat) (k v : string) :
  Forall2 (fun kv i => positions (fst kv) (labels (frame gdf)) = [i])
          trl_cols ix ->
  nth_error trl_cols j = Some (k, v) ->
  let sel := take ix (rename trl_cols (frame gdf)) in
  let F := mk_frame (columns sel) rs in
  cell_of
    (astype_str_objects repr_float repr_int str_stamp wkt F) v
    (mk_row (idx r)
       (astype_cells repr_float repr_int str_stamp wkt (object_labels F)
          (columns sel) (map_at 14 f (map (cell_at r) ix))))
  = let x := if Nat.eqb j 14 then f (cell_of (frame gdf) k r)
             else cell_of (frame gdf) k r in
    if dtype_eqb (col_dtype (frame gdf) k) Object
    then Str (py_str repr_float repr_int str_stamp wkt x) else x.
Proof.
  intros HF Hj sel F.
  pose proof (take_renamed_labels trl_cols NoDup_trl_keys (frame gdf) ix
                trl_cols (incl_refl _) HF) as Hlab.
  fold sel in Hlab.
  destruct (Forall2_nth_error _ _ _ j _ HF Hj) as (i & Hi & Hp).
  cbn [fst] in Hp.
  assert (Hlt : (j < List.length ix)%nat).
  { apply nth_error_Some. rewrite Hi; discriminate. }
  assert (Hin : In (k, v) trl_cols) by (eapply nth_error_In; exact Hj).
  assert (Hc : nth_error (columns sel) j
               = Some (mk_column v (dt (nth i (columns (frame gdf))
                                            no_column)))).
  { unfold sel, take; cbn [columns].
    rewrite (map_nth_error _ _ _ Hi).
    rewrite (renamed_column trl_cols NoDup_trl_keys (frame gdf) k v i Hin Hp).
    reflexivity. }
  unfold cell_of. rewrite labels_astype.
  change (labels F) with (labels sel). rewrite Hlab.
  rewrite (positions_NoDup (values trl_cols) j v NoDup_trl_values)
    by (unfold values; rewrite (map_nth_error snd _ _ Hj); reflexivity).
  rewrite Hp. unfold cell_at at 1. cbn [cells].
  rewrite (nth_astype_cells repr_float repr_int str_stamp wkt
             (object_labels F) (columns sel)
             (map_at 14 f (map (cell_at r) ix)) j (Null NaN) no_column).
  - rewrite (nth_error_nth _ _ no_column Hc).
    rewrite (object_mem_dtype F j _); cycle 1.
    { change (labels F) with (labels sel). rewrite Hlab.
      apply NoDup_trl_values. }
    { exact Hc. }
    cbn [label dt]. unfold col_dtype. rewrite Hp.
    rewrite nth_map_at by (rewrite length_map; exact Hlt).
    rewrite (nth_error_nth _ _ (Null NaN) (map_nth_error (cell_at r) _ _ Hi)).
    reflexivity.
  - rewrite map_at_length, length_map. unfold sel, take; cbn [columns].
    rewrite length_map; reflexivity.
  - rewrite map_at_length, length_map. exact Hlt.
Qed.

(** X8.  What [process_trails] does to the values: the row at each
    position of the output is the row at that position of the input, its
    geometry reprojected from the frame's CRS to EPSG:4326 (a missing
    geometry stays missing) and every other mapped value either unchanged
    or, in a column of dtype object, replaced by its [str()]. *)
Theorem process_trails_values (gdf g : GeoDataFrame) (n : nat) (r : row) :
  process_trails' gdf = Ok g ->
  clean_for trl_cols (labels (frame gdf)) = true ->
  nth_error (rows (frame gdf)) n = Some r ->
  exists o,
    nth_error (rows (frame g)) n = Some o /\
    idx o = idx r /\
    cell_of (frame g) "geometry" o
      = reproject_cell reproject (crs gdf) 4326
          (cell_of (frame gdf) "wkb_geometry" r) /\
    forall k v,
      In (k, v) trl_cols -> v <> "geometry" ->
      cell_of (frame g) v o
        = if dtype_eqb (col_dtype (frame gdf) k) Object
          then Str (py_str repr_float repr_int str_stamp wkt
                           (cell_of (frame gdf) k r))
          else cell_of (frame gdf) k r.
Proof.
  intros H Hc Hr.
  destruct (process_trails_inv gdf g H Hc) as (ix & HF & Hlab & Hgeo & ->).
  cbn zeta in Hlab, Hgeo. clear H. cbn [frame].
  set (f := reproject_cell reproject (crs gdf) 4326).
  unfold astype_str_objects at 1. cbn [rows columns take rename].
  rewrite !map_map. rewrite (map_nth_error _ _ _ Hr).
  eexists. split; [reflexivity|]. cbn [idx cells take_row].
  split; [reflexivity|]. split.
  - rewrite (trail_cell gdf ix r f _ 14 "wkb_geometry" "geometry" HF eq_refl).
    cbn zeta.
    destruct (Forall2_nth_error _ _ _ 14%nat _ HF eq_refl) as (i & Hi & Hp).
    cbn [fst] in Hp.
    assert (Hd : col_dtype (frame gdf) "wkb_geometry" = GeometryDtype).
    { unfold col_dtype. rewrite Hp. rewrite <- Hgeo.
      unfold take; cbn [columns].
      rewrite (nth_error_nth _ _ no_column (map_nth_error _ _ _ Hi)).
      rewrite (renamed_column trl_cols NoDup_trl_keys (frame gdf)
                 "wkb_geometry" "geometry" i); [reflexivity| |exact Hp].
      vm_compute; tauto. }
    rewrite Hd. reflexivity.
  - intros k v Hin Hv. apply In_nth_error in Hin as (j & Hj).
    rewrite (trail_cell gdf ix r f _ j k v HF Hj). cbn zeta.
    destruct (Nat.eqb_spec j 14) as [->|_]; [|reflexivity].
    exfalso. apply Hv. cbn in Hj. inversion Hj; reflexivity.
Qed.

End TrailFacts.

Lemma process_trails_missing_column_witness :
  exists msg, process_trails_shown no_surface_frame
              = Raise (mk_exn KeyError msg).
Proof.
  apply (process_trails_missing_column show_Q show_Z show_Z show_geometry
           sample_reproject no_surface_frame "trail_surface" "Trail Surface").
  - vm_compute; tauto.
  - vm_compute; intuition discriminate.
  - vm_compute; intuition discriminate.
Defined.

Lemma process_trails_returns_witness :
  exists g,
    process_trails_shown trails_frame = Ok g /\
    labels (frame g) = values trl_cols /\
    map idx (rows (frame g)) = map idx (rows (frame trails_frame)) /\
    geometry_name g = "geometry" /\
    crs g = "EPSG:4326".
Proof.
  apply (process_trails_returns show_Q show_Z show_Z show_geometry
           sample_reproject trails_frame);
    try (vm_compute; reflexivity).
  vm_compute; discriminate.
Defined.

Lemma process_trails_values_witness :
  let r := trail_row 0 "Elfin Lakes"
             (Geo (LineString [(1200000, 500000); (1200100, 500050)])) in
  exists g,
    process_trails_shown trails_frame = Ok g /\
    exists o,
      nth_error (rows (frame g)) 0 = Some o /\
      idx o = idx r /\
      cell_of (frame g) "geometry" o
        = reproject_cell sample_reproject (crs trails_frame) 4326
            (cell_of (frame trails_frame) "wkb_geometry" r) /\
      forall k v,
        In (k, v) trl_cols -> v <> "geometry" ->
        cell_of (frame g) v o
          = if dtype_eqb (col_dtype (frame trails_frame) k) Object
            then Str (py_str show_Q show_Z show_Z show_geometry
                             (cell_of (frame trails_frame) k r))
            else cell_of (frame trails_frame) k r.
Proof.
  intros r. eexists. split; [vm_compute; reflexivity|].
  apply (process_trails_values show_Q show_Z show_Z show_geometry
           sample_reproject trails_frame _ 0%nat r);
    [vm_compute; reflexivity | vm_compute; reflexivity | reflexivity].
Defined.

(* ===================================================================== *)
(** * The database manager over several calls *)
(* ===================================================================== *)

Section ManagerFacts.

Import Postgres.

Variable driver : Driver.

Lemma frames_refl (s : state) : frames s s.
Proof. split; [reflexivity|]. exists []. rewrite app_nil_r; reflexivity. Qed.

Lemma frames_trans (a b c : state) : frames a b -> frames b c -> frames a c.
Proof.
  intros [H1 (m1 & E1)] [H2 (m2 & E2)]. split; [congruence|].
  exists (m1 ++ m2). rewrite E2, E1, app_assoc. reflexivity.
Qed.

Lemma frames_logging (l : level) (msg : string) (s : state) :
  frames s (fst (logging l msg s)).
Proof. split; [reflexivity|]. eexists; reflexivity. Qed.

Lemma frames_connect (s : state) : frames s (fst (connect driver s)).
Proof.
  unfold connect, try_except, pbind, get, lift.
  destruct (pg_connect driver _ _ _ _ _) as [c|e]; cbn [call].
  - split; [reflexivity|]. eexists; reflexivity.
  - cbv beta iota. destruct (isinstance e OperationalError).
    + split; [reflexivity|]. eexists; reflexivity.
    + apply frames_refl.
Qed.

Lemma frames_create_cursor (s : state) :
  frames s (fst (create_cursor driver s)).
Proof.
  unfold create_cursor, pbind, get.
  destruct (connection (self s)) as [c|]; [|apply frames_logging].
  unfold try_except, pbind, lift.
  destruct (conn_cursor driver c) as [k|e]; cbn [call].
  - split; [reflexivity|]. eexists; reflexivity.
  - cbv beta iota. destruct (isinstance e DatabaseError).
    + split; [reflexivity|]. eexists; reflexivity.
    + apply frames_refl.
Qed.

Lemma frames_disconnect (s : state) :
  frames s (fst (disconnect driver s)).
Proof.
  unfold disconnect, pbind, get.
  destruct (connection (self s)) as [c|]; [|apply frames_logging].
  unfold try_finally, try_except, pbind, lift.
  destruct (conn_close driver c) as [[]|e]; cbn [call].
  - split; [reflexivity|]. eexists; reflexivity.
  - cbv beta iota. destruct (isinstance e DatabaseError).
    + split; [reflexivity|]. eexists; reflexivity.
    + split; [reflexivity|]. exists []. cbn. rewrite app_nil_r; reflexivity.
Qed.

(** X9.  Whatever sequence of [connect], [create_cursor] and
    [disconnect] is called on a manager, and whatever the driver answers,
    the connection parameters given to the constructor are never changed
    and no log record is ever removed or altered. *)
Theorem manager_credentials_kept (ms : list pg_method) (s : state) :
  credentials (self (fst (run_methods driver ms s))) = credentials (self s)
  /\ exists more,
       records (fst (run_methods driver ms s)) = records s ++ more.
Proof.
  change (frames s (fst (run_methods driver ms s))).
  revert s. induction ms as [|m t IH]; intros s; [apply frames_refl|].
  cbn [run_methods]. unfold pbind at 1.
  assert (Hm : frames s (fst (run_method driver m s))).
  { destruct m; cbn [run_method].
    - unfold pbind. pose proof (frames_connect s) as H.
      destruct (connect driver s) as [s1 [a|e|]]; exact H.
    - apply frames_create_cursor.
    - apply frames_disconnect. }
  destruct (run_method driver m s) as [s1 [[]|e|]]; cbn [fst] in Hm.
  - eapply frames_trans; [exact Hm | apply IH].
  - exact Hm.
  - exact Hm.
Qed.

Lemma connect_returned (s : state) (c : conn_handle) :
  pg_connect driver (dbname (self s)) (user (self s)) (password (self s))
             (host (self s)) (port (self s)) = Returned c ->
  connect driver s
  = (mk_state (mk_manager (dbname (self s)) (user (self s))
                          (password (self s)) (host (self s))
                          (port (self s)) (Some c) (cursor (self s)))
              (records s
               ++ [mk_record INFO
                     "..Postgres connection established successfully."]),
     Ok (Some c)).
Proof.
  intros H. unfold connect, try_except, pbind, get, lift. rewrite H.
  reflexivity.
Qed.

Lemma connect_raised (s : state) (e : exn) :
  pg_connect driver (dbname (self s)) (user (self s)) (password (self s))
             (host (self s)) (port (self s)) = Raised e ->
  connect driver s
  = if isinstance e OperationalError
    then (mk_state (mk_manager (dbname (self s)) (user (self s))
                               (password (self s)) (host (self s))
                               (port (self s)) None (cursor (self s)))
                   (records s
                    ++ [mk_record ERROR
                          (String.append "..error connecting to database: "
                                         (exn_str e))]),
          Ok None)
    else (s, Raise e).
Proof.
  intros H. unfold connect, try_except, pbind, get, lift. rewrite H.
  cbn [call]. cbv beta iota.
  destruct (isinstance e OperationalError); reflexivity.
Qed.

Lemma create_cursor_connected (s : state) (c : conn_handle) :
  connection (self s) = Some c ->
  create_cursor driver s
  = let m := self s in
    match conn_cursor driver c with
    | Returned k =>
        (mk_state (mk_manager (dbname m) (user m) (password m) (host m)
                              (port m) (connection m) (Some k))
                  (records s
                   ++ [mk_record INFO "..cursor created successfully."]),
         Ok tt)
    | Raised e =>
        if isinstance e DatabaseError
        then (mk_state (mk_manager (dbname m) (user m) (password m)
                                   (host m) (port m) (connection m) None)
                       (records s
                        ++ [mk_record ERROR
                              (String.append "..error creating cursor: "
                                             (exn_str e))]),
              Ok tt)
        else (s, Raise e)
    end.
Proof.
  intros H. unfold create_cursor, pbind at 1, get.
  destruct (connection (self s)) as [c'|] eqn:E; inversion H; subst c'.
  unfold try_except, pbind, lift, set_cursor, logging, modify.
  destruct (conn_cursor driver c) as [k|e]; cbn [call]; cbv beta iota zeta.
  - cbn [self records]. rewrite E. reflexivity.
  - destruct (isinstance e DatabaseError); cbn [self records]; rewrite ?E;
      reflexivity.
Qed.

(** X10.  [connect] followed by [create_cursor]: when the driver refuses
    the connection with an [OperationalError] both calls return, the
    second one only warns and asks the driver for nothing; when the
    connection is made the cursor is the driver's, or null with an error
    logged when the driver raises a [DatabaseError]; an exception of
    another class leaves the method it occurs in. *)
Theorem connect_then_create_cursor (s : state) :
  let m := self s in
  let run := (connect driver >> create_cursor driver) s in
  let at_ c k recs :=
    mk_state (mk_manager (dbname m) (user m) (password m) (host m) (port m)
                         c k)
             (records s ++ recs) in
  match pg_connect driver (dbname m) (user m) (password m) (host m)
                   (port m) with
  | Raised e =>
      if isinstance e OperationalError
      then run = (at_ None (cursor m)
                      [mk_record ERROR
                         (String.append "..error connecting to database: "
                                        (exn_str e));
                       mk_record WARNING "..no active connection."],
                  Ok tt)
      else run = (s, Raise e)
  | Returned c =>
      let made :=
        mk_record INFO "..Postgres connection established successfully." in
      match conn_cursor driver c with
      | Returned k =>
          run = (at_ (Some c) (Some k)
                     [made; mk_record INFO "..cursor created successfully."],
                 Ok tt)
      | Raised e =>
          if isinstance e DatabaseError
          then run = (at_ (Some c) None
                          [made;
                           mk_record ERROR
                             (String.append "..error creating cursor: "
                                            (exn_str e))],
                      Ok tt)
          else run = (at_ (Some c) (cursor m) [made], Raise e)
      end
  end.
Proof.
  cbv zeta. unfold pbind.
  destruct (pg_connect driver _ _ _ _ _) as [c|e] eqn:Ec.
  - rewrite (connect_returned s c Ec).
    rewrite (create_cursor_connected _ c) by reflexivity. cbv zeta.
    cbn [self records dbname user password host port connection cursor].
    destruct (conn_cursor driver c) as [k|e].
    + rewrite <- app_assoc. reflexivity.
    + destruct (isinstance e DatabaseError);
        [rewrite <- app_assoc|]; reflexivity.
  - rewrite (connect_raised s e Ec).
    destruct (isinstance e OperationalError); [|reflexivity].
    unfold create_cursor, pbind, get.
    cbn [self records dbname user password host port connection cursor].
    unfold logging, modify.
    cbn [self records dbname user password host port connection cursor].
    rewrite <- app_assoc. reflexivity.
Qed.

End ManagerFacts.

(* ===================================================================== *)
(** * The publisher when something fails *)
(* ===================================================================== *)

Lemma pbind_Raise {S A B} (m : prog S A) (k : A -> prog S B) (s s' : S)
      (e : exn) :
  pbind m k s = (s', Raise e) ->
  m s = (s', Raise e) \/
  exists s1 a, m s = (s1, Ok a) /\ k a s1 = (s', Raise e).
Proof.
  unfold pbind. destruct (m s) as [s1 [a|e1|]]; intros H.
  - right; eauto.
  - left. inversion H; reflexivity.
  - discriminate.
Qed.

Lemma try_except_Raise {S A} (body : prog S A)
      (handler : exn -> option (prog S A)) (s s' : S) (e : exn) :
  try_except body handler s = (s', Raise e) ->
  (body s = (s', Raise e) /\ handler e = None) \/
  exists s1 e1 h, body s = (s1, Raise e1) /\ handler e1 = Some h /\
                  h s1 = (s', Raise e).
Proof.
  unfold try_except. destruct (body s) as [s1 [a|e1|]]; intros H;
    try discriminate.
  destruct (handler e1) as [h|] eqn:E.
  - right. exists s1, e1, h. auto.
  - inversion H; subst. left; auto.
Qed.

Lemma pbind_run {S A B} (m : prog S A) (k : A -> prog S B) (s s1 : S)
      (a : A) :
  m s = (s1, Ok a) -> pbind m k s = k a s1.
Proof. unfold pbind; intros ->; reflexivity. Qed.

Lemma pbind_run_Raise {S A B} (m : prog S A) (k : A -> prog S B) (s s1 : S)
      (e : exn) :
  m s = (s1, Raise e) -> pbind m k s = (s1, Raise e).
Proof. unfold pbind; intros ->; reflexivity. Qed.

Section PublisherFailures.

Import AGO PublishSpec.

Variable platform : Platform.
Variable isoformat : Z -> string.
Variable json_dumps : pyval -> answer string.

Abbreviation connect' := (connect platform).
Abbreviation publish' := (publish_feature_layer platform isoformat json_dumps).
Abbreviation to_geojson' := (_gdf_to_geojson isoformat).

Lemma publish_without_user (gdf : GeoDataFrame) (t n d f : string)
      (s : state) (g : GIS) (df : DataFrame) (gj : pyval) :
  gis (self s) = Some g -> me g = None ->
  fillna_empty (frame gdf) = Ok df ->
  to_geojson' (mk_geoframe (replace_none df) (geometry_name gdf) (crs gdf))
    = Ok gj ->
  let msg := String.append "..error publishing/updating feature layer: "
               "'NoneType' object has no attribute 'username'" in
  publish' gdf t n d f s
  = (logged ERROR msg (logged INFO "..converting data to geojson." s),
     Raise (mk_exn RuntimeError msg)).
Proof.
  intros Hgis Hme Hfill Hgj msg.
  unfold publish_feature_layer, pbind at 1, get. rewrite Hgis.
  unfold pbind at 1, lift at 1. rewrite Hfill.
  unfold pbind at 1. rewrite logging_run.
  unfold pbind at 1, lift at 1. rewrite Hgj.
  unfold try_except. rewrite Hme.
  reflexivity.
Qed.

(** X11.  A login that answers with a session but no user makes
    [connect] log an error and raise [ConnectionError], yet the session
    is stored: a later [publish_feature_layer] is not stopped by the
    not-connected guard.  It prepares the data, fails on the missing user
    before any call to the platform, and raises [RuntimeError]. *)
Theorem publish_after_failed_connect (gdf : GeoDataFrame)
        (t n d f : string) (s : state) (g : GIS) (df : DataFrame)
        (gj : pyval) :
  login platform (host (self s)) (username (self s)) (password (self s))
    = Returned g ->
  me g = None ->
  fillna_empty (frame gdf) = Ok df ->
  to_geojson' (mk_geoframe (replace_none df) (geometry_name gdf) (crs gdf))
    = Ok gj ->
  exists s1 s2 msg,
    connect' s
      = (s1, Raise (mk_exn ConnectionError "Failed to connect to AGOL.")) /\
    gis (self s1) = Some g /\
    records s1
      = records s ++ [mk_record ERROR "..connection to AGOL failed."] /\
    publish' gdf t n d f s1 = (s2, Raise (mk_exn RuntimeError msg)) /\
    msg <> "Not connected to AGOL. Please call connect() first." /\
    calls s2 = calls s /\ store s2 = store s.
Proof.
  intros Hlogin Hme Hfill Hgj.
  eexists; eexists; eexists. split.
  { unfold connect, pbind, get, lift. rewrite Hlogin. cbn [call].
    unfold set_gis, modify. rewrite Hme. reflexivity. }
  split; [reflexivity|]. split; [reflexivity|]. split.
  { apply (publish_without_user gdf t n d f _ g df gj);
      [reflexivity | exact Hme | exact Hfill | exact Hgj]. }
  split; [|split; reflexivity].
  intros E. apply (f_equal String.length) in E. vm_compute in E.
  discriminate.
Qed.

(** X12.  Every way [publish_feature_layer] can raise: the guard for a
    manager without session; an exception of the data preparation, which
    is outside the [try] and leaves as it is, before any call to the
    platform; an exception that is not an instance of [Exception]; and
    otherwise a [RuntimeError] whose message starts with the fixed prefix
    and is the last record logged, at level ERROR. *)
Theorem publish_failure_classified (gdf : GeoDataFrame) (t n d f : string)
        (s s' : state) (e : exn) :
  publish' gdf t n d f s = (s', Raise e) ->
  (gis (self s) = None /\ s' = s /\
   e = mk_exn RuntimeError
         "Not connected to AGOL. Please call connect() first.")
  \/ (calls s' = calls s /\ store s' = store s /\
      (fillna_empty (frame gdf) = Raise e \/
       exists df, fillna_empty (frame gdf) = Ok df /\
                  to_geojson' (mk_geoframe (replace_none df)
                                 (geometry_name gdf) (crs gdf)) = Raise e))
  \/ isinstance e Exception = false
  \/ (exists cause front,
        e = mk_exn RuntimeError
              (String.append "..error publishing/updating feature layer: "
                             cause) /\
        records s' = front ++ [mk_record ERROR (exn_str e)]).
Proof.
  intros H. unfold publish_feature_layer in H.
  unfold pbind at 1, get in H.
  destruct (gis (self s)) as [g|] eqn:Hgis.
  2:{ left. inversion H; subst. auto. }
  right.
  apply pbind_Raise in H as [H|(s1 & df & Hdf & H)].
  { left. unfold lift in H. inversion H; subst. auto. }
  apply lift_Ok in Hdf as [-> Hfill].
  apply pbind_Raise in H as [H|(s1 & [] & Hlog & H)]; [discriminate|].
  rewrite logging_run in Hlog. inversion Hlog; subst s1; clear Hlog.
  apply pbind_Raise in H as [H|(s1 & gj & Hgj & H)].
  { left. unfold lift in H. inversion H; subst.
    split; [reflexivity|]. split; [reflexivity|]. right.
    exists df. split; [exact Hfill | reflexivity]. }
  apply lift_Ok in Hgj as [-> Hgj].
  right.
  apply try_except_Raise in H
    as [[_ Hnone]|(s2 & e1 & h & _ & Hh & Hrun)].
  - left. destruct (isinstance e Exception); [discriminate | reflexivity].
  - right. destruct (isinstance e1 Exception); [|discriminate].
    inversion Hh; subst h; clear Hh.
    rewrite logging_then in Hrun. unfold praise, lift, raise in Hrun.
    inversion Hrun; subst. exists (exn_str e1), (records s2).
    split; reflexivity.
Qed.

Lemma delete_existing_returns (L : list item) :
  (forall items i, exists items',
      delete platform items i true = Returned items') ->
  forall s, exists s', delete_existing platform L s = (s', Ok tt).
Proof.
  intros Hdel. induction L as [|i rest IH]; intros s.
  - eexists; reflexivity.
  - cbn [delete_existing]. destruct (String.eqb (type i) "GeoJson").
    + destruct (Hdel (store s) i) as (items' & Hi).
      unfold pbind at 1. unfold pbind at 1, record_call, modify.
      unfold pbind at 1, get. unfold pbind at 1, lift. cbn [store].
      rewrite Hi. cbn [call]. unfold pbind at 1, set_store, modify.
      rewrite logging_run. apply IH.
    + unfold pbind at 1, ret. apply IH.
Qed.

(** X13.  Nothing is rolled back.  On a lawful platform, when the search
    and the deletions go through and the upload of the new GeoJSON item
    is refused, [publish_feature_layer] raises [RuntimeError] and the
    store is left without any item of that title, type and owner: the
    previous copies are deleted and not replaced. *)
Theorem publish_failed_upload_not_rolled_back (gdf : GeoDataFrame)
        (t n d f : string) (s : state) (g : GIS) (u : string)
        (df : DataFrame) (gj : pyval) (found : list item) (file : string)
        (e0 : exn) :
  lawful platform ->
  gis (self s) = Some g -> me g = Some u ->
  fillna_empty (frame gdf) = Ok df ->
  to_geojson' (mk_geoframe (replace_none df) (geometry_name gdf) (crs gdf))
    = Ok gj ->
  search platform (store s) (search_query t u) "GeoJson" = Returned found ->
  (forall items i, exists items',
      delete platform items i true = Returned items') ->
  json_dumps gj = Returned file ->
  add platform (filter (fun j => negb (matches t u j)) (store s)) g
      (mk_properties t "GeoJson" "BCparks data" d
                     (String.append n ".geojson")) file f = Raised e0 ->
  isinstance e0 Exception = true ->
  exists s',
    publish' gdf t n d f s
      = (s', Raise (mk_exn RuntimeError
                      (String.append
                         "..error publishing/updating feature layer: "
                         (exn_str e0)))) /\
    store s' = filter (fun j => negb (matches t u j)) (store s) /\
    forall i, In i (store s) -> matches t u i = true -> ~ In i (store s').
Proof.
  intros Hlaw Hgis Hme Hfill Hgj Hsearch Hdel Hdump Hadd He0.
  unfold publish_feature_layer, pbind at 1, get. rewrite Hgis.
  unfold pbind at 1, lift at 1. rewrite Hfill.
  unfold pbind at 1. rewrite logging_run.
  unfold pbind at 1, lift at 1. rewrite Hgj.
  set (s0 := logged INFO "..converting data to geojson." s).
  unfold try_except. rewrite Hme.
  erewrite pbind_run by reflexivity.
  erewrite pbind_run by reflexivity.
  erewrite pbind_run by reflexivity.
  unfold search_query in Hsearch.
  erewrite pbind_run
    by (unfold lift; cbn [store s0 logged]; rewrite Hsearch; reflexivity).
  match goal with
  | |- context [pbind (delete_existing _ ?L) _ ?sx] =>
      destruct (delete_existing_returns L Hdel sx) as (sd & Hsd);
      rewrite (pbind_run _ _ _ _ _ Hsd);
      apply (delete_existing_Ok platform Hlaw) in Hsd as (Hst & _ & _)
  end.
  cbn [store s0 logged] in Hst.
  assert (Hstore : store sd
                   = filter (fun j => negb (matches t u j)) (store s)).
  { rewrite Hst. apply filter_ext_in. intros j Hj. f_equal.
    fold (search_query t u) in Hsearch.
    assert (HL : forall i,
               In i (filter is_geojson
                       (filter (fun i => String.eqb (title i) t) found))
               <-> In i (store s) /\ matches t u i = true).
    { intros i. rewrite <- (search_law _ Hlaw _ _ _ _ Hsearch i).
      rewrite !filter_In. unfold is_geojson.
      rewrite !String.eqb_eq. tauto. }
    destruct (matches t u j) eqn:Em.
    + apply existsb_exists. exists j.
      split; [|apply item_eqb_eq; reflexivity].
      apply HL; split; assumption.
    + apply not_true_is_false. intros Ee.
      apply existsb_exists in Ee as (i & Hi & E).
      apply item_eqb_eq in E; subst i.
      apply HL in Hi as [_ Hi]. congruence. }
  erewrite pbind_run
    by (unfold lift; rewrite Hdump; reflexivity).
  erewrite pbind_run by reflexivity.
  erewrite pbind_run by reflexivity.
  erewrite pbind_run_Raise
    by (unfold lift, record_call, modify; cbn [store]; rewrite Hstore, Hadd;
        reflexivity).
  cbv beta iota. rewrite He0. rewrite logging_then.
  eexists. split; [reflexivity|]. cbn [store logged].
  split; [reflexivity|].
  intros i _ Hm Hin.
  apply filter_In in Hin as [_ Hin]. rewrite Hm in Hin. discriminate.
Qed.

End PublisherFailures.

Lemma full_platform_lawful : PublishSpec.lawful full_platform.
Proof.
  constructor.
  - exact (PublishSpec.search_law _ list_platform_lawful).
  - exact (PublishSpec.delete_law _ list_platform_lawful).
  - intros items g props data folder items' it H. discriminate.
  - exact (PublishSpec.publish_law _ list_platform_lawful).
Qed.

Lemma publish_after_failed_connect_witness :
  exists s1 s2 msg,
    AGO.connect anonymous_platform Samples.start
      = (s1, Raise (mk_exn ConnectionError "Failed to connect to AGOL.")) /\
    AGO.gis (AGO.self s1) = Some (AGO.mk_gis None) /\
    AGO.records s1
      = AGO.records Samples.start
        ++ [mk_record ERROR "..connection to AGOL failed."] /\
    AGO.publish_feature_layer anonymous_platform Samples.sample_isoformat
      Samples.sample_json_dumps Samples.one_row_layer AGO.assets_title
      "bcparks_assets_v2" "Point dataset" AGO.parc_folder s1
      = (s2, Raise (mk_exn RuntimeError msg)) /\
    msg <> "Not connected to AGOL. Please call connect() first." /\
    AGO.calls s2 = AGO.calls Samples.start /\
    AGO.store s2 = AGO.store Samples.start.
Proof.
  eapply (publish_after_failed_connect anonymous_platform
            Samples.sample_isoformat Samples.sample_json_dumps
            Samples.one_row_layer AGO.assets_title "bcparks_assets_v2"
            "Point dataset" AGO.parc_folder Samples.start (AGO.mk_gis None));
    vm_compute; reflexivity.
Defined.

Lemma publish_failure_classified_witness :
  let gdf := Samples.one_row_layer in
  let s := Samples.signed_in in
  exists s' e,
    AGO.publish_feature_layer PublishSpec.failing_platform
      Samples.sample_isoformat Samples.sample_json_dumps gdf
      AGO.assets_title "bcparks_assets_v2" "Point dataset" AGO.parc_folder
      s = (s', Raise e) /\
    ((AGO.gis (AGO.self s) = None /\ s' = s /\
      e = mk_exn RuntimeError
            "Not connected to AGOL. Please call connect() first.")
     \/ (AGO.calls s' = AGO.calls s /\ AGO.store s' = AGO.store s /\
         (AGO.fillna_empty (frame gdf) = Raise e \/
          exists df, AGO.fillna_empty (frame gdf) = Ok df /\
                     AGO._gdf_to_geojson Samples.sample_isoformat
                       (mk_geoframe (AGO.replace_none df)
                                    (geometry_name gdf) (crs gdf)) = Raise e))
     \/ isinstance e Exception = false
     \/ (exists cause front,
           e = mk_exn RuntimeError
                 (String.append "..error publishing/updating feature layer: "
                                cause) /\
           AGO.records s' = front ++ [mk_record ERROR (exn_str e)])).
Proof.
  intros gdf s. eexists; eexists. split; [vm_compute; reflexivity|].
  apply (publish_failure_classified PublishSpec.failing_platform
           Samples.sample_isoformat Samples.sample_json_dumps gdf
           AGO.assets_title "bcparks_assets_v2" "Point dataset"
           AGO.parc_folder s).
  vm_compute; reflexivity.
Defined.

Lemma publish_failed_upload_not_rolled_back_witness :
  exists s',
    AGO.publish_feature_layer full_platform Samples.sample_isoformat
      Samples.sample_json_dumps Samples.one_row_layer AGO.assets_title
      "bcparks_assets_v2" "Point dataset" AGO.parc_folder Samples.signed_in
      = (s', Raise (mk_exn RuntimeError
                      (String.append
                         "..error publishing/updating feature layer: "
                         "Storage quota exceeded"))) /\
    AGO.store s'
      = filter (fun j => negb (PublishSpec.matches AGO.assets_title
                                 "parc_admin" j))
               (AGO.store Samples.signed_in) /\
    forall i, In i (AGO.store Samples.signed_in) ->
              PublishSpec.matches AGO.assets_title "parc_admin" i = true ->
              ~ In i (AGO.store s').
Proof.
  eapply (publish_failed_upload_not_rolled_back full_platform
            Samples.sample_isoformat Samples.sample_json_dumps
            Samples.one_row_layer AGO.assets_title "bcparks_assets_v2"
            "Point dataset" AGO.parc_folder Samples.signed_in
            (AGO.mk_gis (Some "parc_admin")) "parc_admin" _ _ _ _
            (mk_exn Exception "Storage quota exceeded")
            full_platform_lawful);
    try (vm_compute; reflexivity).
  intros items i. eexists; reflexivity.
Defined.

(* ===================================================================== *)
(** * The GeoJSON conversion *)
(* ===================================================================== *)

Section GeoJSONFacts.

Import AGO PublishSpec.

Variable isoformat : Z -> string.

Lemma setitem_keys (k k' : string) (v : pyval) (d : list (string * pyval)) :
  In k (map fst (setitem k' v d)) -> k = k' \/ In k (map fst d).
Proof.
  induction d as [|[k0 v0] t IH]; cbn [setitem map fst In].
  - intros [<-|[]]; auto.
  - destruct (String.eqb_spec k0 k') as [->|_]; cbn [map fst In].
    + intros [<-|H]; auto.
    + intros [<-|H]; auto. destruct (IH H); auto.
Qed.

Lemma properties_no_geometry (r : list (string * cell)) :
  forall acc,
    ~ In "geometry" (map fst acc) ->
    ~ In "geometry"
         (map fst
            (fold_left
               (fun d kv =>
                  if String.eqb (fst kv) "geometry" then d
                  else setitem (fst kv) (property_value isoformat (snd kv))
                               d)
               r acc)).
Proof.
  induction r as [|[k c] t IH]; intros acc Hacc; [exact Hacc|].
  cbn [fold_left fst snd]. apply IH.
  destruct (String.eqb_spec k "geometry") as [->|Hne]; [exact Hacc|].
  intros H. apply setitem_keys in H as [H|H]; [congruence | auto].
Qed.

Lemma feature_of_row_shape (r : list (string * cell)) (ft : pyval) :
  feature_of_row isoformat r = Ok ft ->
  exists props gi,
    ft = PDict [("type", PStr "Feature"); ("properties", PDict props);
                ("geometry", gi)] /\
    ~ In "geometry" (map fst props).
Proof.
  unfold feature_of_row. intros H.
  apply bind_Ok in H as (g & _ & H).
  apply bind_Ok in H as (gi & _ & H). inversion H; subst; clear H.
  eexists; eexists; split; [reflexivity|].
  apply properties_no_geometry. intros [].
Qed.

(** X14.  When [_gdf_to_geojson] returns, its value is a
    FeatureCollection with exactly one Feature per row of the frame, in
    row order, and no Feature carries a property named [geometry]. *)
Theorem geojson_one_feature_per_row (gdf : GeoDataFrame) (v : pyval) :
  _gdf_to_geojson isoformat gdf = Ok v ->
  exists features,
    v = PDict [("type", PStr "FeatureCollection");
               ("features", PList features)] /\
    List.length features = shape0 (frame gdf) /\
    Forall (fun ft =>
              exists props gi,
                ft = PDict [("type", PStr "Feature");
                            ("properties", PDict props);
                            ("geometry", gi)] /\
                ~ In "geometry" (map fst props)) features.
Proof.
  unfold _gdf_to_geojson. intros H.
  apply bind_Ok in H as (features & Hf & H). inversion H; subst; clear H.
  exists features. split; [reflexivity|]. split.
  - apply mapM_Ok_length in Hf. rewrite Hf. unfold iterrows, shape0.
    apply length_map.
  - apply mapM_Ok_Forall2 in Hf.
    induction Hf as [|r ft rs fts Hr _ IH]; constructor; [|exact IH].
    exact (feature_of_row_shape r ft Hr).
Qed.

(** X15.  A frame that has rows but no column labelled [geometry] makes
    [_gdf_to_geojson] raise [KeyError] at its first row, whatever the
    active geometry column of the frame is called. *)
Theorem geojson_without_geometry_label (gdf : GeoDataFrame) :
  rows (frame gdf) <> [] ->
  ~ In "geometry" (labels (frame gdf)) ->
  exists msg, _gdf_to_geojson isoformat gdf = Raise (mk_exn KeyError msg).
Proof.
  intros Hrows Hno. unfold _gdf_to_geojson, iterrows.
  destruct (rows (frame gdf)) as [|r rs]; [congruence|].
  cbn [map mapM]. unfold feature_of_row at 1, row_getitem.
  rewrite filter_key_absent.
  - eexists; reflexivity.
  - intros H. apply in_map_iff in H as ([k c] & E & Hin).
    cbn [fst] in E; subst k. apply in_combine_l in Hin. exact (Hno Hin).
Qed.

End GeoJSONFacts.

Lemma geojson_one_feature_per_row_witness :
  exists v features,
    AGO._gdf_to_geojson Samples.sample_isoformat Samples.one_row_layer = Ok v /\
    v = AGO.PDict [("type", AGO.PStr "FeatureCollection");
                   ("features", AGO.PList features)] /\
    List.length features = shape0 (frame Samples.one_row_layer) /\
    Forall (fun ft =>
              exists props gi,
                ft = AGO.PDict [("type", AGO.PStr "Feature");
                                ("properties", AGO.PDict props);
                                ("geometry", gi)] /\
                ~ In "geometry" (map fst props)) features.
Proof.
  eexists.
  destruct (geojson_one_feature_per_row Samples.sample_isoformat
              Samples.one_row_layer _ eq_refl) as (features & H).
  exists features. split; [reflexivity | exact H].
Defined.

Lemma geojson_without_geometry_label_witness :
  exists msg,
    AGO._gdf_to_geojson Samples.sample_isoformat trails_frame
      = Raise (mk_exn KeyError msg).
Proof.
  apply (geojson_without_geometry_label Samples.sample_isoformat trails_frame).
  - vm_compute; discriminate.
  - vm_compute; intuition discriminate.
Defined.

(* ===================================================================== *)
(** * The asset reader when something fails *)
(* ===================================================================== *)

Lemma lift_Raise {S A} (o : outcome A) (s s' : S) (e : exn) :
  lift o s = (s', Raise e) -> s' = s /\ o = Raise e.
Proof. unfold lift; intros H; inversion H; auto. Qed.

Lemma call_Raise {A} (r : answer A) (e : exn) :
  call r = Raise e -> r = Raised e.
Proof. destruct r; simpl; intros H; inversion H; reflexivity. Qed.

Lemma modify_Ok {S} (f : S -> S) (s s' : S) (u : unit) :
  modify f s = (s', Ok u) -> s' = f s.
Proof. unfold modify; intros H; inversion H; reflexivity. Qed.

Section ReaderFailures.

Import Reader.

Variable read_table_names : option Postgres.conn_handle
                            -> answer (list string).
Variable read_sql : sql_select -> option Postgres.conn_handle
                    -> answer DataFrame.
Variable concat : list DataFrame -> answer DataFrame.

Abbreviation read_tables'' := (read_tables read_sql concat).
Abbreviation read_assets'' := (read_assets read_table_names read_sql concat).
Abbreviation line := (String.append "..reading table: ").

Lemma read_tables_Raise (conn : option Postgres.conn_handle)
      (tabs : list string) :
  forall (dict : list (string * DataFrame)) (df : option DataFrame)
         (out out' : list string) (e : exn),
    read_tables'' conn tabs dict df out = (out', Raise e) ->
    exists pre t post,
      tabs = pre ++ t :: post /\
      out' = out ++ map line (pre ++ [t]) /\
      (read_sql (asset_query t) conn = Raised e \/
       (exists d, read_sql (asset_query t) conn = Returned d /\
                  drop_columns ["wkb_geometry"] d = Raise e /\
                  exn_class_of e = KeyError) \/
       exists frames, concat frames = Raised e).
Proof.
  induction tabs as [|t rest IH]; intros dict df out out' e H.
  - discriminate.
  - cbn [read_tables] in H.
    apply pbind_Raise in H as [H|(s1 & [] & Hp & H)]; [discriminate|].
    apply modify_Ok in Hp. subst s1.
    apply pbind_Raise in H as [H|(s1 & d & Hd & H)].
    { apply lift_Raise in H as [-> Hc]. apply call_Raise in Hc.
      exists [], t, rest. split; [reflexivity|]. split; [reflexivity|].
      left. exact Hc. }
    apply lift_Ok in Hd as [-> Hd]. apply call_Ok in Hd.
    apply pbind_Raise in H as [H|(s1 & d' & Hd' & H)].
    { apply lift_Raise in H as [-> Hc].
      exists [], t, rest. split; [reflexivity|]. split; [reflexivity|].
      right; left. exists d. split; [exact Hd|]. split; [exact Hc|].
      unfold drop_columns in Hc.
      destruct (filter _ ["wkb_geometry"]); inversion Hc. reflexivity. }
    apply lift_Ok in Hd' as [-> Hd'].
    apply pbind_Raise in H as [H|(s1 & c & Hc & H)].
    { apply lift_Raise in H as [-> Hc]. apply call_Raise in Hc.
      exists [], t, rest. split; [reflexivity|]. split; [reflexivity|].
      right; right. eexists. exact Hc. }
    apply lift_Ok in Hc as [-> Hc].
    apply IH in H as (pre & t' & post & -> & -> & Hwhy).
    exists (t :: pre), t', post. split; [reflexivity|].
    split; [rewrite <- app_assoc; reflexivity | exact Hwhy].
Qed.

Lemma read_tables_bound (conn : option Postgres.conn_handle)
      (tabs : list string) :
  forall (dict : list (string * DataFrame)) (df : option DataFrame)
         (out out' : list string),
    read_tables'' conn tabs dict df out = (out', Ok None) ->
    tabs = [] /\ df = None /\ out' = out.
Proof.
  induction tabs as [|t rest IH]; intros dict df out out' H.
  - inversion H; auto.
  - exfalso. cbn [read_tables] in H.
    apply pbind_Ok in H as (s1 & [] & _ & H).
    apply pbind_Ok in H as (s2 & d & _ & H).
    apply pbind_Ok in H as (s3 & d' & _ & H).
    apply pbind_Ok in H as (s4 & c & _ & H).
    apply IH in H as (_ & Hc & _). discriminate.
Qed.

(** X16.  Every way [read_assets] can raise: the listing of the tables
    fails, before anything is printed; the schema has no data table and
    the unbound local is returned; or, at some table [t], the query fails,
    the answer has no [wkb_geometry] column to drop (a [KeyError]), or the
    concatenation fails.  In the last case the lines printed are those of
    the tables up to [t] and no later table is read. *)
Theorem read_assets_failure (conn : option Postgres.conn_handle)
        (out out' : list string) (e : exn) :
  read_assets'' conn out = (out', Raise e) ->
  (read_table_names conn = Raised e /\ out' = out) \/
  exists names,
    read_table_names conn = Returned names /\
    ((data_tables names = [] /\ out' = out /\
      exn_class_of e = UnboundLocalError) \/
     exists pre t post,
       data_tables names = pre ++ t :: post /\
       out' = out ++ map line (pre ++ [t]) /\
       (read_sql (asset_query t) conn = Raised e \/
        (exists d, read_sql (asset_query t) conn = Returned d /\
                   drop_columns ["wkb_geometry"] d = Raise e /\
                   exn_class_of e = KeyError) \/
        exists frames, concat frames = Raised e)).
Proof.
  unfold read_assets. intros H.
  apply pbind_Raise in H as [H|(s1 & names & Hn & H)].
  { left. apply lift_Raise in H as [-> Hc]. apply call_Raise in Hc.
    split; [exact Hc | reflexivity]. }
  right. apply lift_Ok in Hn as [-> Hn]. apply call_Ok in Hn.
  exists names. split; [exact Hn|]. fold (data_tables names) in H.
  apply pbind_Raise in H as [H|(s1 & [df|] & Hdf & H)].
  - right. exact (read_tables_Raise _ _ _ _ _ _ _ H).
  - discriminate.
  - left. apply read_tables_bound in Hdf as (Ht & _ & ->).
    apply lift_Raise in H as [-> H]. unfold raise in H.
    inversion H; subst. auto.
Qed.

End ReaderFailures.

Lemma read_assets_failure_witness :
  let line := String.append "..reading table: " in
  exists out' e,
    Reader.read_assets Samples.listed_tables broken_trails_table
      Samples.stacked None [] = (out', Raise e) /\
    ((Samples.listed_tables None = Raised e /\ out' = []) \/
     exists names,
       Samples.listed_tables None = Returned names /\
       ((data_tables names = [] /\ out' = [] /\
         exn_class_of e = UnboundLocalError) \/
        exists pre t post,
          data_tables names = pre ++ t :: post /\
          out' = [] ++ map line (pre ++ [t]) /\
          (broken_trails_table (Reader.asset_query t) None = Raised e \/
           (exists d, broken_trails_table (Reader.asset_query t) None
                      = Returned d /\
                      Reader.drop_columns ["wkb_geometry"] d = Raise e /\
                      exn_class_of e = KeyError) \/
           exists frames, Samples.stacked frames = Raised e))).
Proof.
  intros line. eexists; eexists. split; [vm_compute; reflexivity|].
  apply (read_assets_failure Samples.listed_tables broken_trails_table
           Samples.stacked None []).
  vm_compute; reflexivity.
Defined.

(* ===================================================================== *)
(** * The script's first block *)
(* ===================================================================== *)

Lemma pg_disconnect_clears (driver : Postgres.Driver) (p : Postgres.state) :
  Postgres.connection (Postgres.self (fst (Postgres.disconnect driver p)))
  = None.
Proof.
  destruct (Postgres.connection (Postgres.self p)) as [c|] eqn:E.
  - destruct (disconnect_connected driver p c E) as (p' & r & -> & H & _).
    exact H.
  - destruct (disconnect_not_connected driver p E) as (p' & -> & H).
    exact H.
Qed.

Lemma pg_disconnect_Raise (driver : Postgres.Driver) (p p' : Postgres.state)
      (e : exn) :
  Postgres.disconnect driver p = (p', Raise e) ->
  exists c, Postgres.connection (Postgres.self p) = Some c /\
            Postgres.conn_close driver c = Raised e /\
            isinstance e DatabaseError = false.
Proof.
  intros H. destruct (Postgres.connection (Postgres.self p)) as [c|] eqn:E.
  - destruct (disconnect_connected driver p c E) as (p1 & r & H1 & _ & _ & Hr).
    rewrite H in H1. inversion H1; subst p1 r; clear H1.
    exists c. split; [reflexivity|].
    destruct (Postgres.conn_close driver c) as [u|e1]; [discriminate|].
    destruct (isinstance e1 DatabaseError) eqn:Ei; [discriminate|].
    inversion Hr; subst. auto.
  - destruct (disconnect_not_connected driver p E) as (p1 & H1 & _).
    rewrite H in H1. discriminate.
Qed.

Section ScriptFacts.

Import Script.

Variable driver : Postgres.Driver.
Variable read_table_names : option Postgres.conn_handle
                            -> answer (list string).
Variable read_sql : Reader.sql_select -> option Postgres.conn_handle
                    -> answer DataFrame.
Variable read_postgis : Reader.sql_select -> option Postgres.conn_handle
                        -> string -> answer GeoDataFrame.
Variable concat : list DataFrame -> answer DataFrame.
Variable repr_float : Q -> string.
Variable repr_int : Z -> string.
Variable str_stamp : Z -> string.
Variable wkt : geometry -> string.
Variable reproject : string -> Z -> geometry -> geometry.

Abbreviation database_block' :=
  (database_block driver read_table_names read_sql read_postgis concat
                  repr_float repr_int str_stamp wkt reproject).

(** X17.  However the first block of the script ends, the manager's
    connection handle is null afterwards; and when the block raises, the
    exception is the block's own [Exception] with the prefixed message,
    or is not an instance of [Exception], or was raised by the driver
    while the connection was being closed. *)
Theorem database_block_finally (h p d u w : option string) (s : state) :
  Postgres.connection (Postgres.self (pg (fst (database_block' h p d u w s))))
  = None /\
  forall e,
    snd (database_block' h p d u w s) = Raise e ->
    (exists cause,
        e = mk_exn Exception (String.append "Error occurred: " cause)) \/
    isinstance e Exception = false \/
    (exists c, Postgres.conn_close driver c = Raised e /\
               isinstance e DatabaseError = false).
Proof.
  unfold database_block, try_finally.
  match goal with
  | |- context [let (s', r) := ?body s in _] =>
      destruct (body s) as [s1 r] eqn:Hbody
  end.
  unfold on_pg.
  pose proof (pg_disconnect_clears driver (pg s1)) as Hclear.
  destruct (Postgres.disconnect driver (pg s1)) as [p1 r1] eqn:Hd.
  cbn [fst] in Hclear.
  destruct r1 as [[]|e1|]; cbn [fst snd pg]; (split; [exact Hclear|]);
    intros e He.
  - subst r. apply try_except_Raise in Hbody
      as [[_ Hnone]|(s2 & e2 & hd & _ & Hh & Hrun)].
    + right; left.
      destruct (isinstance e Exception); [discriminate | reflexivity].
    + left. destruct (isinstance e2 Exception); [|discriminate].
      inversion Hh; subst hd; clear Hh.
      apply lift_Raise in Hrun as [_ Hrun]. unfold raise in Hrun.
      inversion Hrun; subst. eexists; reflexivity.
  - inversion He; subst e1; clear He. right; right.
    apply pg_disconnect_Raise in Hd as (c & _ & Hc & Hi).
    exists c; auto.
  - discriminate.
Qed.

Lemma on_pg_run {A} (m : prog Postgres.state A) (s : state)
      (q : Postgres.state) (r : outcome A) :
  m (pg s) = (q, r) -> on_pg m s = (mk_state q (stdout s), r).
Proof. unfold on_pg; intros ->; reflexivity. Qed.

Lemma on_stdout_run {A} (m : prog (list string) A) (s : state)
      (o : list string) (r : outcome A) :
  m (stdout s) = (o, r) -> on_stdout m s = (mk_state (pg s) o, r).
Proof. unfold on_stdout; intros ->; reflexivity. Qed.

(** X18.  When the driver refuses the connection with an
    [OperationalError], the block does not stop there: [connect] has
    returned null, the asset reader is called with that null connection,
    and what the block raises is the reader's failure, wrapped; the
    connection error itself is only logged. *)
Theorem database_block_connect_refused (h p d u w : option string)
        (s : state) (e0 e1 : exn) :
  Postgres.pg_connect driver d u w h p = Raised e0 ->
  isinstance e0 OperationalError = true ->
  read_table_names None = Raised e1 ->
  isinstance e1 Exception = true ->
  database_block' h p d u w s
  = (mk_state
       (Postgres.mk_state (Postgres.init d u w h p)
          (Postgres.records (pg s)
           ++ [mk_record INFO "Connecting to CityWide database";
               mk_record ERROR
                 (String.append "..error connecting to database: "
                                (exn_str e0));
               mk_record INFO
                 (String.append nl "Reading Assets (points) data");
               mk_record WARNING
                 "..no active database connection to close."]))
       (stdout s),
     Raise (mk_exn Exception
              (String.append "Error occurred: " (exn_str e1)))).
Proof.
  intros Hc He0 Hn He1.
  unfold database_block, try_finally, try_except.
  erewrite pbind_run by reflexivity.
  erewrite pbind_run by reflexivity.
  erewrite pbind_run
    by (apply on_pg_run; erewrite connect_raised by exact Hc;
        rewrite He0; reflexivity).
  erewrite pbind_run by reflexivity.
  erewrite pbind_run_Raise
    by (apply on_stdout_run; unfold Reader.read_assets, pbind, lift;
        rewrite Hn; reflexivity).
  rewrite He1. unfold praise, lift, raise.
  unfold on_pg, Postgres.disconnect, pbind, get.
  cbn [pg stdout Postgres.self Postgres.connection Postgres.records
       Postgres.init].
  unfold Postgres.logging, modify.
  cbn [pg stdout Postgres.self Postgres.connection Postgres.records].
  rewrite <- !app_assoc. reflexivity.
Qed.

(** X19.  When every step goes through, the block yields the asset
    transformer's output on what the asset reader returned and the trail
    transformer's output on what the trail reader returned, both readers
    having been given the connection the driver opened; afterwards that
    connection is closed and the manager holds no handle. *)
Theorem database_block_success (h p d u w : option string) (s : state)
        (c : Postgres.conn_handle) (out' : list string) (df : DataFrame)
        (gdf ga gt : GeoDataFrame) :
  Postgres.pg_connect driver d u w h p = Returned c ->
  Reader.read_assets read_table_names read_sql concat (Some c) (stdout s)
    = (out', Ok df) ->
  read_postgis Reader.trails_query (Some c) "wkb_geometry" = Returned gdf ->
  process_assets repr_float repr_int str_stamp wkt df
                 "GIS Latitude" "GIS Longitude" = Ok ga ->
  process_trails repr_float repr_int str_stamp wkt reproject gdf = Ok gt ->
  Postgres.conn_close driver c = Returned tt ->
  exists s',
    database_block' h p d u w s = (s', Ok (ga, gt)) /\
    Postgres.self (pg s') = Postgres.init d u w h p /\
    stdout s' = out'.
Proof.
  intros Hc Hread Htrl Hpa Hpt Hclose.
  unfold database_block, try_finally, try_except.
  erewrite pbind_run by reflexivity.
  erewrite pbind_run by reflexivity.
  erewrite pbind_run
    by (apply on_pg_run; erewrite connect_returned by exact Hc;
        reflexivity).
  erewrite pbind_run by reflexivity.
  erewrite pbind_run by (apply on_stdout_run; exact Hread).
  erewrite pbind_run by reflexivity.
  erewrite pbind_run
    by (apply on_stdout_run; unfold Reader.read_trails, lift;
        rewrite Htrl; reflexivity).
  erewrite pbind_run by reflexivity.
  erewrite pbind_run by (unfold lift; rewrite Hpa; reflexivity).
  erewrite pbind_run by reflexivity.
  erewrite pbind_run by (unfold lift; rewrite Hpt; reflexivity).
  unfold ret.
  unfold on_pg, Postgres.disconnect, pbind at 1, get.
  cbn [pg stdout Postgres.self Postgres.connection Postgres.records
       Postgres.init].
  unfold try_finally, try_except, pbind, lift. rewrite Hclose.
  cbn [call]. unfold Postgres.logging, Postgres.set_connection,
              Postgres.set_cursor, modify.
  cbn [pg stdout Postgres.self Postgres.connection Postgres.records
       Postgres.cursor Postgres.dbname Postgres.user Postgres.password
       Postgres.host Postgres.port Postgres.init].
  eexists. split; [reflexivity|]. split; reflexivity.
Qed.

End ScriptFacts.

(* ===================================================================== *)
(** * The script's second block *)
(* ===================================================================== *)

Section PublishBlockFacts.

Import AGO PublishSpec.

Variable platform : Platform.
Variable isoformat : Z -> string.
Variable json_dumps : pyval -> answer string.

Abbreviation publish_block' :=
  (publish_block platform isoformat json_dumps).

(** X20.  However the publishing block ends, the manager holds no
    session afterwards; and an exception that leaves the block is either
    the block's own [Exception] with the prefixed message or not an
    instance of [Exception]: no [RuntimeError] or [ConnectionError] of
    the manager reaches the caller as such. *)
Theorem publish_block_finally (h u p : option string) (today : string)
        (gdf_ast gdf_trl : GeoDataFrame) (s : state) :
  gis (self (fst (publish_block' h u p today gdf_ast gdf_trl s))) = None /\
  forall e,
    snd (publish_block' h u p today gdf_ast gdf_trl s) = Raise e ->
    (exists cause,
        e = mk_exn Exception (String.append "Error occurred: " cause)) \/
    isinstance e Exception = false.
Proof.
  unfold publish_block.
  match goal with
  | |- context [try_finally ?body disconnect s] =>
      destruct (body s) as [s1 r] eqn:Hbody;
      rewrite (finally_disconnect body s s1 r Hbody)
  end.
  cbn [fst snd]. split; [apply disconnect_total|].
  intros e ->.
  apply try_except_Raise in Hbody
    as [[_ Hnone]|(s2 & e2 & hd & _ & Hh & Hrun)].
  - right. destruct (isinstance e Exception); [discriminate | reflexivity].
  - left. destruct (isinstance e2 Exception); [|discriminate].
    inversion Hh; subst hd; clear Hh.
    apply lift_Raise in Hrun as [_ Hrun]. unfold raise in Hrun.
    inversion Hrun; subst. eexists; reflexivity.
Qed.

(** X21.  When the login answers with a session that identifies no
    user, the block raises [Exception] with the wrapped connection
    message, makes no further call to the platform, looks at neither
    dataset, and its [finally] still reports a disconnection. *)
Theorem publish_block_login_without_user (h u p : option string)
        (today : string) (gdf_ast gdf_trl : GeoDataFrame) (s : state)
        (g : GIS) :
  login platform h u p = Returned g -> me g = None ->
  publish_block' h u p today gdf_ast gdf_trl s
  = (mk_state (mk_manager h u p None)
       (records s
        ++ [mk_record INFO (String.append nl "Logging to AGO");
            mk_record ERROR "..connection to AGOL failed.";
            mk_record INFO (String.append nl "Disconnected from AGOL")])
       (store s) (calls s),
     Raise (mk_exn Exception
              (String.append "Error occurred: "
                             "Failed to connect to AGOL."))).
Proof.
  intros Hlogin Hme. unfold publish_block.
  erewrite finally_disconnect.
  2:{ unfold try_except.
      erewrite pbind_run by reflexivity.
      erewrite pbind_run by reflexivity.
      erewrite pbind_run_Raise
        by (unfold connect, pbind, get, lift;
            cbn [self host username password init logged];
            rewrite Hlogin; cbn [call]; unfold set_gis, modify;
            rewrite Hme; reflexivity).
      reflexivity. }
  unfold disconnected, disconnect, pbind, get.
  cbn [self gis records store calls host username password fst].
  unfold set_gis, logging, modify.
  cbn [self gis records store calls host username password fst].
  rewrite <- !app_assoc. reflexivity.
Qed.

End PublishBlockFacts.

Lemma database_block_connect_refused_witness :
  database_block_shown refusing_driver script_start
  = (Script.mk_state
       (Postgres.mk_state
          (Postgres.init (Some "citywide") (Some "reader") (Some "secret")
                         (Some "db.example.org") (Some "5432"))
          (Postgres.records (Script.pg script_start)
           ++ [mk_record INFO "Connecting to CityWide database";
               mk_record ERROR
                 (String.append "..error connecting to database: "
                                "could not connect to server");
               mk_record INFO
                 (String.append nl "Reading Assets (points) data");
               mk_record WARNING
                 "..no active database connection to close."]))
       (Script.stdout script_start),
     Raise (mk_exn Exception
              (String.append "Error occurred: "
                 "'NoneType' object has no attribute 'cursor'"))).
Proof.
  apply (database_block_connect_refused refusing_driver benches_listing
           benches_table trails_layer Samples.stacked show_Q show_Z show_Z
           show_geometry sample_reproject
           (Some "db.example.org") (Some "5432") (Some "citywide")
           (Some "reader") (Some "secret") script_start
           (mk_exn OperationalError "could not connect to server")
           (mk_exn AttributeError
              "'NoneType' object has no attribute 'cursor'"));
    reflexivity.
Defined.

Lemma database_block_success_witness :
  exists ga gt s',
    database_block_shown working_driver script_start = (s', Ok (ga, gt)) /\
    Postgres.self (Script.pg s')
      = Postgres.init (Some "citywide") (Some "reader") (Some "secret")
                      (Some "db.example.org") (Some "5432") /\
    Script.stdout s' = ["..reading table: benches"].
Proof.
  eexists; eexists.
  eapply (database_block_success working_driver benches_listing
            benches_table trails_layer Samples.stacked show_Q show_Z show_Z
            show_geometry sample_reproject
            (Some "db.example.org") (Some "5432") (Some "citywide")
            (Some "reader") (Some "secret") script_start
            (Postgres.Connection 1));
    vm_compute; reflexivity.
Defined.

Lemma publish_block_login_without_user_witness :
  AGO.publish_block anonymous_platform Samples.sample_isoformat
    Samples.sample_json_dumps None None None "November 03, 2026"
    Samples.one_row_layer Samples.one_row_layer Samples.start
  = (AGO.mk_state (AGO.mk_manager None None None None)
       (AGO.records Samples.start
        ++ [mk_record INFO (String.append nl "Logging to AGO");
            mk_record ERROR "..connection to AGOL failed.";
            mk_record INFO (String.append nl "Disconnected from AGOL")])
       (AGO.store Samples.start) (AGO.calls Samples.start),
     Raise (mk_exn Exception
              (String.append "Error occurred: "
                             "Failed to connect to AGOL."))).
Proof.
  apply (publish_block_login_without_user anonymous_platform
           Samples.sample_isoformat Samples.sample_json_dumps None None None
           "November 03, 2026" Samples.one_row_layer Samples.one_row_layer
           Samples.start (AGO.mk_gis None));
    reflexivity.
Defined.

(* ===================================================================== *)
(** * From the asset transformer to the publisher *)
(* ===================================================================== *)

Lemma astype_cells_app (repr_float : Q -> string) (repr_int str_stamp : Z -> string)
      (wkt : geometry -> string) (objs : list string)
      (cols cols' : list column) (cs cs' : list cell) :
  List.length cols = List.length cs ->
  astype_cells repr_float repr_int str_stamp wkt objs (cols ++ cols')
               (cs ++ cs')
  = astype_cells repr_float repr_int str_stamp wkt objs cols cs
    ++ astype_cells repr_float repr_int str_stamp wkt objs cols' cs'.
Proof.
  revert cs; induction cols as [|c t IH]; intros [|v cs] H;
    try discriminate; [reflexivity|].
  cbn [app astype_cells]. f_equal. apply IH. simpl in H; lia.
Qed.

Lemma astype_cells_length (repr_float : Q -> string)
      (repr_int str_stamp : Z -> string) (wkt : geometry -> string)
      (objs : list string) (cols : list column) (cs : list cell) :
  List.length cols = List.length cs ->
  List.length (astype_cells repr_float repr_int str_stamp wkt objs cols cs)
  = List.length cs.
Proof.
  revert cs; induction cols as [|c t IH]; intros [|v cs] H;
    try discriminate; [reflexivity|].
  cbn [astype_cells List.length]. f_equal. apply IH. simpl in H; lia.
Qed.

Lemma combine_snoc {A B} (l : list A) (l' : list B) (x : A) (y : B) :
  List.length l = List.length l' ->
  combine (l ++ [x]) (l' ++ [y]) = combine l l' ++ [(x, y)].
Proof.
  revert l'; induction l as [|a t IH]; intros [|b t'] H; try discriminate;
    [reflexivity|].
  cbn [app combine]. f_equal. apply IH. simpl in H; lia.
Qed.

Lemma fillna_cells_returns (cols : list column) (cs : list cell) :
  Forall2 (fun c v => dt c = GeometryDtype -> isna v = false) cols cs ->
  exists cs', AGO.fillna_cells cols cs = Ok cs'.
Proof.
  induction 1 as [|c v cols cs Hcv _ IH]; [eexists; reflexivity|].
  destruct IH as (rest & Hrest). cbn [AGO.fillna_cells]. rewrite Hrest.
  destruct (dt c) eqn:Ed, v as [k| | | | | |]; cbn [Py.bind];
    try (eexists; reflexivity).
  specialize (Hcv eq_refl). discriminate.
Qed.

Lemma Forall2_const_l {A B} (P : A -> Prop) (R : A -> B -> Prop)
      (l : list A) (l' : list B) :
  (forall a b, P a -> R a b) ->
  Forall P l -> List.length l = List.length l' -> Forall2 R l l'.
Proof.
  intros HPR HF. revert l'.
  induction HF as [|a t Ha _ IH]; intros [|b t'] H; try discriminate;
    constructor; [apply HPR; exact Ha | apply IH; simpl in H; lia].
Qed.

Section PipelineFacts.

Import AGO PublishSpec.

Variable repr_float : Q -> string.
Variable repr_int : Z -> string.
Variable str_stamp : Z -> string.
Variable wkt : geometry -> string.
Variable isoformat : Z -> string.

Abbreviation astype_cells' :=
  (astype_cells repr_float repr_int str_stamp wkt).

Lemma selected_no_geometry (df : DataFrame) (jc : nat) (ix : list nat) :
  Forall (fun c => dt c <> GeometryDtype) (columns df) ->
  Forall (fun c => dt c <> GeometryDtype) (columns (selected df jc ix)).
Proof.
  intros H. unfold selected, take, rename. cbn [columns].
  apply Forall_forall. intros c Hc. apply in_map_iff in Hc as (i & <- & _).
  match goal with
  | |- dt (nth i ?l ?d) <> _ => destruct (nth_in_or_default i l d) as [Hin| ->]
  end.
  - apply in_map_iff in Hin as (c0 & <- & Hc0). cbn [dt].
    rewrite Forall_forall in H. exact (H c0 Hc0).
  - discriminate.
Qed.

Lemma selected_row_length (df : DataFrame) (jc : nat) (ix : list nat)
      (r : row) :
  In r (rows (selected df jc ix)) ->
  List.length (cells r) = List.length (columns (selected df jc ix)).
Proof.
  unfold selected, take. cbn [rows columns]. intros H.
  apply in_map_iff in H as (r0 & <- & _). cbn [take_row cells].
  rewrite !length_map. reflexivity.
Qed.

(** One row of the transformer's output, seen by the publisher. *)
Lemma output_row_publishable (sel : DataFrame) (objs : list string)
      (r : row) (gk : geometry) :
  Forall (fun c => dt c <> GeometryDtype) (columns sel) ->
  List.length (cells r) = List.length (columns sel) ->
  ~ In "geometry" (labels sel) ->
  mem "geometry" objs = false ->
  let cols := columns sel ++ [mk_column "geometry" GeometryDtype] in
  let cols' := map (fun c => if mem (label c) objs
                             then mk_column (label c) Object else c) cols in
  let cs := astype_cells' objs cols (cells r ++ [Geo gk]) in
  (exists cs', fillna_cells cols' cs = Ok cs') /\
  exists ft,
    feature_of_row isoformat (prepared_row (combine (map label cols') cs))
    = Ok ft.
Proof.
  intros Hgeo Hlen Hlab Hmem cols cols' cs.
  assert (Hcs : cs = astype_cells' objs (columns sel) (cells r) ++ [Geo gk]).
  { unfold cs, cols. rewrite astype_cells_app by (symmetry; exact Hlen).
    cbn [astype_cells label]. rewrite Hmem. reflexivity. }
  assert (Hcols' : cols'
                   = map (fun c => if mem (label c) objs
                                   then mk_column (label c) Object else c)
                         (columns sel)
                     ++ [mk_column "geometry" GeometryDtype]).
  { unfold cols', cols. rewrite map_app. cbn [map label]. rewrite Hmem.
    reflexivity. }
  assert (Hlen' : List.length (astype_cells' objs (columns sel) (cells r))
                  = List.length (columns sel)).
  { rewrite astype_cells_length by (symmetry; exact Hlen). exact Hlen. }
  split.
  - apply fillna_cells_returns. rewrite Hcs, Hcols'.
    apply Forall2_app.
    + apply (Forall2_const_l (fun c => dt c <> GeometryDtype)).
      * intros a b Ha E. contradiction.
      * apply Forall_forall. intros c Hc.
        apply in_map_iff in Hc as (c0 & <- & Hc0).
        rewrite Forall_forall in Hgeo.
        destruct (mem (label c0) objs); [discriminate | exact (Hgeo c0 Hc0)].
      * rewrite length_map. symmetry; exact Hlen'.
    + constructor; [reflexivity | constructor].
  - assert (Hlabels : map label cols' = labels sel ++ ["geometry"]).
    { rewrite Hcols', map_app, map_map. cbn [map label]. f_equal.
      unfold labels. apply map_ext. intros c.
      destruct (mem (label c) objs); reflexivity. }
    rewrite Hlabels, Hcs.
    rewrite combine_snoc
      by (unfold labels; rewrite length_map; symmetry; exact Hlen').
    unfold prepared_row. rewrite map_app. cbn [map fst snd prepared_cell].
    unfold feature_of_row, row_getitem. rewrite filter_app.
    rewrite filter_key_absent.
    + cbn [filter fst app]. rewrite String.eqb_refl. cbn [Py.bind].
      eexists; reflexivity.
    + rewrite map_map. cbn [fst]. intros Hin.
      apply in_map_iff in Hin as ([k c] & E & Hin). cbn [fst] in E; subst k.
      apply in_combine_l in Hin. exact (Hlab Hin).
Qed.

(** A frame whose rows the publisher accepts one by one. *)
Lemma rows_publishable (F : DataFrame) (name crs_ : string) :
  (forall o, In o (rows F) ->
             (exists cs', fillna_cells (columns F) (cells o) = Ok cs') /\
             exists ft,
               feature_of_row isoformat
                 (prepared_row (combine (labels F) (cells o))) = Ok ft) ->
  exists df1 features,
    fillna_empty F = Ok df1 /\
    _gdf_to_geojson isoformat (mk_geoframe (replace_none df1) name crs_)
    = Ok (PDict [("type", PStr "FeatureCollection");
                 ("features", PList features)]) /\
    List.length features = shape0 F.
Proof.
  intros Hrow.
  destruct (mapM_total
              (fun r => cs <- fillna_cells (columns F) (cells r) ;;
                        Ok (mk_row (idx r) cs))
              (rows F)) as (rs & Hrs).
  { intros o Ho. destruct (Hrow o Ho) as [(cs' & ->) _].
    eexists; reflexivity. }
  assert (Hfill : exists df1, fillna_empty F = Ok df1).
  { unfold fillna_empty. rewrite Hrs. eexists; reflexivity. }
  destruct Hfill as (df1 & Hfill). exists df1.
  destruct (mapM_total (feature_of_row isoformat)
              (iterrows (replace_none df1))) as (features & Hft).
  { rewrite (publish_rows _ _ Hfill). intros x Hx.
    apply in_map_iff in Hx as (x0 & <- & Hx0). unfold iterrows in Hx0.
    apply in_map_iff in Hx0 as (o & <- & Ho).
    destruct (Hrow o Ho) as [_ Hf]. exact Hf. }
  exists features. split; [exact Hfill|]. split.
  - unfold _gdf_to_geojson. cbn [frame]. rewrite Hft. reflexivity.
  - apply mapM_Ok_length in Hft. rewrite Hft.
    rewrite (publish_rows _ _ Hfill). unfold iterrows, shape0.
    rewrite !length_map. reflexivity.
Qed.

Lemma output_rows (df : DataFrame) (jc : nat) (ix : list nat)
      (jlat jlon : nat) (gs : list geometry) (o : row) :
  let sel := selected df jc ix in
  let W := with_geometry
             (mk_frame (columns sel) (filter (in_box jlat jlon) (rows sel)))
             gs in
  In o (rows (astype_str_objects repr_float repr_int str_stamp wkt W)) ->
  exists r gk,
    In r (rows sel) /\
    cells o = astype_cells' (object_labels W)
                (columns sel ++ [mk_column "geometry" GeometryDtype])
                (cells r ++ [Geo gk]).
Proof.
  intros sel W Ho. unfold astype_str_objects in Ho. cbn [rows] in Ho.
  apply in_map_iff in Ho as (r' & <- & Hr'). cbn [cells].
  unfold W, with_geometry in Hr'. cbn [rows columns] in Hr'.
  rewrite set_geometry_cells_combine in Hr'.
  apply in_map_iff in Hr' as ([r gk] & <- & Hin). cbn [fst snd cells].
  apply in_combine_l in Hin. apply filter_In in Hin as [Hin _].
  exists r, gk. split; [exact Hin | reflexivity].
Qed.

(** X22.  What [process_assets] returns can always be handed to the
    publisher: on a plain table (no column of geometry dtype) the
    [fillna] of [publish_feature_layer] goes through on the output and
    [_gdf_to_geojson] turns it into a FeatureCollection with one Feature
    per output row; no row is refused for its geometry. *)
Theorem assets_output_publishable (df : DataFrame) (latcol loncol : string)
        (g : GeoDataFrame) :
  process_assets repr_float repr_int str_stamp wkt df latcol loncol = Ok g ->
  Forall (fun c => dt c <> GeometryDtype) (columns df) ->
  exists df1 features,
    fillna_empty (frame g) = Ok df1 /\
    _gdf_to_geojson isoformat
      (mk_geoframe (replace_none df1) (geometry_name g) (crs g))
    = Ok (PDict [("type", PStr "FeatureCollection");
                 ("features", PList features)]) /\
    List.length features = shape0 (frame g).
Proof.
  intros H Hgeo.
  apply process_assets_inv in H
    as (jc & ix & jlat & jlon & gs & _ & Hix & _ & _ & _ & ->).
  cbn [frame geometry_name crs].
  set (sel := selected df jc ix).
  set (W := with_geometry
              (mk_frame (columns sel)
                        (filter (in_box jlat jlon) (rows sel))) gs).
  assert (Hnolab : ~ In "geometry" (labels sel)).
  { intros Hin. apply (labels_selected_in df jc ix _ Hix) in Hin.
    vm_compute in Hin. intuition discriminate. }
  assert (Hmem : mem "geometry" (object_labels W) = false).
  { apply not_true_is_false. intros Hm.
    apply object_labels_with_geometry in Hm. exact (Hnolab Hm). }
  assert (Hsel : Forall (fun c => dt c <> GeometryDtype) (columns sel))
    by (apply selected_no_geometry; exact Hgeo).
  apply rows_publishable. intros o Ho.
  destruct (output_rows df jc ix jlat jlon gs o Ho) as (r & gk & Hr & ->).
  exact (output_row_publishable sel (object_labels W) r gk Hsel
           (selected_row_length df jc ix r Hr) Hnolab Hmem).
Qed.

End PipelineFacts.

Lemma assets_output_publishable_witness :
  exists g,
    process_assets_shown scenario_frame "GIS Latitude" "GIS Longitude" = Ok g /\
    exists df1 features,
      AGO.fillna_empty (frame g) = Ok df1 /\
      AGO._gdf_to_geojson Samples.sample_isoformat
        (mk_geoframe (AGO.replace_none df1) (geometry_name g) (crs g))
      = Ok (AGO.PDict [("type", AGO.PStr "FeatureCollection");
                       ("features", AGO.PList features)]) /\
      List.length features = shape0 (frame g).
Proof.
  eexists. split; [vm_compute; reflexivity|].
  apply (assets_output_publishable show_Q show_Z show_Z show_geometry
           Samples.sample_isoformat scenario_frame
           "GIS Latitude" "GIS Longitude").
  - vm_compute; reflexivity.
  - repeat constructor; discriminate.
Defined.

(* ===================================================================== *)
(** * The attribute values the asset transformer delivers *)
(* ===================================================================== *)

Lemma nth_error_combine {A B} (l : list A) (l' : list B) (n : nat)
      (a : A) (b : B) :
  nth_error l n = Some a -> nth_error l' n = Some b ->
  nth_error (combine l l') n = Some (a, b).
Proof.
  revert l' n; induction l as [|x t IH]; intros [|y t'] [|n] Ha Hb;
    try discriminate.
  - inversion Ha; inversion Hb; reflexivity.
  - cbn [combine nth_error] in *. apply IH; assumption.
Qed.

Lemma NoDup_output_labels : NoDup (values ast_cols ++ ["geometry"]).
Proof. repeat constructor; simpl; intuition discriminate. Qed.

Section AssetValues.

Variable repr_float : Q -> string.
Variable repr_int : Z -> string.
Variable str_stamp : Z -> string.
Variable wkt : geometry -> string.

(** The closing [astype] on one cell of a frame with distinct labels. *)
Lemma astype_cell_at (F : DataFrame) (i : Z) (cs : list cell) (j : nat)
      (c : column) :
  NoDup (labels F) -> nth_error (columns F) j = Some c ->
  List.length (columns F) = List.length cs ->
  cell_at (mk_row i (astype_cells repr_float repr_int str_stamp wkt
                       (object_labels F) (columns F) cs)) j
  = if dtype_eqb (dt c) Object
    then Str (py_str repr_float repr_int str_stamp wkt (nth j cs (Null NaN)))
    else nth j cs (Null NaN).
Proof.
  intros Hnd Hc Hlen. unfold cell_at. cbn [cells].
  rewrite (nth_astype_cells repr_float repr_int str_stamp wkt
             (object_labels F) (columns F) cs j (Null NaN) no_column Hlen).
  - rewrite (nth_error_nth _ _ no_column Hc).
    rewrite (object_mem_dtype F j c Hnd Hc). reflexivity.
  - rewrite <- Hlen. apply nth_error_Some. rewrite Hc; discriminate.
Qed.

(** X23.  What [process_assets] does to the values: on a table with the
    mapped source columns, the row at each position of the output is the
    kept input row at that position, and each of its thirteen attribute
    values is the source value, unchanged or, in a column of dtype
    object, replaced by its [str()]. *)
Theorem process_assets_values (df : DataFrame) (latcol loncol : string)
        (g : GeoDataFrame) :
  process_assets repr_float repr_int str_stamp wkt df latcol loncol = Ok g ->
  clean_labels (labels df) = true ->
  exists pc plat plon : nat,
    nth_error (labels df) pc = Some "asset_category" /\
    nth_error (map (rename_label ast_cols) (labels df)) plat = Some latcol /\
    nth_error (map (rename_label ast_cols) (labels df)) plon = Some loncol /\
    forall n r,
      nth_error (filter (keep pc plat plon) (rows df)) n = Some r ->
      exists o,
        nth_error (rows (frame g)) n = Some o /\
        idx o = idx r /\
        forall k v,
          In (k, v) ast_cols ->
          cell_of (frame g) v o
          = if dtype_eqb (col_dtype df k) Object
            then Str (py_str repr_float repr_int str_stamp wkt
                             (cell_of df k r))
            else cell_of df k r.
Proof.
  intros H Hc.
  destruct (process_assets_kept repr_float repr_int str_stamp wkt
              df latcol loncol g H)
    as (jc & ix & jlat & jlon & gs & Hix & Hgs & -> & Hlat & Hlon & Hjc
        & Hplat & Hplon & _ & _ & _).
  exists jc, (nth jlat ix 0%nat), (nth jlon ix 0%nat).
  split; [exact Hjc|]. split; [exact Hplat|]. split; [exact Hplon|].
  intros n r Hr. cbn [frame].
  destruct (clean_indexer _ Hc) as (ix' & Hix' & HF).
  rewrite Hix in Hix'. inversion Hix'; subst ix'; clear Hix'.
  pose proof (clean_selected_labels df jc ix Hc HF) as Hlab.
  set (sel := selected df jc ix) in *.
  set (kept := filter (in_box jlat jlon) (rows sel)) in *.
  set (W := with_geometry (mk_frame (columns sel) kept) gs).
  assert (Hkept : kept
                  = map (take_row ix)
                        (filter (keep jc (nth jlat ix 0%nat)
                                      (nth jlon ix 0%nat)) (rows df))).
  { unfold kept, sel. apply kept_rows; assumption. }
  assert (Hk : nth_error kept n = Some (take_row ix r)).
  { rewrite Hkept. apply map_nth_error. exact Hr. }
  assert (Hg : exists gk, nth_error gs n = Some gk).
  { destruct (nth_error gs n) as [gk|] eqn:E; [eauto|].
    apply nth_error_None in E. rewrite (mapM_Ok_length _ _ _ Hgs) in E.
    assert (n < List.length kept)%nat
      by (apply nth_error_Some; rewrite Hk; discriminate).
    lia. }
  destruct Hg as (gk & Hg).
  assert (HlabW : labels W = values ast_cols ++ ["geometry"]).
  { unfold W, with_geometry, labels at 1. cbn [columns].
    rewrite map_app. fold (labels sel). rewrite Hlab. reflexivity. }
  assert (HrowsW : rows W
                   = map (fun rg => mk_row (idx (fst rg))
                                      (cells (fst rg) ++ [Geo (snd rg)]))
                         (combine kept gs)).
  { unfold W, with_geometry. cbn [rows columns].
    apply set_geometry_cells_combine. }
  unfold astype_str_objects at 1. cbn [rows]. rewrite HrowsW, map_map.
  rewrite (map_nth_error _ _ _ (nth_error_combine _ _ _ _ _ Hk Hg)).
  cbn [fst snd idx cells take_row].
  eexists. split; [reflexivity|]. split; [reflexivity|].
  intros k v Hin. apply In_nth_error in Hin as (j & Hj).
  destruct (Forall2_nth_error _ _ _ j _ HF Hj) as (i & Hi & Hp).
  cbn [fst] in Hp.
  assert (Hlt : (j < List.length ix)%nat)
    by (apply nth_error_Some; rewrite Hi; discriminate).
  assert (Hin : In (k, v) ast_cols) by (eapply nth_error_In; exact Hj).
  assert (Hcol : nth_error (columns W) j
                 = Some (mk_column v (dt (nth i (columns df) no_column)))).
  { unfold W, with_geometry. cbn [columns].
    rewrite nth_error_app1
      by (unfold sel, selected, take; cbn [columns]; rewrite length_map;
          exact Hlt).
    unfold sel, selected, take. cbn [columns].
    rewrite (map_nth_error _ _ _ Hi).
    rewrite (renamed_column ast_cols NoDup_keys
               (mk_frame (columns df)
                  (filter (fun r => isin cats (cell_at r jc)) (rows df)))
               k v i Hin Hp).
    reflexivity. }
  unfold cell_of. rewrite labels_astype, HlabW.
  rewrite (positions_NoDup _ j v NoDup_output_labels).
  2:{ rewrite nth_error_app1
        by (unfold values; rewrite length_map;
            apply nth_error_Some; rewrite Hj; discriminate).
      unfold values. rewrite (map_nth_error snd _ _ Hj). reflexivity. }
  rewrite Hp.
  erewrite (astype_cell_at W);
    [| rewrite HlabW; apply NoDup_output_labels
     | exact Hcol
     | unfold W, with_geometry, sel, selected, take; cbn [columns];
       rewrite !length_app, !length_map; reflexivity ].
  cbn [dt]. unfold col_dtype. rewrite Hp.
  rewrite app_nth1 by (rewrite length_map; exact Hlt).
  rewrite (nth_error_nth _ _ (Null NaN) (map_nth_error (cell_at r) _ _ Hi)).
  reflexivity.
Qed.

End AssetValues.

Lemma process_assets_values_witness :
  exists g,
    process_assets_shown scenario_frame "GIS Latitude" "GIS Longitude" = Ok g /\
    exists pc plat plon : nat,
      nth_error (labels scenario_frame) pc = Some "asset_category" /\
      nth_error (map (rename_label ast_cols) (labels scenario_frame)) plat
        = Some "GIS Latitude" /\
      nth_error (map (rename_label ast_cols) (labels scenario_frame)) plon
        = Some "GIS Longitude" /\
      forall n r,
        nth_error (filter (keep pc plat plon) (rows scenario_frame)) n
          = Some r ->
        exists o,
          nth_error (rows (frame g)) n = Some o /\
          idx o = idx r /\
          forall k v,
            In (k, v) ast_cols ->
            cell_of (frame g) v o
            = if dtype_eqb (col_dtype scenario_frame k) Object
              then Str (py_str show_Q show_Z show_Z show_geometry
                               (cell_of scenario_frame k r))
              else cell_of scenario_frame k r.
Proof.
  eexists. split; [vm_compute; reflexivity|].
  apply (process_assets_values show_Q show_Z show_Z show_geometry
           scenario_frame "GIS Latitude" "GIS Longitude");
    vm_compute; reflexivity.
Defined.

(* ===================================================================== *)
(** * Coordinates that cannot be compared *)
(* ===================================================================== *)

Lemma mapM_raises {A B} (f : A -> outcome B) (c : exn_class) (l : list A)
      (x : A) :
  (forall a, f a <> Unmodelled) ->
  (forall a e, f a = Raise e -> exn_class_of e = c) ->
  In x l -> (exists e, f x = Raise e) ->
  exists msg, mapM f l = Raise (mk_exn c msg).
Proof.
  intros Hun Hcl. induction l as [|a t IH]; intros Hin Hx; [contradiction|].
  cbn [mapM]. destruct (f a) as [b|e|] eqn:Ea.
  - destruct Hin as [->|Hin].
    + destruct Hx as (e & Hx). congruence.
    + destruct (IH Hin Hx) as (msg & ->). exists msg; reflexivity.
  - pose proof (Hcl a e Ea) as E. destruct e as [c' msg]. cbn in E. subst c'.
    exists msg; reflexivity.
  - exfalso. exact (Hun a Ea).
Qed.

Section TextCoordinates.

Variable repr_float : Q -> string.
Variable repr_int : Z -> string.
Variable str_stamp : Z -> string.
Variable wkt : geometry -> string.

(** X24.  A text value in the latitude column is not skipped: when a
    row of a listed category holds a string as latitude (and some
    longitude), the range comparison raises and [process_assets] ends
    with [TypeError], whatever the other rows hold. *)
Theorem process_assets_text_latitude (df : DataFrame) (r : row)
        (s : string) :
  clean_labels (labels df) = true ->
  In r (rows df) ->
  isin cats (cell_of df "asset_category" r) = true ->
  cell_of df "gis_latitude" r = Str s ->
  isna (cell_of df "gis_longitude" r) = false ->
  exists msg,
    process_assets repr_float repr_int str_stamp wkt df
                   "GIS Latitude" "GIS Longitude"
    = Raise (mk_exn TypeError msg).
Proof.
  intros Hc Hr Hcat Hlat Hlon.
  destruct (clean_labels_pair _ "asset_category" "Category - Classification"
              Hc) as (Hc1 & _); [vm_compute; tauto|].
  destruct (clean_labels_pair _ "gis_latitude" "GIS Latitude" Hc)
    as (Hc2 & _); [vm_compute; tauto|].
  destruct (clean_labels_pair _ "gis_longitude" "GIS Longitude" Hc)
    as (Hc3 & _); [vm_compute; tauto|].
  apply count_label_1 in Hc1 as (pc & Hpc).
  apply count_label_1 in Hc2 as (plat & Hplat).
  apply count_label_1 in Hc3 as (plon & Hplon).
  rewrite (cell_of_at _ _ _ _ Hpc) in Hcat.
  rewrite (cell_of_at _ _ _ _ Hplat) in Hlat.
  rewrite (cell_of_at _ _ _ _ Hplon) in Hlon.
  destruct (clean_indexer _ Hc) as (ix & Hix & HF).
  pose proof (clean_selected_labels df pc ix Hc HF) as Hlab.
  assert (Hlen : List.length ix = 13%nat).
  { apply Forall2_length in HF. rewrite <- HF; reflexivity. }
  assert (Hilat : nth 11 ix 0%nat = plat).
  { destruct (Forall2_nth_error _ _ _ 11%nat _ HF eq_refl) as (i & Hi & Hp).
    cbn [fst] in Hp. rewrite Hplat in Hp. inversion Hp; subst.
    apply nth_error_nth; exact Hi. }
  assert (Hilon : nth 12 ix 0%nat = plon).
  { destruct (Forall2_nth_error _ _ _ 12%nat _ HF eq_refl) as (i & Hi & Hp).
    cbn [fst] in Hp. rewrite Hplon in Hp. inversion Hp; subst.
    apply nth_error_nth; exact Hi. }
  set (sel := selected df pc ix) in *.
  set (dn := mk_frame (columns sel)
               (filter (fun r => negb (isna (cell_at r 11%nat))
                                 && negb (isna (cell_at r 12%nat)))
                       (rows sel))).
  assert (Hdn : dropna ["GIS Latitude"; "GIS Longitude"] sel = Ok dn).
  { unfold dropna. fold (labels sel). rewrite Hlab.
    unfold dn. cbn -[isna cell_at]. f_equal. f_equal.
    apply filter_ext; intros r0.
    rewrite orb_false_r, negb_orb; reflexivity. }
  assert (Hin : In (take_row ix r) (rows dn)).
  { unfold dn. cbn [rows]. apply filter_In. split.
    - unfold sel, selected, take, rename. cbn [rows].
      apply in_map. apply filter_In. split; assumption.
    - rewrite !cell_at_take_row by lia. rewrite Hilat, Hilon, Hlat, Hlon.
      reflexivity. }
  assert (Hcmp : exists msg,
             cmp_series ge lat_min dn 11 = Raise (mk_exn TypeError msg)).
  { unfold cmp_series.
    assert (Hm : exists msg,
               mapM (fun r0 => cmp_cell ge lat_min (cell_at r0 11%nat))
                    (rows dn) = Raise (mk_exn TypeError msg)).
    { apply (mapM_raises _ TypeError (rows dn) (take_row ix r)).
      - intros a. destruct (cell_at a 11%nat) as [| | | |b| |];
          cbn; try discriminate; destruct b; discriminate.
      - intros a e. destruct (cell_at a 11%nat) as [| | | |b| |];
          cbn; try discriminate;
          try (intros E; inversion E; reflexivity);
          destruct b; discriminate.
      - exact Hin.
      - rewrite cell_at_take_row by lia. rewrite Hilat, Hlat.
        eexists; reflexivity. }
    destruct (dt (nth 11 (columns dn) no_column));
      try exact Hm; eexists; reflexivity. }
  destruct Hcmp as (msg & Hcmp). exists msg.
  unfold process_assets. unfold get_loc at 1. rewrite Hpc. cbn [Py.bind].
  rewrite select_rows_map.
  unfold getitem_list. rewrite labels_rename.
  change (labels (mk_frame (columns df) _)) with (labels df).
  rewrite Hix. cbn [Py.bind]. fold (selected df pc ix). fold sel.
  rewrite Hdn. cbn [Py.bind].
  assert (Hgl : get_loc dn "GIS Latitude" = Ok 11%nat).
  { unfold get_loc. change (labels dn) with (labels sel). rewrite Hlab.
    reflexivity. }
  rewrite Hgl. cbn [Py.bind]. rewrite Hcmp. reflexivity.
Qed.

End TextCoordinates.

Lemma process_assets_text_latitude_witness :
  exists msg,
    process_assets_shown text_latitude_frame "GIS Latitude" "GIS Longitude"
    = Raise (mk_exn TypeError msg).
Proof.
  apply (process_assets_text_latitude show_Q show_Z show_Z show_geometry
           text_latitude_frame
           (source_row 1 "Signs" (Str "49.7 N") (Num (-123.1))) "49.7 N").
  - vm_compute; reflexivity.
  - right; left; reflexivity.
  - vm_compute; reflexivity.
  - vm_compute; reflexivity.
  - vm_compute; reflexivity.
Defined.

(* ===================================================================== *)
(** * From the trail transformer to the publisher *)
(* ===================================================================== *)

Lemma map_at_snoc {A} (f : A -> A) (l : list A) (x : A) :
  map_at (List.length l) f (l ++ [x]) = l ++ [f x].
Proof. induction l as [|a t IH]; cbn; [reflexivity | rewrite IH; reflexivity]. Qed.

Lemma Forall2_In_r {A B} (R : A -> B -> Prop) (l : list A) (l' : list B)
      (b : B) :
  Forall2 R l l' -> In b l' -> exists a, In a l /\ R a b.
Proof.
  induction 1 as [|x y l l' Hxy _ IH]; intros Hin; [contradiction|].
  destruct Hin as [<-|Hin].
  - exists x. split; [left; reflexivity | exact Hxy].
  - destruct (IH Hin) as (a & Ha & Hab). exists a. split; [right|]; assumption.
Qed.

Section TrailPipeline.

Import AGO PublishSpec.

Variable repr_float : Q -> string.
Variable repr_int : Z -> string.
Variable str_stamp : Z -> string.
Variable wkt : geometry -> string.
Variable reproject : string -> Z -> geometry -> geometry.
Variable isoformat : Z -> string.

(** X25.  The trail layer can be handed to the publisher when no trail
    lacks its geometry: for a frame whose only geometry column is
    [wkb_geometry] and whose rows all hold a geometry there, the [fillna]
    of [publish_feature_layer] goes through on what [process_trails]
    returns and [_gdf_to_geojson] yields one Feature per trail. *)
Theorem trails_output_publishable (gdf g : GeoDataFrame) :
  process_trails repr_float repr_int str_stamp wkt reproject gdf = Ok g ->
  clean_for trl_cols (labels (frame gdf)) = true ->
  (forall c, In c (columns (frame gdf)) -> dt c = GeometryDtype ->
             label c = "wkb_geometry") ->
  (forall r, In r (rows (frame gdf)) ->
             exists s, cell_of (frame gdf) "wkb_geometry" r = Geo s) ->
  exists df1 features,
    fillna_empty (frame g) = Ok df1 /\
    _gdf_to_geojson isoformat
      (mk_geoframe (replace_none df1) (geometry_name g) (crs g))
    = Ok (PDict [("type", PStr "FeatureCollection");
                 ("features", PList features)]) /\
    List.length features = shape0 (frame g).
Proof.
  intros H Hc Honly Hall.
  destruct (process_trails_inv repr_float repr_int str_stamp wkt reproject
              gdf g H Hc) as (ix & HF & Hlab & Hgeo & ->).
  cbn zeta in Hlab, Hgeo. cbn [frame geometry_name crs]. clear H.
  set (m14 := firstn 14 trl_cols).
  change trl_cols with (m14 ++ [("wkb_geometry", "geometry")]) in HF.
  apply Forall2_app_inv_l in HF as (ix14 & l2 & HF14 & HF1 & ->).
  inversion HF1 as [|kv i14 t1 t2 Hi14 HFnil]; subst.
  inversion HFnil; subst. clear HF1 HFnil. cbn [fst] in Hi14.
  assert (Hlen14 : List.length ix14 = 14%nat).
  { apply Forall2_length in HF14. rewrite <- HF14. reflexivity. }
  assert (Hincl : incl m14 trl_cols).
  { intros x Hx.
    change trl_cols with (m14 ++ [("wkb_geometry", "geometry")]).
    apply in_or_app; left; exact Hx. }
  set (df := frame gdf) in *.
  set (gcol := fun i => nth i (columns (rename trl_cols df)) no_column).
  set (sel14 := mk_frame (map gcol ix14) []).
  assert (Hlast : gcol i14 = mk_column "geometry" GeometryDtype).
  { unfold gcol.
    rewrite (renamed_column trl_cols NoDup_trl_keys df
               "wkb_geometry" "geometry" i14); [|vm_compute; tauto|exact Hi14].
    f_equal. rewrite <- Hgeo. unfold take. cbn [columns].
    rewrite map_app. cbn [map].
    rewrite app_nth2 by (rewrite length_map, Hlen14; lia).
    rewrite length_map, Hlen14. cbn [Nat.sub nth]. fold gcol.
    unfold gcol.
    rewrite (renamed_column trl_cols NoDup_trl_keys df
               "wkb_geometry" "geometry" i14); [|vm_compute; tauto|exact Hi14].
    reflexivity. }
  assert (Hcols : columns (take (ix14 ++ [i14]) (rename trl_cols df))
                  = columns sel14 ++ [mk_column "geometry" GeometryDtype]).
  { unfold take. cbn [columns]. rewrite map_app. cbn [map].
    change (nth i14 (columns (rename trl_cols df)) no_column)
      with (gcol i14).
    rewrite Hlast. reflexivity. }
  assert (Hno : Forall (fun c => dt c <> GeometryDtype) (columns sel14)).
  { cbn [sel14 columns]. apply Forall_forall. intros c Hin.
    apply in_map_iff in Hin as (i & <- & Hi).
    destruct (Forall2_In_r _ _ _ _ HF14 Hi) as ([k v] & Hkv & Hp).
    cbn [fst] in Hp. unfold gcol.
    rewrite (renamed_column trl_cols NoDup_trl_keys df k v i);
      [|apply Hincl; exact Hkv | exact Hp].
    cbn [dt]. intros Hd.
    assert (Hk : nth_error (labels df) i = Some k)
      by (apply positions_spec; rewrite Hp; left; reflexivity).
    unfold labels in Hk. rewrite nth_error_map in Hk.
    destruct (nth_error (columns df) i) as [c|] eqn:Ec; [|discriminate].
    inversion Hk as [Hl]. rewrite (nth_error_nth _ _ no_column Ec) in Hd.
    pose proof (Honly c (nth_error_In _ _ Ec) Hd) as Hw.
    rewrite <- Hl, Hw in Hkv. clear - Hkv. cbn in Hkv.
    repeat (destruct Hkv as [Hkv|Hkv]; [inversion Hkv|]). contradiction. }
  assert (Hlab14 : ~ In "geometry" (labels sel14)).
  { assert (E : labels sel14 = values m14).
    { apply (take_renamed_labels trl_cols NoDup_trl_keys df ix14 m14).
      - exact Hincl.
      - exact HF14. }
    rewrite E. vm_compute. intuition discriminate. }
  set (F := mk_frame
              (columns (take (ix14 ++ [i14]) (rename trl_cols df)))
              (map (fun r => mk_row (idx r)
                               (map_at 14
                                  (reproject_cell reproject (crs gdf) 4326)
                                  (cells r)))
                   (rows (take (ix14 ++ [i14]) (rename trl_cols df))))).
  assert (Hmem : mem "geometry" (object_labels F) = false).
  { change "geometry" with (label (mk_column "geometry" GeometryDtype)).
    rewrite (object_mem_dtype F 14 (mk_column "geometry" GeometryDtype)).
    - reflexivity.
    - change (labels F)
        with (labels (take (ix14 ++ [i14]) (rename trl_cols df))).
      rewrite Hlab. apply NoDup_trl_values.
    - cbn [F columns]. rewrite Hcols.
      rewrite nth_error_app2
        by (cbn [sel14 columns]; rewrite length_map, Hlen14; lia).
      cbn [sel14 columns]. rewrite length_map, Hlen14. reflexivity. }
  apply rows_publishable. intros o Ho.
  unfold astype_str_objects in Ho. cbn [rows] in Ho.
  apply in_map_iff in Ho as (r1 & <- & Hr1). cbn [F rows] in Hr1.
  apply in_map_iff in Hr1 as (r2 & <- & Hr2).
  unfold take in Hr2. cbn [rows] in Hr2.
  apply in_map_iff in Hr2 as (r0 & <- & Hr0).
  unfold rename in Hr0. cbn [rows] in Hr0.
  destruct (Hall r0 Hr0) as (s & Hs).
  rewrite (cell_of_at _ _ _ _ Hi14) in Hs.
  cbn [cells idx take_row]. rewrite map_app. cbn [map]. rewrite Hs.
  replace 14%nat with (List.length (map (cell_at r0) ix14))
    by (rewrite length_map; exact Hlen14).
  rewrite map_at_snoc. cbn [reproject_cell].
  unfold astype_str_objects, labels. cbn [columns].
  change (columns F) with
    (columns (take (ix14 ++ [i14]) (rename trl_cols df))).
  rewrite Hcols.
  apply (output_row_publishable repr_float repr_int str_stamp wkt isoformat
           sel14 (object_labels F)
           (mk_row (idx r0) (map (cell_at r0) ix14))
           (reproject (crs gdf) 4326 s) Hno).
  - cbn [cells sel14 columns]. rewrite !length_map. reflexivity.
  - exact Hlab14.
  - exact Hmem.
Qed.

End TrailPipeline.

Lemma trails_output_publishable_witness :
  exists g,
    process_trails_shown complete_trails_frame = Ok g /\
    exists df1 features,
      AGO.fillna_empty (frame g) = Ok df1 /\
      AGO._gdf_to_geojson Samples.sample_isoformat
        (mk_geoframe (AGO.replace_none df1) (geometry_name g) (crs g))
      = Ok (AGO.PDict [("type", AGO.PStr "FeatureCollection");
                       ("features", AGO.PList features)]) /\
      List.length features = shape0 (frame g).
Proof.
  eexists. split; [vm_compute; reflexivity|].
  apply (trails_output_publishable show_Q show_Z show_Z show_geometry
           sample_reproject Samples.sample_isoformat complete_trails_frame).
  - vm_compute; reflexivity.
  - vm_compute; reflexivity.
  - intros c Hin Hd. cbn in Hin.
    repeat (destruct Hin as [<-|Hin]; [first [reflexivity | discriminate]|]).
    contradiction.
  - intros r Hr. cbn in Hr.
    repeat (destruct Hr as [<-|Hr]; [eexists; vm_compute; reflexivity|]).
    contradiction.
Defined.
